(** * EnvKit: a shallow embedding of [envkit.py]

    The program is a declarative bootstrapper: it loads a YAML
    configuration, resolves the platform, gathers secrets, installs
    packages and runs a list of download tasks, each optionally followed
    by archive extraction and script execution.

    The embedding has three layers.
    - Python values as the YAML loader produces them, with the dynamic
      type errors of the operations the program applies to them.
    - A program monad: a finite tree whose nodes are the calls the
      program makes to the outside world (file system, network,
      subprocesses, environment), whose other nodes record what is
      printed and which function of the program is entered, and whose
      leaves are a returned value or a raised exception.
    - The functions of [envkit.py], one definition each, in source order.

    Theorems are stated over an arbitrary outside world: a state type and
    a handler that answers every call.  A concrete reference world is
    given at the end for closed examples. *)

From Stdlib Require Import List String Ascii Bool Arith ZArith Lia.
Import ListNotations.
Local Open Scope string_scope.
Local Open Scope list_scope.

Set Implicit Arguments.
Set Warnings "-register-all".

(* ================================================================== *)
(** * Strings as Python uses them *)

Module PyString.

(** [s.startswith(p)] *)
Fixpoint startswith (p s : string) : bool :=
  match p, s with
  | EmptyString, _ => true
  | String a p', String b s' => Ascii.eqb a b && startswith p' s'
  | String _ _, EmptyString => false
  end.

(** [p in s] for two strings: [p] occurs somewhere in [s]. *)
Fixpoint contains (p s : string) : bool :=
  startswith p s ||
  match s with
  | EmptyString => false
  | String _ s' => contains p s'
  end.

(** [s.endswith(p)] *)
Fixpoint endswith (p s : string) : bool :=
  String.eqb p s ||
  match s with
  | EmptyString => false
  | String _ s' => endswith p s'
  end.

(** [s.replace(old, new)] for a non-empty [old]: occurrences are found
    left to right and do not overlap.  [skip] counts the characters of
    the occurrence just replaced that are still to be dropped. *)
Fixpoint replace_from (skip : nat) (old new s : string) : string :=
  match s with
  | EmptyString => EmptyString
  | String c s' =>
      match skip with
      | S k => replace_from k old new s'
      | O =>
          if startswith old s
          then (new ++ replace_from (String.length old - 1) old new s')%string
          else String c (replace_from 0 old new s')
      end
  end.

Definition replace (old new s : string) : string :=
  replace_from 0 old new s.

(** [s.split(sep)] for a one-character separator; [cur] is the segment
    read so far. *)
Fixpoint split_from (sep : ascii) (cur : string) (s : string) : list string :=
  match s with
  | EmptyString => [cur]
  | String c s' =>
      if Ascii.eqb c sep
      then cur :: split_from sep EmptyString s'
      else split_from sep (cur ++ String c EmptyString)%string s'
  end.

Definition split (sep : ascii) (s : string) : list string :=
  split_from sep EmptyString s.

(** [s.split(sep)[-1]]; [split] never returns the empty list. *)
Definition last_segment (sep : ascii) (s : string) : string :=
  List.last (split sep s) EmptyString.

(** [s.rfind('.')] as an option: the index of the last dot. *)
Fixpoint rfind_dot (s : string) : option nat :=
  match s with
  | EmptyString => None
  | String c s' =>
      match rfind_dot s' with
      | Some i => Some (S i)
      | None => if Ascii.eqb c "."%char then Some 0 else None
      end
  end.

(** [s[i:]] *)
Fixpoint drop (i : nat) (s : string) : string :=
  match i, s with
  | O, _ => s
  | S k, EmptyString => EmptyString
  | S k, String _ s' => drop k s'
  end.

(** [s[:i]] *)
Fixpoint take (i : nat) (s : string) : string :=
  match i, s with
  | O, _ => EmptyString
  | S k, EmptyString => EmptyString
  | S k, String c s' => String c (take k s')
  end.

(** The one-character strings of [s], as iteration over a [str] yields. *)
Fixpoint chars (s : string) : list string :=
  match s with
  | EmptyString => []
  | String c s' => String c EmptyString :: chars s'
  end.

End PyString.

(* ================================================================== *)
(** * [pathlib] paths (POSIX flavour)

    A path is its root ([''], ['/'] or ['//']) and its parts; parsing a
    string drops empty and ['.'] components. *)

Module PurePath.

Inductive root := Rel | Abs | Abs2.

Record t := mk { p_root : root; p_parts : list string }.

Definition root_eqb (a b : root) : bool :=
  match a, b with
  | Rel, Rel | Abs, Abs | Abs2, Abs2 => true
  | _, _ => false
  end.

(** [posixpath.splitroot]: exactly two leading slashes are kept as
    ['//'], one or three and more are ['/']. *)
Definition parse_root (s : string) : root :=
  match s with
  | String "/" (String "/" (String "/" _)) => Abs
  | String "/" (String "/" _) => Abs2
  | String "/" _ => Abs
  | _ => Rel
  end.

Definition keep_part (x : string) : bool :=
  negb (String.eqb x "") && negb (String.eqb x ".").

(** [Path(s)] for a string [s]. *)
Definition parse (s : string) : t :=
  mk (parse_root s) (filter keep_part (PyString.split "/" s)).

(** [p / s] for a string [s]: an absolute [s] replaces [p]. *)
Definition join (p : t) (s : string) : t :=
  let q := parse s in
  match p_root q with
  | Rel => mk (p_root p) (p_parts p ++ p_parts q)
  | _ => q
  end.

(** [p.name] *)
Definition name (p : t) : string := List.last (p_parts p) "".

(** [p.parent] *)
Definition parent (p : t) : t := mk (p_root p) (List.removelast (p_parts p)).

(** The suffix of a file name: from the last dot, when that dot is
    neither the first nor the last character. *)
Definition suffix_of (n : string) : string :=
  match PyString.rfind_dot n with
  | Some i =>
      if Nat.ltb 0 i && Nat.ltb i (String.length n - 1)
      then PyString.drop i n else ""
  | None => ""
  end.

(** [p.suffix] *)
Definition suffix (p : t) : string := suffix_of (name p).

(** [p.with_suffix(sfx)]; [None] stands for the [ValueError] raised on
    a path with an empty name. *)
Definition with_suffix (sfx : string) (p : t) : option t :=
  let n := name p in
  if String.eqb n "" then None
  else
    let old := suffix_of n in
    let stem := PyString.take (String.length n - String.length old) n in
    Some (mk (p_root p) (List.removelast (p_parts p) ++ [(stem ++ sfx)%string])).

Definition root_str (r : root) : string :=
  match r with Rel => "" | Abs => "/" | Abs2 => "//" end.

(** [str(p)] *)
Definition to_string (p : t) : string :=
  match p_root p, p_parts p with
  | Rel, [] => "."
  | r, parts => (root_str r ++ String.concat "/" parts)%string
  end.

Definition eqb (a b : t) : bool :=
  root_eqb (p_root a) (p_root b) &&
  (if list_eq_dec string_dec (p_parts a) (p_parts b) then true else false).

End PurePath.

(** ** Facts about splitting *)

Module PyStringFacts.
Import PyString.

(** No character of [s] is [sep]. *)
Fixpoint free_of (sep : ascii) (s : string) : bool :=
  match s with
  | EmptyString => true
  | String c s' => negb (Ascii.eqb c sep) && free_of sep s'
  end.

Lemma contains_slash_free (s : string) :
  contains "/" s = false -> free_of "/" s = true.
Proof.
  induction s as [| c s IH]; [reflexivity|].
  intros H.
  change (contains "/" (String c s))
    with ((Ascii.eqb "/" c && true) || contains "/" s) in H.
  change (free_of "/" (String c s))
    with (negb (Ascii.eqb c "/") && free_of "/" s).
  apply Bool.orb_false_iff in H. destruct H as [Hc Hs].
  rewrite (IH Hs). rewrite Bool.andb_true_r in *.
  rewrite Ascii.eqb_sym, Hc. reflexivity.
Qed.

Lemma split_from_nonempty (sep : ascii) (cur s : string) :
  split_from sep cur s <> [].
Proof.
  revert cur. induction s as [| c s IH]; intros cur; simpl; [discriminate|].
  destruct (Ascii.eqb c sep); [discriminate | apply IH].
Qed.

Lemma last_cons_nonempty {A : Type} (x d : A) (l : list A) :
  l <> [] -> List.last (x :: l) d = List.last l d.
Proof. destruct l; [contradiction | reflexivity]. Qed.

Lemma append_assoc (a b c : string) :
  ((a ++ b) ++ c)%string = (a ++ (b ++ c))%string.
Proof. induction a as [| x a IH]; simpl; [reflexivity | rewrite IH; reflexivity]. Qed.

(** A string without separator is one segment. *)
Lemma split_from_free (sep : ascii) (cur s : string) :
  free_of sep s = true -> split_from sep cur s = [(cur ++ s)%string].
Proof.
  revert cur. induction s as [| c s IH]; intros cur; simpl.
  - intros _. f_equal.
    induction cur as [| x cur IHc]; simpl; [reflexivity|].
    rewrite <- IHc. reflexivity.
  - intros H. apply Bool.andb_true_iff in H. destruct H as [Hc Hs].
    apply Bool.negb_true_iff in Hc. rewrite Hc.
    rewrite (IH _ Hs). rewrite append_assoc. reflexivity.
Qed.

(** The last segment of [a ++ sep ++ b] is [b] when [b] has no
    separator. *)
Lemma last_split_from_app (sep : ascii) (cur a b : string) :
  free_of sep b = true ->
  List.last (split_from sep cur (a ++ String sep b)) EmptyString = b.
Proof.
  intros Hb. revert cur. induction a as [| c a IH]; intros cur; simpl.
  - rewrite Ascii.eqb_refl. rewrite (split_from_free _ "" _ Hb). reflexivity.
  - destruct (Ascii.eqb c sep).
    + rewrite last_cons_nonempty by apply split_from_nonempty. apply IH.
    + apply IH.
Qed.

Lemma last_segment_app (owner slug : string) :
  contains "/" slug = false ->
  last_segment "/" (owner ++ "/" ++ slug) = slug.
Proof.
  intros H. unfold last_segment, split.
  apply (last_split_from_app "/" "" owner slug).
  apply contains_slash_free, H.
Qed.

(** ** Facts about containment *)

Lemma startswith_empty (s : string) : startswith "" s = true.
Proof. destruct s; reflexivity. Qed.

Lemma startswith_cons (c : ascii) (p s : string) :
  startswith (String c p) (String c s) = startswith p s.
Proof. simpl. rewrite Ascii.eqb_refl. reflexivity. Qed.

Lemma contains_of_startswith (p s : string) :
  startswith p s = true -> contains p s = true.
Proof. intros H. destruct s; simpl; rewrite H; reflexivity. Qed.

Lemma contains_cons (p : string) (c : ascii) (s : string) :
  contains p s = true -> contains p (String c s) = true.
Proof. intros H. simpl. rewrite H. apply Bool.orb_true_r. Qed.

Lemma contains_drop (p : string) (n : nat) (s : string) :
  contains p (drop n s) = true -> contains p s = true.
Proof.
  revert s. induction n as [| n IH]; intros s H; [exact H|].
  destruct s as [| c s]; [exact H|].
  apply contains_cons, IH, H.
Qed.

End PyStringFacts.

Arguments PurePath.parse : simpl never.
Arguments PurePath.join : simpl never.
Arguments PurePath.parent : simpl never.
Arguments PurePath.name : simpl never.
Arguments PurePath.suffix : simpl never.
Arguments PurePath.with_suffix : simpl never.
Arguments PurePath.to_string : simpl never.
Arguments PyString.contains : simpl never.
Arguments PyString.startswith : simpl never.
Arguments PyString.endswith : simpl never.
Arguments PyString.replace : simpl never.
Arguments PyString.last_segment : simpl never.

Example parse_data : PurePath.parse "/data" = PurePath.mk PurePath.Abs ["data"].
Proof. reflexivity. Qed.

Example parse_dot : PurePath.parse "." = PurePath.mk PurePath.Rel [].
Proof. reflexivity. Qed.

Example join_titanic :
  PurePath.to_string (PurePath.join (PurePath.parse "/data") "titanic.zip")
  = "/data/titanic.zip".
Proof. reflexivity. Qed.

Example suffix_targz :
  PurePath.suffix (PurePath.parse "a/b.tar.gz") = ".gz".
Proof. reflexivity. Qed.

Example replace_blob :
  PyString.replace "/blob/" "/" "https://github.com/o/r/blob/main/f.py"
  = "https://github.com/o/r/main/f.py".
Proof. reflexivity. Qed.

Example last_segment_titanic :
  PyString.last_segment "/" "alice/titanic" = "titanic".
Proof. reflexivity. Qed.

(* ================================================================== *)
(** * Python values

    The values the YAML loader produces ([None], booleans, integers,
    strings, sequences, mappings with string keys) and [pathlib] paths,
    which the pipeline builds itself.  Floating point scalars are not
    modelled. *)

Inductive pyval :=
| VNone
| VBool (b : bool)
| VInt (z : Z)
| VStr (s : string)
| VList (l : list pyval)
| VDict (d : list (string * pyval))
| VPath (p : PurePath.t).

Definition dict := list (string * pyval).

(** Exception classes.  Every class here derives from [Exception]; the
    program's [except] clauses name [ImportError], [FileNotFoundError],
    [yaml.YAMLError], [subprocess.CalledProcessError] and [Exception]. *)
Inductive exn :=
| CalledProcessError
| ImportError
| FileNotFoundError
| YAMLError
| TypeError
| AttributeError
| ValueError
| UnboundLocalError
| OSError
| OtherException.

Inductive result (A : Type) :=
| Ok (a : A)
| Err (e : exn).
Arguments Ok {A} a.
Arguments Err {A} e.

Module Py.

(** Truth value of an object, as [if x:] and [not x] test it. *)
Definition truthy (v : pyval) : bool :=
  match v with
  | VNone => false
  | VBool b => b
  | VInt z => negb (Z.eqb z 0)
  | VStr s => negb (String.eqb s "")
  | VList l => match l with [] => false | _ => true end
  | VDict d => match d with [] => false | _ => true end
  | VPath _ => true
  end.

(** Truth value of an optional string ([None] or a [str]). *)
Definition truthy_opt (o : option string) : bool :=
  match o with
  | Some s => negb (String.eqb s "")
  | None => false
  end.

(** [x is True] *)
Definition is_True (v : pyval) : bool :=
  match v with VBool true => true | _ => false end.

(** [isinstance(x, dict)], [isinstance(x, str)] *)
Definition is_dict (v : pyval) : bool :=
  match v with VDict _ => true | _ => false end.
Definition is_str (v : pyval) : bool :=
  match v with VStr _ => true | _ => false end.

(** [x == s] for a string literal [s]. *)
Definition eq_str (v : pyval) (s : string) : bool :=
  match v with VStr s' => String.eqb s' s | _ => false end.

(** [d[k]] / [k in d] on a mapping. *)
Fixpoint lookup (k : string) (d : dict) : option pyval :=
  match d with
  | [] => None
  | (k', v) :: d' => if String.eqb k' k then Some v else lookup k d'
  end.

Definition has_key (k : string) (d : dict) : bool :=
  match lookup k d with Some _ => true | None => false end.

(** [d.get(k, default)] on a mapping. *)
Definition dict_get (d : dict) (k : string) (default : pyval) : pyval :=
  match lookup k d with Some v => v | None => default end.

(** [x.get(k, default)]: only mappings have [get]. *)
Definition get (x : pyval) (k : string) (default : pyval) : result pyval :=
  match x with
  | VDict d => Ok (dict_get d k default)
  | _ => Err AttributeError
  end.

(** [len(x)] *)
Definition len (x : pyval) : result nat :=
  match x with
  | VStr s => Ok (String.length s)
  | VList l => Ok (List.length l)
  | VDict d => Ok (List.length d)
  | _ => Err TypeError
  end.

(** The items [for y in x] and [list.extend(x)] go through. *)
Definition iter (x : pyval) : result (list pyval) :=
  match x with
  | VStr s => Ok (map VStr (PyString.chars s))
  | VList l => Ok l
  | VDict d => Ok (map (fun kv => VStr (fst kv)) d)
  | _ => Err TypeError
  end.

(** [s in x] for a string literal [s]: substring test on a string,
    membership on a sequence, key test on a mapping. *)
Definition contains (s : string) (x : pyval) : result bool :=
  match x with
  | VStr t => Ok (PyString.contains s t)
  | VList l => Ok (existsb (fun y => eq_str y s) l)
  | VDict d => Ok (has_key s d)
  | _ => Err TypeError
  end.

(** [x.startswith(p)] *)
Definition startswith (x : pyval) (p : string) : result bool :=
  match x with
  | VStr s => Ok (PyString.startswith p s)
  | _ => Err AttributeError
  end.

(** [x.replace(old, new)] with two string arguments. *)
Definition replace (x : pyval) (old new : string) : result pyval :=
  match x with
  | VStr s => Ok (VStr (PyString.replace old new s))
  | VPath _ => Err TypeError
  | _ => Err AttributeError
  end.

(** [x.split('/')[-1]] *)
Definition split_last (x : pyval) : result string :=
  match x with
  | VStr s => Ok (PyString.last_segment "/" s)
  | _ => Err AttributeError
  end.

(** [Path(x)] *)
Definition Path (x : pyval) : result PurePath.t :=
  match x with
  | VStr s => Ok (PurePath.parse s)
  | VPath p => Ok p
  | _ => Err TypeError
  end.

End Py.

(* ================================================================== *)
(** * The outside world and the program monad *)

(** One element of a subprocess command line. *)
Inductive arg :=
| SysExecutable
| Arg (v : pyval).

Definition lit (s : string) : arg := Arg (VStr s).

(** Calls to the outside world, indexed by the type of their answer.
    An answer of type [result _] is a normal return or an exception. *)
Inductive Cmd : Type -> Type :=
(* importlib / constructors *)
| Import (module : string) : Cmd (result unit)
| NewUserSecretsClient : Cmd (result unit)
(* secret stores and environment *)
| ColabUserdataGet (name : string) : Cmd (result string)
| KaggleGetSecret (name : string) : Cmd (result string)
| LoadDotenv : Cmd (result bool)
| GetEnv (name : string) : Cmd (option string)
| SetEnv (name value : string) : Cmd unit
(* file system *)
| LoadYaml (path : string) : Cmd (result pyval)
| PathExists (p : PurePath.t) : Cmd bool
| PathIsFile (p : PurePath.t) : Cmd bool
| Mkdir (p : PurePath.t) : Cmd (result unit)
| OsRemove (p : PurePath.t) : Cmd (result unit)
| ZipExtractAll (archive : PurePath.t) (target_dir : pyval) : Cmd (result unit)
| TarExtractAll (archive : PurePath.t) (target_dir : pyval) : Cmd (result unit)
(* network *)
| UrlRetrieve (url target : pyval) : Cmd (result unit)
| NewRequest (url : pyval) : Cmd (result unit)
| UrlOpenCopy (url : pyval) (authorization : option string) (target : pyval)
    : Cmd (result unit)
(* subprocess.run(argv, check=True) *)
| SubprocessRun (argv : list arg) : Cmd (result unit).

(** Pieces of a printed f-string: literal text and interpolated values. *)
Inductive frag :=
| Txt (s : string)
| Val (v : pyval)
| Exc (e : exn)
| Num (n : nat)
| Pth (p : PurePath.t).

(** Entries into the functions of the program, with their arguments. *)
Inductive call :=
| call_install_packages (config : pyval)
| call_detect_platform
| call_get_secrets (platform : string)
| call_extract_file (file_path extract_to remove_archieve : pyval)
| call_execute_script (script_path : pyval)
| call_download_file (url target_path : pyval)
| call_download_github (url target_path : pyval) (resource_type : string)
    (token : option string)
| call_download_kaggle (name target_path : pyval) (resource_type : string)
| call_process_downloads (config : pyval)
| call_setup (yaml_path : string).

Inductive note :=
| Printed (m : list frag)
| Called (c : call).

Inductive Prog (A : Type) : Type :=
| Ret (a : A)
| Raise (e : exn)
| Note (n : note) (k : Prog A)
| Do (R : Type) (c : Cmd R) (k : R -> Prog A).
Arguments Ret {A} a.
Arguments Raise {A} e.
Arguments Note {A} n k.
Arguments Do {A R} c k.

Fixpoint bind {A B : Type} (p : Prog A) (f : A -> Prog B) : Prog B :=
  match p with
  | Ret a => f a
  | Raise e => Raise e
  | Note n k => Note n (bind k f)
  | Do c k => Do c (fun r => bind (k r) f)
  end.

(** [try: p  except <classes> as e: h e] *)
Fixpoint try_except {A : Type} (p : Prog A) (catches : exn -> bool)
    (h : exn -> Prog A) : Prog A :=
  match p with
  | Ret a => Ret a
  | Raise e => if catches e then h e else Raise e
  | Note n k => Note n (try_except k catches h)
  | Do c k => Do c (fun r => try_except (k r) catches h)
  end.

Declare Scope prog_scope.
Delimit Scope prog_scope with prog.
Bind Scope prog_scope with Prog.
Notation "x <- p ;; q" := (bind p (fun x => q))
  (at level 61, p at next level, right associativity) : prog_scope.
Notation "p ;; q" := (bind p (fun _ => q))
  (at level 61, right associativity) : prog_scope.
Local Open Scope prog_scope.

(** A pure operation that may raise. *)
Definition lift {A : Type} (r : result A) : Prog A :=
  match r with Ok a => Ret a | Err e => Raise e end.

(** A call whose exception, if any, is raised in the program. *)
Definition do_ {A : Type} (c : Cmd (result A)) : Prog A :=
  Do c lift.

(** A call that cannot raise. *)
Definition ask {R : Type} (c : Cmd R) : Prog R := Do c Ret.

Definition print (m : list frag) : Prog unit := Note (Printed m) (Ret tt).
Definition enter (c : call) : Prog unit := Note (Called c) (Ret tt).

Definition any_exception (e : exn) : bool := true.
Definition is_CalledProcessError (e : exn) : bool :=
  match e with CalledProcessError => true | _ => false end.
Definition is_ImportError (e : exn) : bool :=
  match e with ImportError => true | _ => false end.

(** [for x in items: body x] *)
Fixpoint for_each {A : Type} (items : list A) (body : A -> Prog unit) : Prog unit :=
  match items with
  | [] => Ret tt
  | x :: rest => body x ;; for_each rest body
  end.

(* ================================================================== *)
(** * The functions of [envkit.py] *)

(** The secrets mapping: its three keys are always present, each bound
    to [None] or to a string. *)
Record Secrets := mkSecrets {
  GITHUB_TOKEN : option string;
  KAGGLE_USERNAME : option string;
  KAGGLE_KEY : option string
}.

Definition no_secrets : Secrets := mkSecrets None None None.

Definition opt_val (o : option string) : pyval :=
  match o with Some s => VStr s | None => VNone end.

Section EnvKit.

(** [str(x)] for a value that is not a string, as an f-string renders
    it; left abstract. *)
Variable py_format : pyval -> string.

Definition py_str (v : pyval) : string :=
  match v with
  | VStr s => s
  | _ => py_format v
  end.

(** ** install_packages *)

Definition install_packages (config : pyval) : Prog unit :=
  enter (call_install_packages config) ;;
  packages <- lift (Py.get config "packages" (VList [])) ;;
  if negb (Py.truthy packages) then
    print [Txt "[EnvKit] Info: No package installation tasks found"]
  else
    let packages := if Py.is_str packages then VList [packages] else packages in
    n <- lift (Py.len packages) ;;
    print [Txt "[EnvKit] Info: Installing "; Num n; Txt " packages..."] ;;
    items <- lift (Py.iter packages) ;;
    let cmd := [SysExecutable; lit "-m"; lit "pip"; lit "install"]
               ++ map Arg items in
    try_except
      (do_ (SubprocessRun cmd) ;;
       print [Txt "[EnvKit] Info: Package installation completed"])
      is_CalledProcessError
      (fun e => print [Txt "[EnvKit] Warning: Package installation failed (";
                       Exc e; Txt ")"]).

(** ** detect_platform *)

Definition detect_platform : Prog string :=
  enter call_detect_platform ;;
  r <- ask (Import "google.colab") ;;
  match r with
  | Ok _ => Ret "colab"
  | Err e =>
      if is_ImportError e then
        a <- ask (PathExists (PurePath.parse "/kaggle/")) ;;
        b <- (if a then ask (PathExists (PurePath.parse "/kaggle/input/"))
              else Ret false) ;;
        c <- (if b then ask (PathExists (PurePath.parse "/kaggle/working/"))
              else Ret false) ;;
        d <- (if c then ask (PathExists (PurePath.parse "/kaggle/temp/"))
              else Ret false) ;;
        if d then Ret "kaggle" else Ret "local"
      else Raise e
  end.

(** ** get_secrets *)

(** [try: secrets[k] = <lookup>  except Exception: pass] *)
Definition try_lookup (c : Cmd (result string)) : Prog (option string) :=
  r <- ask c ;;
  Ret (match r with Ok s => Some s | Err _ => None end).

Definition warn_missing (name : string) (o : option string) : Prog unit :=
  match o with
  | None => print [Txt "[EnvKit] Warning: "; Txt name; Txt " not found"]
  | Some _ => Ret tt
  end.

Definition get_secrets (platform : string) : Prog Secrets :=
  enter (call_get_secrets platform) ;;
  print [Txt "[EnvKit] Info: Loading secrets for platform "; Txt platform;
         Txt "..."] ;;
  secrets <-
    (if String.eqb platform "colab" then
       try_except
         (do_ (Import "google.colab") ;;
          g <- try_lookup (ColabUserdataGet "GITHUB_TOKEN") ;;
          u <- try_lookup (ColabUserdataGet "KAGGLE_USERNAME") ;;
          k <- try_lookup (ColabUserdataGet "KAGGLE_KEY") ;;
          Ret (mkSecrets g u k))
         is_ImportError
         (fun _ =>
            print [Txt "[EnvKit] Warning: Failed to import userdata from google.colab"] ;;
            print [Txt "[EnvKit] Warning: Skipped colab secrets"] ;;
            Ret no_secrets)
     else if String.eqb platform "kaggle" then
       try_except
         (do_ (Import "kaggle_secrets") ;;
          do_ NewUserSecretsClient ;;
          g <- try_lookup (KaggleGetSecret "GITHUB_TOKEN") ;;
          u <- try_lookup (KaggleGetSecret "KAGGLE_USERNAME") ;;
          k <- try_lookup (KaggleGetSecret "KAGGLE_KEY") ;;
          Ret (mkSecrets g u k))
         is_ImportError
         (fun _ =>
            print [Txt "[EnvKit] Warning: Failed to import UserSecretsClient from kaggle_secrets"] ;;
            print [Txt "[EnvKit] Warning: Skipped kaggle secrets"] ;;
            Ret no_secrets)
     else
       try_except
         (do_ LoadDotenv ;;
          g <- ask (GetEnv "GITHUB_TOKEN") ;;
          u <- ask (GetEnv "KAGGLE_USERNAME") ;;
          k <- ask (GetEnv "KAGGLE_KEY") ;;
          Ret (mkSecrets g u k))
         any_exception
         (fun e =>
            print [Txt "[EnvKit] Warning: Failed to load .env ("; Exc e; Txt ")"] ;;
            print [Txt "[EnvKit] Warning: Skipped .env"] ;;
            Ret no_secrets)) ;;
  warn_missing "GITHUB_TOKEN" (GITHUB_TOKEN secrets) ;;
  warn_missing "KAGGLE_USERNAME" (KAGGLE_USERNAME secrets) ;;
  warn_missing "KAGGLE_KEY" (KAGGLE_KEY secrets) ;;
  Ret secrets.

(** ** extract_file *)

Definition is_tar_name (n : string) : bool :=
  PyString.endswith ".tar" n || PyString.endswith ".tar.gz" n
  || PyString.endswith ".tar.xz" n || PyString.endswith ".tgz" n.

Definition extract_file (file_path extract_to remove_archieve : pyval)
  : Prog unit :=
  enter (call_extract_file file_path extract_to remove_archieve) ;;
  path <- lift (Py.Path file_path) ;;
  exists_ <- ask (PathExists path) ;;
  if negb exists_ then
    print [Txt "[EnvKit] Warning: File not found ("; Val file_path; Txt ")"]
  else
    is_file <- ask (PathIsFile path) ;;
    if negb is_file then
      print [Txt "[EnvKit] Warning: Not a file ("; Val file_path; Txt ")"]
    else
      let target_dir :=
        if Py.truthy extract_to then extract_to
        else VPath (PurePath.parent path) in
      print [Txt "[EnvKit] Info: Extracting "; Txt (PurePath.name path);
             Txt " -> "; Val target_dir] ;;
      let finish : Prog unit :=
        print [Txt "[EnvKit] Info: Extraction completed."] ;;
        if Py.truthy remove_archieve then
          do_ (OsRemove path) ;;
          print [Txt "[EnvKit] Info: Removed source archieve (";
                 Txt (PurePath.name path); Txt ")"]
        else Ret tt in
      try_except
        (if String.eqb (PurePath.suffix path) ".zip" then
           do_ (ZipExtractAll path target_dir) ;; finish
         else if is_tar_name (PurePath.name path) then
           do_ (TarExtractAll path target_dir) ;; finish
         else
           print [Txt "[EnvKit] Warning: Unknown archive format (";
                  Val file_path; Txt ")"] ;;
           print [Txt "[EnvKit] Warning: Skipped extraction"])
        any_exception
        (fun e => print [Txt "[EnvKit] Warning: Extraction failed (";
                         Exc e; Txt ")"]).

(** ** execute_script *)

Definition path_arg (p : PurePath.t) : arg :=
  Arg (VStr (PurePath.to_string p)).

Definition execute_script (script_path : pyval) : Prog unit :=
  enter (call_execute_script script_path) ;;
  path <- lift (Py.Path script_path) ;;
  exists_ <- ask (PathExists path) ;;
  if negb exists_ then
    print [Txt "[EnvKit] Warning: Script not found ("; Val script_path; Txt ")"]
  else
    is_file <- ask (PathIsFile path) ;;
    if negb is_file then
      print [Txt "[EnvKit] Warning: Not a file ("; Val script_path; Txt ")"]
    else
      print [Txt "[EnvKit] Info: Executing script ("; Val script_path; Txt ")"] ;;
      let finished := print [Txt "[EnvKit] Info: Execution finished successfully."] in
      try_except
        (if String.eqb (PurePath.suffix path) ".ipynb" then
           print [Txt "[EnvKit] Info: Converting notebook to python script..."] ;;
           do_ (SubprocessRun [SysExecutable; lit "-m"; lit "jupyter";
                               lit "nbconvert"; lit "--to"; lit "python";
                               path_arg path]) ;;
           match PurePath.with_suffix ".py" path with
           | None => Raise ValueError
           | Some py_file_path =>
               converted <- ask (PathExists py_file_path) ;;
               if negb converted then
                 print [Txt "[EnvKit] Warning: Converted script not found (";
                        Pth py_file_path; Txt ")"]
               else
                 print [Txt "[EnvKit] Info: Running converted script (";
                        Pth py_file_path; Txt ")"] ;;
                 do_ (SubprocessRun [SysExecutable; path_arg py_file_path]) ;;
                 finished
           end
         else if String.eqb (PurePath.suffix path) ".py" then
           print [Txt "[EnvKit] Info: Running script ("; Pth path; Txt ")"] ;;
           do_ (SubprocessRun [SysExecutable; path_arg path]) ;;
           finished
         else
           print [Txt "[EnvKit] Warning: Skipped execution for non-python file (";
                  Txt (PurePath.name path); Txt ")"] ;;
           finished)
        is_CalledProcessError
        (fun e => print [Txt "[EnvKit] Warning: Execution failed (";
                         Exc e; Txt ")"]).

(** ** download_file *)

Definition download_file (url target_path : pyval) : Prog unit :=
  enter (call_download_file url target_path) ;;
  print [Txt "[EnvKit] Info: Downloading from URL ("; Val url; Txt " -> ";
         Val target_path; Txt ")"] ;;
  try_except
    (p <- lift (Py.Path target_path) ;;
     do_ (Mkdir (PurePath.parent p)) ;;
     do_ (UrlRetrieve url target_path) ;;
     print [Txt "[EnvKit] Info: Download completed"])
    any_exception
    (fun e => print [Txt "[EnvKit] Warning: Download failed ("; Exc e; Txt ")"]).

(** ** download_github *)

(** The URL the file branch requests: a URL that contains both
    ['github.com'] and ['/blob/'] is rewritten, any other is kept. *)
Definition raw_url_of (url : pyval) : Prog pyval :=
  has_host <- lift (Py.contains "github.com" url) ;;
  has_blob <- (if has_host then lift (Py.contains "/blob/" url)
               else Ret false) ;;
  if has_blob then
    u1 <- lift (Py.replace url "github.com" "raw.githubusercontent.com") ;;
    lift (Py.replace u1 "/blob/" "/")
  else Ret url.

Definition download_github (url target_path : pyval) (resource_type : string)
    (token : option string) : Prog unit :=
  enter (call_download_github url target_path resource_type token) ;;
  print [Txt "[EnvKit] Info: Processing github "; Txt resource_type; Txt " (";
         Val url; Txt " -> "; Val target_path; Txt ")"] ;;
  if String.eqb resource_type "repo" then
    final_url <-
      (match token with
       | Some tok =>
           if Py.truthy_opt token then
             https <- lift (Py.startswith url "https://") ;;
             if https
             then lift (Py.replace url "https://" ("https://" ++ tok ++ "@"))
             else Ret url
           else Ret url
       | None => Ret url
       end) ;;
    try_except
      (p <- lift (Py.Path target_path) ;;
       exists_ <- ask (PathExists p) ;;
       if exists_ then
         print [Txt "[EnvKit] Warning: Target path "; Val target_path;
                Txt " already exists"] ;;
         print [Txt "[EnvKit] Warning: Skipped clone"]
       else
         do_ (SubprocessRun [lit "git"; lit "clone"; Arg final_url;
                             Arg target_path]) ;;
         print [Txt "[EnvKit] Info: Git clone completed"])
      is_CalledProcessError
      (fun e => print [Txt "[EnvKit] Warning: Git clone failed ("; Exc e; Txt ")"])
  else if String.eqb resource_type "file" then
    is_tree <- lift (Py.contains "/tree/" url) ;;
    if is_tree then
      print [Txt "[EnvKit] Warning: URL contains '/tree/', which is a folder"] ;;
      print [Txt "[EnvKit] Warning: 'github_file' is for single file only"]
    else
      raw_url <- raw_url_of url ;;
      try_except
        (do_ (NewRequest raw_url) ;;
         let authorization :=
           match token with
           | Some tok => if Py.truthy_opt token
                         then Some ("token " ++ tok)%string else None
           | None => None
           end in
         p <- lift (Py.Path target_path) ;;
         do_ (Mkdir (PurePath.parent p)) ;;
         do_ (UrlOpenCopy raw_url authorization target_path) ;;
         print [Txt "[EnvKit] Info: GitHub file download completed"])
        any_exception
        (fun e =>
           print [Txt "[EnvKit] Warning: GitHub file download failed (";
                  Exc e; Txt ")"] ;;
           print [Txt "[EnvKit] Debug: Raw URL is "; Val raw_url])
  else
    print [Txt "[EnvKit] Warning: Unknown resource type ("; Txt resource_type;
           Txt ")"].

(** ** download_kaggle *)

Definition download_kaggle (name target_path : pyval) (resource_type : string)
  : Prog unit :=
  enter (call_download_kaggle name target_path resource_type) ;;
  print [Txt "[EnvKit] Info: Downloading kaggle "; Txt resource_type; Txt " (";
         Val name; Txt " -> "; Val target_path; Txt ")"] ;;
  cmd <-
    (if String.eqb resource_type "competition_files" then
       Ret [lit "kaggle"; lit "competitions"; lit "download"; lit "-c"]
     else if String.eqb resource_type "dataset" then
       Ret [lit "kaggle"; lit "datasets"; lit "download"; lit "-d"]
     else Raise UnboundLocalError) ;;
  let cmd := cmd ++ [Arg name; lit "-p"; Arg target_path] in
  try_except
    (do_ (SubprocessRun cmd) ;;
     print [Txt "[EnvKit] Info: Kaggle download completed"])
    is_CalledProcessError
    (fun e =>
       print [Txt "[EnvKit] Warning: Kaggle download failed ("; Exc e; Txt ")"] ;;
       print [Txt "[EnvKit] Tip: Check if the competition/dataset name is correct"] ;;
       print [Txt "[EnvKit] Tip: Check if you accepted the competition rules on Kaggle website"]).

(** ** process_downloads *)

(** The source dispatch of one task, lines 296-310: runs the fetcher
    of the first source key present and returns
    [kaggle_downloaded_archive_path]. *)
Definition fetch_task (secrets : Secrets) (task : dict) (target_path : pyval)
  : Prog pyval :=
  match Py.lookup "url" task with
  | Some url => download_file url target_path ;; Ret VNone
  | None =>
  match Py.lookup "github_file" task with
  | Some url =>
      download_github url target_path "file" (GITHUB_TOKEN secrets) ;;
      Ret VNone
  | None =>
  match Py.lookup "github_repo" task with
  | Some url =>
      download_github url target_path "repo" (GITHUB_TOKEN secrets) ;;
      Ret VNone
  | None =>
  match Py.lookup "kaggle_competition" task with
  | Some name =>
      download_kaggle name target_path "competition_files" ;;
      p <- lift (Py.Path target_path) ;;
      Ret (VPath (PurePath.join p (py_str name ++ ".zip")))
  | None =>
  match Py.lookup "kaggle_dataset" task with
  | Some name =>
      download_kaggle name target_path "dataset" ;;
      dataset_slug <- lift (Py.split_last name) ;;
      p <- lift (Py.Path target_path) ;;
      Ret (VPath (PurePath.join p (dataset_slug ++ ".zip")))
  | None => Ret VNone
  end end end end end.

(** The extraction step of one task, lines 312-317; returns the value
    of [target_path] after the step. *)
Definition extract_task (task : dict) (target_path archive_path : pyval)
  : Prog pyval :=
  if Py.is_True (Py.dict_get task "extract" VNone) then
    let extract_to := Py.dict_get task "extract_to" VNone in
    let remove_archieve := Py.dict_get task "remove_compression" (VBool false) in
    let target_path :=
      if Py.has_key "kaggle_competition" task || Py.has_key "kaggle_dataset" task
      then archive_path else target_path in
    extract_file target_path extract_to remove_archieve ;;
    Ret target_path
  else Ret target_path.

(** The execution step of one task, lines 319-320. *)
Definition execute_task (task : dict) (target_path : pyval) : Prog unit :=
  if Py.is_True (Py.dict_get task "execute" VNone)
  then execute_script target_path
  else Ret tt.

(** The body of the loop over tasks, lines 294-320. *)
Definition process_task (secrets : Secrets) (task : pyval) : Prog unit :=
  match task with
  | VDict d =>
      let target_path := Py.dict_get d "path" (VStr ".") in
      archive_path <- fetch_task secrets d target_path ;;
      target_path <- extract_task d target_path archive_path ;;
      execute_task d target_path
  | _ => Raise AttributeError
  end.

Definition process_downloads (config : pyval) (secrets : Secrets) : Prog unit :=
  enter (call_process_downloads config) ;;
  tasks <- lift (Py.get config "download" (VList [])) ;;
  if negb (Py.truthy tasks) then
    print [Txt "[EnvKit] Info: No download tasks found"]
  else
    let tasks := if Py.is_dict tasks then VList [tasks] else tasks in
    n <- lift (Py.len tasks) ;;
    print [Txt "[EnvKit] Info: Processing "; Num n; Txt " download tasks..."] ;;
    items <- lift (Py.iter tasks) ;;
    for_each items (process_task secrets).

(** ** setup *)

(** [platform in ['auto', 'colab', 'kaggle', 'local']], with the
    string it is equal to. *)
Definition known_platform (platform : pyval) : option string :=
  match platform with
  | VStr s =>
      if String.eqb s "auto" || String.eqb s "colab"
         || String.eqb s "kaggle" || String.eqb s "local"
      then Some s else None
  | _ => None
  end.

(** Lines 349-355: the Kaggle credentials go to the process
    environment when both are truthy. *)
Definition set_kaggle_credentials (secrets : Secrets) : Prog unit :=
  match KAGGLE_USERNAME secrets, KAGGLE_KEY secrets with
  | Some u, Some k =>
      if Py.truthy_opt (Some u) && Py.truthy_opt (Some k) then
        ask (SetEnv "KAGGLE_USERNAME" u) ;;
        ask (SetEnv "KAGGLE_KEY" k) ;;
        print [Txt "[EnvKit] Info: Kaggle credentials set for "; Txt u]
      else print [Txt "[EnvKit] Warning: Kaggle credentials not set"]
  | _, _ => print [Txt "[EnvKit] Warning: Kaggle credentials not set"]
  end.

Definition setup (yaml_path : string) : Prog pyval :=
  enter (call_setup yaml_path) ;;
  loaded <- ask (LoadYaml yaml_path) ;;
  match loaded with
  | Err FileNotFoundError =>
      print [Txt "[EnvKit] Error: Config file not found ("; Txt yaml_path;
             Txt ")"] ;;
      Ret (VBool false)
  | Err YAMLError =>
      print [Txt "[EnvKit] Error: YAML syntax error ("; Exc YAMLError;
             Txt ")"] ;;
      Ret (VBool false)
  | Err e => Raise e
  | Ok config =>
      print [Txt "[EnvKit] Info: Config file is "; Txt yaml_path] ;;
      platform <- lift (Py.get config "platform" (VStr "auto")) ;;
      match known_platform platform with
      | None =>
          print [Txt "[EnvKit] Error: Invalid platform ("; Val platform;
                 Txt ")"] ;;
          Ret VNone
      | Some platform =>
          platform <- (if String.eqb platform "auto" then detect_platform
                       else Ret platform) ;;
          print [Txt "[EnvKit] Info: Platform is "; Txt platform] ;;
          secrets <- get_secrets platform ;;
          set_kaggle_credentials secrets ;;
          install_packages config ;;
          process_downloads config secrets ;;
          Ret (VBool true)
      end
  end.

(** ** main

    [command] and [yaml_path] are the parsed arguments; the value
    returned is the status handed to [sys.exit]. *)
Definition main (command yaml_path : string) : Prog Z :=
  is_successful <-
    (if String.eqb command "setup" then setup yaml_path
     else print [Txt "[EnvKit] Error: Invalid command"] ;; Ret (VBool false)) ;;
  Ret (if Py.truthy is_successful then 0%Z else 1%Z).

End EnvKit.

(* ================================================================== *)
(** * Running a program in a world *)

(** What a run leaves behind: the notes of the program and its calls to
    the world, each call with the answer it got. *)
Inductive event :=
| ENote (n : note)
| ECmd (R : Type) (c : Cmd R) (r : R).
Arguments ECmd {R} c r.

Record Run (W A : Type) := mkRun {
  trace : list event;
  outcome : result A;
  final : W
}.
Arguments mkRun {W A} trace outcome final.

Section Semantics.

Variable W : Type.
Variable handle : forall R : Type, Cmd R -> W -> R * W.

Fixpoint run {A : Type} (p : Prog A) (w : W) : Run W A :=
  match p with
  | Ret a => mkRun [] (Ok a) w
  | Raise e => mkRun [] (Err e) w
  | Note n k =>
      let r := run k w in
      mkRun (ENote n :: trace r) (outcome r) (final r)
  | Do c k =>
      let aw := handle c w in
      let r := run (k (fst aw)) (snd aw) in
      mkRun (ECmd c (fst aw) :: trace r) (outcome r) (final r)
  end.

(** Sequencing: the second program runs in the world the first one
    left, unless the first one raised. *)
Definition then_run {A B : Type} (r1 : Run W A) (f : A -> Prog B) : Run W B :=
  match outcome r1 with
  | Ok a =>
      let r2 := run (f a) (final r1) in
      mkRun (trace r1 ++ trace r2) (outcome r2) (final r2)
  | Err e => mkRun (trace r1) (Err e) (final r1)
  end.

Lemma run_bind {A B : Type} (p : Prog A) (f : A -> Prog B) (w : W) :
  run (bind p f) w = then_run (run p w) f.
Proof.
  revert w. induction p as [a | e | n k IH | R c k IH]; intros w; simpl.
  - unfold then_run; simpl. destruct (run (f a) w); reflexivity.
  - reflexivity.
  - rewrite IH. unfold then_run; simpl.
    destruct (outcome (run k w)); reflexivity.
  - rewrite IH. unfold then_run; simpl.
    destruct (outcome (run (k (fst (handle c w))) (snd (handle c w))));
      reflexivity.
Qed.

(** Exception handling: the handler runs in the world the body left. *)
Definition catch_run {A : Type} (r1 : Run W A) (catches : exn -> bool)
    (h : exn -> Prog A) : Run W A :=
  match outcome r1 with
  | Ok a => r1
  | Err e =>
      if catches e then
        let r2 := run (h e) (final r1) in
        mkRun (trace r1 ++ trace r2) (outcome r2) (final r2)
      else r1
  end.

Lemma run_try_except {A : Type} (p : Prog A) catches (h : exn -> Prog A) (w : W) :
  run (try_except p catches h) w = catch_run (run p w) catches h.
Proof.
  revert w. induction p as [a | e | n k IH | R c k IH]; intros w; simpl.
  - reflexivity.
  - unfold catch_run; simpl. destruct (catches e); [|reflexivity].
    destruct (run (h e) w); reflexivity.
  - rewrite IH. unfold catch_run.
    destruct (run k w) as [tr [a | e] w']; simpl; [reflexivity|].
    destruct (catches e); reflexivity.
  - rewrite IH. unfold catch_run.
    destruct (run (k (fst (handle c w))) (snd (handle c w)))
      as [tr [a | e] w']; simpl; [reflexivity|].
    destruct (catches e); reflexivity.
Qed.

(** ** Properties of every event a program can produce *)

Fixpoint emits_only (P : event -> Prop) {A : Type} (p : Prog A) : Prop :=
  match p with
  | Ret _ => True
  | Raise _ => True
  | Note n k => P (ENote n) /\ emits_only P k
  | Do c k => forall r, P (ECmd c r) /\ emits_only P (k r)
  end.

Lemma emits_only_run (P : event -> Prop) {A : Type} (p : Prog A) (w : W) :
  emits_only P p -> Forall P (trace (run p w)).
Proof.
  revert w. induction p as [a | e | n k IH | R c k IH]; intros w H; simpl in *.
  - constructor.
  - constructor.
  - destruct H as [Hn Hk]. constructor; auto.
  - destruct (H (fst (handle c w))) as [Hc Hk]. constructor; auto.
Qed.

End Semantics.

Lemma emits_only_bind (P : event -> Prop) {A B : Type} (p : Prog A) (f : A -> Prog B) :
  emits_only P p -> (forall a, emits_only P (f a)) -> emits_only P (bind p f).
Proof.
  induction p as [a | e | n k IH | R c k IH]; simpl; intros Hp Hf; auto.
  - destruct Hp; split; auto.
  - intros r. destruct (Hp r); split; auto.
Qed.

Lemma emits_only_try_except (P : event -> Prop) {A : Type} (p : Prog A) catches
    (h : exn -> Prog A) :
  emits_only P p -> (forall e, emits_only P (h e)) ->
  emits_only P (try_except p catches h).
Proof.
  induction p as [a | e | n k IH | R c k IH]; simpl; intros Hp Hh; auto.
  - destruct (catches e); simpl; auto.
  - destruct Hp; split; auto.
  - intros r. destruct (Hp r); split; auto.
Qed.

Lemma emits_only_lift (P : event -> Prop) {A : Type} (r : result A) :
  emits_only P (lift r).
Proof. destruct r; simpl; exact I. Qed.

Lemma emits_only_for_each (P : event -> Prop) {A : Type} (items : list A)
    (body : A -> Prog unit) :
  (forall x, emits_only P (body x)) -> emits_only P (for_each items body).
Proof.
  intros H. induction items as [| x rest IH]; simpl; [exact I|].
  apply emits_only_bind; auto.
Qed.

(** ** Observations on traces *)

(** The functions entered, in order. *)
Definition call_of (e : event) : option call :=
  match e with
  | ENote (Called c) => Some c
  | _ => None
  end.

Fixpoint filter_map {A B : Type} (f : A -> option B) (l : list A) : list B :=
  match l with
  | [] => []
  | x :: rest =>
      match f x with
      | Some y => y :: filter_map f rest
      | None => filter_map f rest
      end
  end.

Lemma filter_map_app {A B : Type} (f : A -> option B) (l1 l2 : list A) :
  filter_map f (l1 ++ l2) = filter_map f l1 ++ filter_map f l2.
Proof.
  induction l1 as [| x rest IH]; simpl; [reflexivity|].
  destruct (f x); simpl; rewrite IH; reflexivity.
Qed.

Lemma filter_map_none {A B : Type} (f : A -> option B) (l : list A) :
  Forall (fun x => f x = None) l -> filter_map f l = [].
Proof.
  induction 1 as [| x rest Hx _ IH]; simpl; [reflexivity|].
  rewrite Hx. exact IH.
Qed.

(** Calls of the extractor: [(file_path, extract_to, remove_archieve)]. *)
Definition extract_call_of (e : event) : option (pyval * pyval * pyval) :=
  match e with
  | ENote (Called (call_extract_file a b c)) => Some (a, b, c)
  | _ => None
  end.

(** Calls of the script runner: [script_path]. *)
Definition execute_call_of (e : event) : option pyval :=
  match e with
  | ENote (Called (call_execute_script a)) => Some a
  | _ => None
  end.

Definition extract_calls (tr : list event) := filter_map extract_call_of tr.
Definition execute_calls (tr : list event) := filter_map execute_call_of tr.

(** The subprocesses started, each with its command line and how it
    ended. *)
Definition subprocess_of (e : event) : option (list arg * result unit) :=
  match e with
  | ECmd c r =>
      match c in Cmd R return R -> option (list arg * result unit) with
      | SubprocessRun argv => fun r => Some (argv, r)
      | _ => fun _ => None
      end r
  | _ => None
  end.

Definition subprocesses (tr : list event) := filter_map subprocess_of tr.

(** The lines printed. *)
Definition printed_of (e : event) : option (list frag) :=
  match e with
  | ENote (Printed m) => Some m
  | _ => None
  end.

Definition printed (tr : list event) := filter_map printed_of tr.

(** The functions of the program entered. *)
Definition calls (tr : list event) := filter_map call_of tr.

(** The existence tests made, each with its answer. *)
Definition exists_test_of (e : event) : option (PurePath.t * bool) :=
  match e with
  | ECmd c r =>
      match c in Cmd R return R -> option (PurePath.t * bool) with
      | PathExists p => fun r => Some (p, r)
      | _ => fun _ => None
      end r
  | _ => None
  end.

Definition exists_tests (tr : list event) := filter_map exists_test_of tr.

(** The command lines of [git clone] and of the Kaggle download. *)
Definition git_clone (url target : pyval) : list arg :=
  [lit "git"; lit "clone"; Arg url; Arg target].

Definition kaggle_download (kind flag : string) (name target : pyval)
  : list arg :=
  [lit "kaggle"; lit kind; lit "download"; lit flag; Arg name; lit "-p";
   Arg target].

(* ================================================================== *)
(** * A reference world

    A small concrete world for closed examples: a file system that knows
    which paths exist and which are regular files, the process
    environment, the contents of the [.env] file, the configuration
    files, and the archives whose extraction fails.  It runs on a local
    machine: the Colab and Kaggle modules cannot be imported. *)

Module RefWorld.

Record world := mk {
  files : list (PurePath.t * bool);
  environ : list (string * string);
  dotenv : list (string * string);
  configs : list (string * pyval);
  broken_archives : list PurePath.t
}.

Fixpoint getenv (name : string) (env : list (string * string)) : option string :=
  match env with
  | [] => None
  | (k, v) :: rest => if String.eqb k name then Some v else getenv name rest
  end.

Fixpoint find_file (p : PurePath.t) (fs : list (PurePath.t * bool)) : option bool :=
  match fs with
  | [] => None
  | (q, is_file) :: rest =>
      if PurePath.eqb q p then Some is_file else find_file p rest
  end.

Definition remove_file (p : PurePath.t) (fs : list (PurePath.t * bool)) :=
  filter (fun qf => negb (PurePath.eqb (fst qf) p)) fs.

Definition with_files (w : world) fs :=
  mk fs (environ w) (dotenv w) (configs w) (broken_archives w).
Definition with_environ (w : world) env :=
  mk (files w) env (dotenv w) (configs w) (broken_archives w).

Definition extractall (archive : PurePath.t) (w : world) : result unit * world :=
  if existsb (PurePath.eqb archive) (broken_archives w)
  then (Err OtherException, w) else (Ok tt, w).

(** The answers of the reference world.  [load_dotenv] adds the
    variables of the [.env] file that the environment does not have
    yet; an assignment to [os.environ] shadows the older binding. *)
Definition handle (R : Type) (c : Cmd R) (w : world) : R * world :=
  match c in Cmd R return R * world with
  | Import _ => (Err ImportError, w)
  | NewUserSecretsClient => (Err OtherException, w)
  | ColabUserdataGet _ => (Err OtherException, w)
  | KaggleGetSecret _ => (Err OtherException, w)
  | LoadDotenv => (Ok true, with_environ w (environ w ++ dotenv w))
  | GetEnv name => (getenv name (environ w), w)
  | SetEnv name value => (tt, with_environ w ((name, value) :: environ w))
  | LoadYaml path =>
      (match Py.lookup path (configs w) with
       | Some config => Ok config
       | None => Err FileNotFoundError
       end, w)
  | PathExists p =>
      (match find_file p (files w) with Some _ => true | None => false end, w)
  | PathIsFile p =>
      (match find_file p (files w) with Some f => f | None => false end, w)
  | Mkdir _ => (Ok tt, w)
  | OsRemove p =>
      match find_file p (files w) with
      | Some _ => (Ok tt, with_files w (remove_file p (files w)))
      | None => (Err FileNotFoundError, w)
      end
  | ZipExtractAll archive _ => extractall archive w
  | TarExtractAll archive _ => extractall archive w
  | UrlRetrieve _ _ => (Ok tt, w)
  | NewRequest _ => (Ok tt, w)
  | UrlOpenCopy _ _ _ => (Ok tt, w)
  | SubprocessRun _ => (Ok tt, w)
  end.

Definition empty : world := mk [] [] [] [] [].

(** Non-string values are not rendered in the examples. *)
Definition format (v : pyval) : string := "".

End RefWorld.

(* ================================================================== *)
(** * The task pipeline without tasks *)

Section Pipeline_empty.

Variable py_format : pyval -> string.
Variable W : Type.
Variable handle : forall R : Type, Cmd R -> W -> R * W.

(** C6.  When the configuration has no [download] key, or the key maps
    to an empty sequence, [process_downloads] only prints its
    information line: it calls nothing in the outside world (no fetch,
    no extraction, no execution), enters no other function, leaves the
    world as it found it and returns normally. *)
Theorem process_downloads_without_tasks :
  forall (config : dict) (secrets : Secrets) (w : W),
    Py.lookup "download" config = None \/
    Py.lookup "download" config = Some (VList []) ->
    run handle (process_downloads py_format (VDict config) secrets) w =
    mkRun
      [ENote (Called (call_process_downloads (VDict config)));
       ENote (Printed [Txt "[EnvKit] Info: No download tasks found"])]
      (Ok tt) w.
Proof.
  intros config secrets w H.
  unfold process_downloads; simpl. unfold Py.dict_get.
  destruct H as [H | H]; rewrite H; reflexivity.
Qed.

End Pipeline_empty.

Lemma process_downloads_without_tasks_witness :
  (Py.lookup "download" [("platform", VStr "local")] = None \/
   Py.lookup "download" [("platform", VStr "local")] = Some (VList [])) /\
  run RefWorld.handle
    (process_downloads RefWorld.format (VDict [("platform", VStr "local")])
       no_secrets) RefWorld.empty =
  mkRun
    [ENote (Called (call_process_downloads (VDict [("platform", VStr "local")])));
     ENote (Printed [Txt "[EnvKit] Info: No download tasks found"])]
    (Ok tt) RefWorld.empty.
Proof.
  split.
  - left; reflexivity.
  - apply (@process_downloads_without_tasks RefWorld.format _ RefWorld.handle).
    left; reflexivity.
Defined.

(* ================================================================== *)
(** * Fatal configuration errors *)

(** The status of the process: the argument of [sys.exit], or 1 when an
    exception reaches the top level. *)
Definition exit_status (r : result Z) : Z :=
  match r with
  | Ok status => status
  | Err _ => 1%Z
  end.

Lemma known_platform_none (platform : pyval) :
  platform <> VStr "auto" -> platform <> VStr "colab" ->
  platform <> VStr "kaggle" -> platform <> VStr "local" ->
  known_platform platform = None.
Proof.
  intros Ha Hc Hk Hl. destruct platform as [| | | s | | |]; try reflexivity.
  simpl.
  destruct (String.eqb_spec s "auto") as [-> |]; [contradiction|].
  destruct (String.eqb_spec s "colab") as [-> |]; [contradiction|].
  destruct (String.eqb_spec s "kaggle") as [-> |]; [contradiction|].
  destruct (String.eqb_spec s "local") as [-> |]; [contradiction|].
  reflexivity.
Qed.

Section Fatal.

Variable py_format : pyval -> string.
Variable W : Type.
Variable handle : forall R : Type, Cmd R -> W -> R * W.

(** C7.  When the configuration file loads as a mapping whose
    [platform] value is none of auto, colab, kaggle and local, the run
    of [main] consists of loading the file, the information line and
    the error line "Invalid platform", and nothing else: no secret is
    looked up, no package installed, no download task started.  The
    process exits with status 1. *)
Theorem invalid_platform_is_fatal :
  forall (yaml_path : string) (config : dict) (platform : pyval) (w : W),
    fst (handle (LoadYaml yaml_path) w) = Ok (VDict config) ->
    Py.lookup "platform" config = Some platform ->
    platform <> VStr "auto" -> platform <> VStr "colab" ->
    platform <> VStr "kaggle" -> platform <> VStr "local" ->
    let r := run handle (main py_format "setup" yaml_path) w in
    trace r =
      [ENote (Called (call_setup yaml_path));
       ECmd (LoadYaml yaml_path) (Ok (VDict config));
       ENote (Printed [Txt "[EnvKit] Info: Config file is "; Txt yaml_path]);
       ENote (Printed [Txt "[EnvKit] Error: Invalid platform ("; Val platform;
                       Txt ")"])]
    /\ outcome r = Ok 1%Z
    /\ exit_status (outcome r) <> 0%Z
    /\ final r = snd (handle (LoadYaml yaml_path) w).
Proof.
  intros yaml_path config platform w Hload Hplat Ha Hc Hk Hl.
  pose proof (known_platform_none Ha Hc Hk Hl) as Hknown.
  unfold main, setup; simpl. rewrite Hload; simpl.
  unfold Py.dict_get. rewrite Hplat; simpl. rewrite Hknown; simpl.
  repeat split. discriminate.
Qed.

End Fatal.

Definition bogus_world : RefWorld.world :=
  RefWorld.mk [] [] []
    [("envkit.yaml",
      VDict [("platform", VStr "bogus");
             ("download", VList [VDict [("url", VStr "https://x/file.zip")]])])]
    [].

Definition bogus_config : dict :=
  [("platform", VStr "bogus");
   ("download", VList [VDict [("url", VStr "https://x/file.zip")]])].

Lemma invalid_platform_is_fatal_witness :
  fst (RefWorld.handle (LoadYaml "envkit.yaml") bogus_world)
  = Ok (VDict bogus_config) /\
  Py.lookup "platform" bogus_config = Some (VStr "bogus") /\
  let r := run RefWorld.handle (main RefWorld.format "setup" "envkit.yaml")
             bogus_world in
  List.length (trace r) = 4 /\ outcome r = Ok 1%Z /\ final r = bogus_world.
Proof.
  split; [reflexivity|]. split; [reflexivity|].
  destruct (@invalid_platform_is_fatal RefWorld.format _ RefWorld.handle
              "envkit.yaml" bogus_config (VStr "bogus") bogus_world)
    as (Htrace & Hout & _ & Hfinal);
    try reflexivity; try discriminate.
  cbv zeta. rewrite Htrace, Hout, Hfinal. repeat split.
Defined.

(* ================================================================== *)
(** * GitHub sources *)

Section GitHub.

Variable W : Type.
Variable handle : forall R : Type, Cmd R -> W -> R * W.

(** C4, as the code has it.  A repository task whose target path
    exists when the fetcher tests it, and whose URL is a string or
    which has no non-empty token: the run of [download_github] is the
    existence test and two warning lines.  No subprocess is started,
    so nothing is cloned; nothing but the test touches the file
    system, so the existing path is left as it is; and the function
    returns normally without the "Git clone failed" warning, so the
    task is skipped, not failed.

    The condition on the URL is needed: with a non-empty token the
    code calls [url.startswith] before the [try] and before the
    existence test, so a URL that is not a string raises
    [AttributeError] there.  Nothing is cloned and nothing is tested
    then either, but the task is not skipped with a warning: the
    exception leaves the fetcher. *)
Theorem existing_target_skips_clone :
  forall (url target_path : pyval) (p : PurePath.t) (token : option string)
         (w : W),
    Py.Path target_path = Ok p ->
    fst (handle (PathExists p) w) = true ->
    Py.is_str url = true \/ Py.truthy_opt token = false ->
    run handle (download_github url target_path "repo" token) w =
    mkRun
      [ENote (Called (call_download_github url target_path "repo" token));
       ENote (Printed [Txt "[EnvKit] Info: Processing github "; Txt "repo";
                       Txt " ("; Val url; Txt " -> "; Val target_path;
                       Txt ")"]);
       ECmd (PathExists p) true;
       ENote (Printed [Txt "[EnvKit] Warning: Target path ";
                       Val target_path; Txt " already exists"]);
       ENote (Printed [Txt "[EnvKit] Warning: Skipped clone"])]
      (Ok tt)
      (snd (handle (PathExists p) w)).
Proof.
  intros url target_path p token w Hpath Hexists Hurl.
  unfold download_github; simpl.
  destruct token as [tok |]; simpl.
  - destruct (negb (tok =? "")%string) eqn:Htok; simpl.
    + destruct Hurl as [Hurl | Hurl]; [| simpl in Hurl; congruence].
      destruct url as [| | | u | | |]; simpl in Hurl; try discriminate Hurl.
      simpl.
      destruct (PyString.startswith "https://" u); simpl;
        rewrite Hpath; simpl; rewrite Hexists; reflexivity.
    + rewrite Hpath; simpl; rewrite Hexists; reflexivity.
  - rewrite Hpath; simpl; rewrite Hexists; reflexivity.
Qed.

(** With a non-empty token, a repository URL that is not a string
    raises [AttributeError] as soon as the token is put into it:
    after the first printed line the run is over, whatever the target
    path is and whether it exists or not. *)
Lemma repo_url_must_be_text_with_token :
  forall (url target_path : pyval) (tok : string) (w : W),
    Py.is_str url = false ->
    tok <> "" ->
    run handle (download_github url target_path "repo" (Some tok)) w =
    mkRun
      [ENote (Called (call_download_github url target_path "repo" (Some tok)));
       ENote (Printed [Txt "[EnvKit] Info: Processing github "; Txt "repo";
                       Txt " ("; Val url; Txt " -> "; Val target_path;
                       Txt ")"])]
      (Err AttributeError) w.
Proof.
  intros url target_path tok w Hurl Htok.
  apply String.eqb_neq in Htok.
  unfold download_github; simpl. rewrite Htok; simpl.
  destruct url; simpl in Hurl; try discriminate Hurl; reflexivity.
Qed.

End GitHub.

Definition cloned_world : RefWorld.world :=
  RefWorld.mk [(PurePath.parse "work/repo", false)] [] [] [] [].

Lemma existing_target_skips_clone_witness :
  Py.Path (VStr "work/repo") = Ok (PurePath.parse "work/repo") /\
  fst (RefWorld.handle (PathExists (PurePath.parse "work/repo")) cloned_world)
  = true /\
  (Py.is_str (VStr "https://github.com/o/r.git") = true \/
   Py.truthy_opt (Some "t0ken") = false) /\
  let r := run RefWorld.handle
             (download_github (VStr "https://github.com/o/r.git")
                (VStr "work/repo") "repo" (Some "t0ken")) cloned_world in
  List.length (trace r) = 5 /\ subprocesses (trace r) = [] /\
  outcome r = Ok tt /\ final r = cloned_world.
Proof.
  split; [reflexivity |]. split; [reflexivity |].
  split; [left; reflexivity |].
  cbv zeta.
  rewrite (@existing_target_skips_clone _ RefWorld.handle
             (VStr "https://github.com/o/r.git") (VStr "work/repo")
             (PurePath.parse "work/repo") (Some "t0ken")
             cloned_world eq_refl eq_refl (or_introl eq_refl)).
  repeat split.
Defined.

(** A repository task without a URL ([github_repo:] left empty in the
    configuration), run with a token, towards a target that exists:
    the fetcher raises [AttributeError].  The target is not even
    tested, neither of the two "skipped" warnings is printed, and the
    task does not end normally. *)
Lemma existing_target_with_null_url_raises :
  let r := run RefWorld.handle
             (download_github VNone (VStr "work/repo") "repo" (Some "t0ken"))
             cloned_world in
  fst (RefWorld.handle (PathExists (PurePath.parse "work/repo")) cloned_world)
  = true /\
  outcome r = Err AttributeError /\
  exists_tests (trace r) = [] /\
  subprocesses (trace r) = [] /\
  ~ In [Txt "[EnvKit] Warning: Skipped clone"] (printed (trace r)).
Proof.
  cbv zeta. repeat split; try reflexivity.
  simpl. intros [H | []]. discriminate H.
Qed.

(* ================================================================== *)
(** * Archive extraction *)

(** The paths handed to [os.remove]. *)
Definition removal_of (e : event) : option PurePath.t :=
  match e with
  | ECmd c _ =>
      match c with
      | OsRemove p => Some p
      | _ => None
      end
  | _ => None
  end.

(** The extractions attempted, each with the archive and how it ended. *)
Definition extraction_of (e : event) : option (PurePath.t * result unit) :=
  match e with
  | ECmd c r =>
      match c in Cmd R return R -> option (PurePath.t * result unit) with
      | ZipExtractAll archive _ => fun r => Some (archive, r)
      | TarExtractAll archive _ => fun r => Some (archive, r)
      | _ => fun _ => None
      end r
  | _ => None
  end.

Definition removals (tr : list event) := filter_map removal_of tr.
Definition extractions (tr : list event) := filter_map extraction_of tr.

(** One step of a symbolic run: case analysis on the next answer of the
    world or on the next test of the program. *)
Ltac run_step handle :=
  match goal with
  | |- context [lift ?x] => is_var x; destruct x; simpl
  | |- context [handle ?c ?w] =>
      let a := fresh "a" in let w' := fresh "w" in let E := fresh "E" in
      destruct (handle c w) as [a w'] eqn:E; simpl
  | |- context [if ?b then _ else _] =>
      let E := fresh "E" in destruct b eqn:E; simpl
  | |- context [match ?x with Ok _ => _ | Err _ => _ end] =>
      let E := fresh "E" in destruct x eqn:E; simpl
  end.

Section Extraction.

Variable W : Type.
Variable handle : forall R : Type, Cmd R -> W -> R * W.

(** C5.  In every run of [extract_file]:
    - a path is handed to [os.remove] only when [remove_archieve] is
      truthy, the path is the archive itself, and the one extraction
      of the run ended without an exception;
    - when an extraction raised, nothing is handed to [os.remove];
    - when the name has neither the [.zip] suffix nor a tar ending,
      nothing is extracted and nothing is handed to [os.remove].
    The function has no other way to delete a file, so in the last two
    cases the archive stays where it is. *)
Theorem archive_removed_only_after_extraction :
  forall (file_path extract_to remove_archieve : pyval) (w : W),
    let tr := trace (run handle
                       (extract_file file_path extract_to remove_archieve) w) in
    (forall p, In p (removals tr) ->
       Py.truthy remove_archieve = true /\
       Py.Path file_path = Ok p /\
       extractions tr = [(p, Ok tt)])
    /\ (forall archive e, In (archive, Err e) (extractions tr) ->
          removals tr = [])
    /\ (forall p, Py.Path file_path = Ok p ->
          PurePath.suffix p <> ".zip" ->
          is_tar_name (PurePath.name p) = false ->
          extractions tr = [] /\ removals tr = []).
Proof.
  intros file_path extract_to remove_archieve w.
  unfold extract_file; simpl.
  destruct (Py.Path file_path) as [path | e0] eqn:Hpath; simpl.
  2:{ repeat split; try (intros; contradiction); discriminate. }
  repeat (run_step handle);
    repeat match goal with u : unit |- _ => destruct u end;
    unfold removals, extractions; simpl;
    (split;
     [ intros p0 Hin; simpl in Hin; intuition (subst; auto)
     | split;
       [ intros archive e' Hin; simpl in Hin; intuition (try congruence)
       | intros p0 Hp Hzip Htar; injection Hp as <-;
         try (exfalso; apply Hzip; apply String.eqb_eq; assumption);
         try congruence; split; reflexivity ] ]).
Qed.

End Extraction.

(** A broken archive stays in the reference world's file system even
    when its removal was asked for; a sound one is removed. *)
Example broken_archive_is_kept :
  let w := RefWorld.mk [(PurePath.parse "/tmp/a/file.zip", true)] [] [] []
             [PurePath.parse "/tmp/a/file.zip"] in
  let r := run RefWorld.handle
             (extract_file (VStr "/tmp/a/file.zip") VNone (VBool true)) w in
  outcome r = Ok tt /\ RefWorld.files (final r) = RefWorld.files w.
Proof. split; reflexivity. Qed.

Example sound_archive_is_removed :
  let w := RefWorld.mk [(PurePath.parse "/tmp/a/file.zip", true)] [] [] [] [] in
  let r := run RefWorld.handle
             (extract_file (VStr "/tmp/a/file.zip") VNone (VBool true)) w in
  outcome r = Ok tt /\ RefWorld.files (final r) = [] /\
  extractions (trace r) = [(PurePath.parse "/tmp/a/file.zip", Ok tt)].
Proof. repeat split; reflexivity. Qed.

(* ================================================================== *)
(** * GitHub files *)

(** The URLs a [urllib.request.Request] is built for. *)
Definition request_of (e : event) : option pyval :=
  match e with
  | ECmd c _ =>
      match c with
      | NewRequest url => Some url
      | _ => None
      end
  | _ => None
  end.

(** The URLs opened on the network. *)
Definition fetch_of (e : event) : option pyval :=
  match e with
  | ECmd c _ =>
      match c with
      | UrlOpenCopy url _ _ => Some url
      | UrlRetrieve url _ => Some url
      | _ => None
      end
  | _ => None
  end.

Definition requests (tr : list event) := filter_map request_of tr.
Definition fetches (tr : list event) := filter_map fetch_of tr.

(** The diagnostic line printed when a file download fails. *)
Definition raw_url_debug (url : pyval) : event :=
  ENote (Printed [Txt "[EnvKit] Debug: Raw URL is "; Val url]).

(** The host of a URL as a reader of the specification takes it: the
    text between ["://"] and the next ['/']. *)
Module Url.

Fixpoint after_scheme (s : string) : string :=
  match s with
  | EmptyString => EmptyString
  | String c s' =>
      if PyString.startswith "://" s then PyString.drop 3 s
      else after_scheme s'
  end.

Fixpoint until_slash (s : string) : string :=
  match s with
  | EmptyString => EmptyString
  | String c s' =>
      if Ascii.eqb c "/" then EmptyString else String c (until_slash s')
  end.

Definition host (url : string) : string := until_slash (after_scheme url).

End Url.

Example host_of_blob_url :
  Url.host "https://github.com/o/r/blob/main/f.py" = "github.com".
Proof. reflexivity. Qed.

(** Membership in an explicit list. *)
Ltac in_list := simpl; repeat (first [ left; reflexivity | right ]).

Ltac fetched_as_done :=
  split; [reflexivity |
  split; [reflexivity |
  first [ left; reflexivity
        | right; split; [reflexivity | solve [in_list] ] ] ] ].

Section GitHubFile.

Variable W : Type.
Variable handle : forall R : Type, Cmd R -> W -> R * W.

(** C3, as the code has it.  For a file task with a string URL:
    - a URL that contains ['/tree/'] is rejected with two warnings and
      no call to the outside world at all;
    - otherwise, when the URL contains the text ['github.com']
      (anywhere, not only as its host) and the text ['/blob/'], the
      request is built for the URL in which every ['github.com'] is
      replaced by ['raw.githubusercontent.com'] and then every
      ['/blob/'] by ['/'];
    - otherwise the request is built for the URL unchanged.
    In the last two cases the function returns normally, and either
    exactly that URL is opened or the failure is reported with that
    URL in the diagnostic line; no other URL is ever opened. *)
Theorem github_file_fetch_target :
  forall (url : string) (target_path : pyval) (token : option string) (w : W),
    let r := run handle
               (download_github (VStr url) target_path "file" token) w in
    let rewritten :=
      VStr (PyString.replace "/blob/" "/"
              (PyString.replace "github.com" "raw.githubusercontent.com" url)) in
    let fetched_as (target : pyval) :=
      requests (trace r) = [target] /\
      outcome r = Ok tt /\
      (fetches (trace r) = [target] \/
       (fetches (trace r) = [] /\ In (raw_url_debug target) (trace r))) in
    (PyString.contains "/tree/" url = true ->
       r = mkRun
             [ENote (Called (call_download_github (VStr url) target_path
                               "file" token));
              ENote (Printed [Txt "[EnvKit] Info: Processing github ";
                              Txt "file"; Txt " ("; Val (VStr url);
                              Txt " -> "; Val target_path; Txt ")"]);
              ENote (Printed [Txt "[EnvKit] Warning: URL contains '/tree/', which is a folder"]);
              ENote (Printed [Txt "[EnvKit] Warning: 'github_file' is for single file only"])]
             (Ok tt) w)
    /\ (PyString.contains "/tree/" url = false ->
        PyString.contains "github.com" url = true ->
        PyString.contains "/blob/" url = true ->
        fetched_as rewritten)
    /\ (PyString.contains "/tree/" url = false ->
        PyString.contains "github.com" url = false \/
        PyString.contains "/blob/" url = false ->
        fetched_as (VStr url)).
Proof.
  intros url target_path token w. cbv zeta.
  unfold download_github, raw_url_of; simpl.
  split; [| split].
  - intros Htree. rewrite Htree. reflexivity.
  - intros Htree Hhost Hblob. rewrite Htree; simpl.
    rewrite Hhost; simpl. rewrite Hblob; simpl.
    unfold requests, fetches, raw_url_debug.
    destruct (Py.Path target_path); simpl;
      repeat (run_step handle); fetched_as_done.
  - intros Htree Hnot. rewrite Htree; simpl.
    assert (Hkeep :
      (if PyString.contains "github.com" url
       then PyString.contains "/blob/" url else false) = false).
    { destruct Hnot as [H | H]; rewrite H; [reflexivity|].
      destruct (PyString.contains "github.com" url); reflexivity. }
    destruct (PyString.contains "github.com" url) eqn:Hhost;
      try rewrite Hhost in Hkeep; simpl;
      try rewrite Hkeep; simpl;
      unfold requests, fetches, raw_url_debug;
      destruct (Py.Path target_path); simpl;
      repeat (run_step handle); fetched_as_done.
Qed.

End GitHubFile.

Definition mirror_url : string :=
  "https://example.org/mirrors/github.com/blob/notes.txt".

(** A URL on another host that merely contains the two texts is
    rewritten too. *)
Lemma github_file_other_host_rewritten :
  let r := run RefWorld.handle
             (download_github (VStr mirror_url) (VStr "notes.txt") "file" None)
             RefWorld.empty in
  PyString.contains "/tree/" mirror_url = false /\
  Url.host mirror_url = "example.org" /\
  Url.host mirror_url <> "github.com" /\
  fetches (trace r) =
    [VStr "https://example.org/mirrors/raw.githubusercontent.com/notes.txt"] /\
  fetches (trace r) <> [VStr mirror_url].
Proof.
  cbv zeta. repeat split; try reflexivity; discriminate.
Qed.

(* ================================================================== *)
(** * What each function may do

    Events are sorted into kinds; each function of the program is shown
    to produce events of a few kinds only. *)

Inductive kind :=
| KPrint                (* a printed line *)
| KEnterFetcher         (* download_file, download_github, download_kaggle *)
| KEnterExtract         (* extract_file *)
| KEnterExecute         (* execute_script *)
| KEnterOther           (* any other function of the program *)
| KImport               (* module import, client construction *)
| KSecretStore          (* Colab / Kaggle secret lookup *)
| KDotenv               (* load_dotenv *)
| KGetEnv
| KSetEnv
| KLoadYaml
| KStat                 (* exists / is_file *)
| KMkdir
| KRemove
| KExtractAll
| KNetwork              (* Request, urlopen, urlretrieve *)
| KPython               (* subprocess of the Python interpreter *)
| KTool.                (* subprocess of another program: git, kaggle *)

Definition kind_of_call (c : call) : kind :=
  match c with
  | call_download_file _ _ => KEnterFetcher
  | call_download_github _ _ _ _ => KEnterFetcher
  | call_download_kaggle _ _ _ => KEnterFetcher
  | call_extract_file _ _ _ => KEnterExtract
  | call_execute_script _ => KEnterExecute
  | _ => KEnterOther
  end.

Definition kind_of_cmd {R : Type} (c : Cmd R) : kind :=
  match c with
  | Import _ => KImport
  | NewUserSecretsClient => KImport
  | ColabUserdataGet _ => KSecretStore
  | KaggleGetSecret _ => KSecretStore
  | LoadDotenv => KDotenv
  | GetEnv _ => KGetEnv
  | SetEnv _ _ => KSetEnv
  | LoadYaml _ => KLoadYaml
  | PathExists _ => KStat
  | PathIsFile _ => KStat
  | Mkdir _ => KMkdir
  | OsRemove _ => KRemove
  | ZipExtractAll _ _ => KExtractAll
  | TarExtractAll _ _ => KExtractAll
  | UrlRetrieve _ _ => KNetwork
  | NewRequest _ => KNetwork
  | UrlOpenCopy _ _ _ => KNetwork
  | SubprocessRun (SysExecutable :: _) => KPython
  | SubprocessRun _ => KTool
  end.

Definition kind_of (e : event) : kind :=
  match e with
  | ENote (Printed _) => KPrint
  | ENote (Called c) => kind_of_call c
  | ECmd c _ => kind_of_cmd c
  end.

Definition of_kinds (ks : list kind) (e : event) : Prop := In (kind_of e) ks.

Lemma emits_only_impl (P Q : event -> Prop) {A : Type} (p : Prog A) :
  (forall e, P e -> Q e) -> emits_only P p -> emits_only Q p.
Proof.
  intros HPQ. induction p as [a | e | n k IH | R c k IH]; simpl; auto.
  - intros [Hn Hk]; split; auto.
  - intros H r. destruct (H r); split; auto.
Qed.

(** Proves that a program written with the combinators of the monad
    produces only events of the listed kinds. *)
Ltac emits_tac :=
  repeat (simpl; intros;
          match goal with
          | |- True => exact I
          | |- _ /\ _ => split
          | |- of_kinds _ _ => unfold of_kinds; solve [in_list]
          | |- emits_only _ (bind _ _) => apply emits_only_bind
          | |- emits_only _ (try_except _ _ _) => apply emits_only_try_except
          | |- emits_only _ (lift _) => apply emits_only_lift
          | |- emits_only _ (if ?b then _ else _) => destruct b
          | |- emits_only _ (match ?x with _ => _ end) => destruct x
          end).

Definition fetcher_kinds : list kind :=
  [KPrint; KEnterFetcher; KStat; KMkdir; KNetwork; KTool].

Lemma download_file_kinds (url target_path : pyval) :
  emits_only (of_kinds fetcher_kinds) (download_file url target_path).
Proof. unfold download_file. emits_tac. Qed.

Lemma download_github_kinds (url target_path : pyval) (rt : string)
    (token : option string) :
  emits_only (of_kinds fetcher_kinds) (download_github url target_path rt token).
Proof. unfold download_github, raw_url_of. emits_tac. Qed.

Lemma download_kaggle_kinds (name target_path : pyval) (rt : string) :
  emits_only (of_kinds fetcher_kinds) (download_kaggle name target_path rt).
Proof.
  unfold download_kaggle.
  destruct (rt =? "competition_files")%string;
    [| destruct (rt =? "dataset")%string]; emits_tac.
Qed.

Lemma fetch_task_kinds py_format (secrets : Secrets) (task : dict)
    (target_path : pyval) :
  emits_only (of_kinds fetcher_kinds)
    (fetch_task py_format secrets task target_path).
Proof.
  unfold fetch_task.
  destruct (Py.lookup "url" task);
    [apply emits_only_bind; [apply download_file_kinds | emits_tac] |].
  destruct (Py.lookup "github_file" task);
    [apply emits_only_bind; [apply download_github_kinds | emits_tac] |].
  destruct (Py.lookup "github_repo" task);
    [apply emits_only_bind; [apply download_github_kinds | emits_tac] |].
  destruct (Py.lookup "kaggle_competition" task);
    [apply emits_only_bind; [apply download_kaggle_kinds | emits_tac] |].
  destruct (Py.lookup "kaggle_dataset" task);
    [apply emits_only_bind; [apply download_kaggle_kinds | emits_tac] |].
  exact I.
Qed.

Definition extract_body_kinds : list kind :=
  [KPrint; KStat; KExtractAll; KRemove].

Definition execute_body_kinds : list kind :=
  [KPrint; KStat; KPython].

Lemma extract_call_kind (e : event) (x : pyval * pyval * pyval) :
  extract_call_of e = Some x -> kind_of e = KEnterExtract.
Proof.
  destruct e as [[m | c] | R c r]; simpl; try discriminate.
  destruct c; simpl; try discriminate. reflexivity.
Qed.

Lemma execute_call_kind (e : event) (x : pyval) :
  execute_call_of e = Some x -> kind_of e = KEnterExecute.
Proof.
  destruct e as [[m | c] | R c r]; simpl; try discriminate.
  destruct c; simpl; try discriminate. reflexivity.
Qed.

Lemma no_extract_calls (ks : list kind) (tr : list event) :
  ~ In KEnterExtract ks -> Forall (of_kinds ks) tr -> extract_calls tr = [].
Proof.
  intros Hks Htr. apply filter_map_none.
  eapply Forall_impl; [| exact Htr].
  intros e He. destruct (extract_call_of e) eqn:E; [| reflexivity].
  apply extract_call_kind in E. unfold of_kinds in He. rewrite E in He.
  contradiction.
Qed.

Lemma no_execute_calls (ks : list kind) (tr : list event) :
  ~ In KEnterExecute ks -> Forall (of_kinds ks) tr -> execute_calls tr = [].
Proof.
  intros Hks Htr. apply filter_map_none.
  eapply Forall_impl; [| exact Htr].
  intros e He. destruct (execute_call_of e) eqn:E; [| reflexivity].
  apply execute_call_kind in E. unfold of_kinds in He. rewrite E in He.
  contradiction.
Qed.

(** Decides that a kind is not in an explicit list. *)
Ltac not_in_kinds :=
  simpl; intros H;
  repeat match goal with
         | H : _ \/ _ |- _ => destruct H
         | H : False |- _ => contradiction
         | H : _ = _ |- _ => discriminate H
         end.

Section Calls.

Variable W : Type.
Variable handle : forall R : Type, Cmd R -> W -> R * W.

(** A run of [extract_file] is its entry followed by events of the
    extractor's own kinds. *)
Lemma extract_file_trace (file_path extract_to remove_archieve : pyval) (w : W) :
  exists tr,
    trace (run handle (extract_file file_path extract_to remove_archieve) w) =
    ENote (Called (call_extract_file file_path extract_to remove_archieve)) :: tr
    /\ Forall (of_kinds extract_body_kinds) tr.
Proof.
  unfold extract_file. simpl. eexists; split; [reflexivity|].
  apply emits_only_run. emits_tac.
Qed.

Lemma extract_file_calls (file_path extract_to remove_archieve : pyval) (w : W) :
  let tr := trace (run handle
                     (extract_file file_path extract_to remove_archieve) w) in
  extract_calls tr = [(file_path, extract_to, remove_archieve)]
  /\ execute_calls tr = [].
Proof.
  cbv zeta.
  destruct (extract_file_trace file_path extract_to remove_archieve w)
    as (tr & -> & Hbody).
  unfold extract_calls, execute_calls; simpl. split.
  - f_equal. apply (no_extract_calls (ks := extract_body_kinds));
      [not_in_kinds | exact Hbody].
  - apply (no_execute_calls (ks := extract_body_kinds));
      [not_in_kinds | exact Hbody].
Qed.

(** With a path that [Path] accepts, [extract_file] returns normally:
    every exception of the extraction is caught. *)
Lemma extract_file_returns (file_path extract_to remove_archieve : pyval)
    (p : PurePath.t) (w : W) :
  Py.Path file_path = Ok p ->
  outcome (run handle (extract_file file_path extract_to remove_archieve) w)
  = Ok tt.
Proof.
  intros Hp. unfold extract_file; simpl. rewrite Hp; simpl.
  repeat (run_step handle); reflexivity.
Qed.

Lemma extract_file_raises (file_path extract_to remove_archieve : pyval)
    (e : exn) (w : W) :
  Py.Path file_path = Err e ->
  outcome (run handle (extract_file file_path extract_to remove_archieve) w)
  = Err e.
Proof.
  intros Hp. unfold extract_file; simpl. rewrite Hp; reflexivity.
Qed.

Lemma execute_script_trace (script_path : pyval) (w : W) :
  exists tr,
    trace (run handle (execute_script script_path) w) =
    ENote (Called (call_execute_script script_path)) :: tr
    /\ Forall (of_kinds execute_body_kinds) tr.
Proof.
  unfold execute_script. simpl. eexists; split; [reflexivity|].
  apply emits_only_run. emits_tac.
Qed.

Lemma execute_script_calls (script_path : pyval) (w : W) :
  let tr := trace (run handle (execute_script script_path) w) in
  extract_calls tr = [] /\ execute_calls tr = [script_path].
Proof.
  cbv zeta.
  destruct (execute_script_trace script_path w) as (tr & -> & Hbody).
  unfold extract_calls, execute_calls; simpl. split.
  - apply (no_extract_calls (ks := execute_body_kinds));
      [not_in_kinds | exact Hbody].
  - f_equal. apply (no_execute_calls (ks := execute_body_kinds));
      [not_in_kinds | exact Hbody].
Qed.

End Calls.

(* ================================================================== *)
(** * One task of the pipeline *)

(** The value of [target_path] at the start of a task. *)
Definition task_path (task : dict) : pyval := Py.dict_get task "path" (VStr ".").

(** The value of [target_path] after the extraction step, given what the
    fetch left in [kaggle_downloaded_archive_path]. *)
Definition path_after_extract (task : dict) (archive_path : pyval) : pyval :=
  if Py.is_True (Py.dict_get task "extract" VNone) then
    if Py.has_key "kaggle_competition" task || Py.has_key "kaggle_dataset" task
    then archive_path else task_path task
  else task_path task.

Section Task.

Variable py_format : pyval -> string.
Variable W : Type.
Variable handle : forall R : Type, Cmd R -> W -> R * W.
Variable secrets : Secrets.

Local Abbreviation fetch task w :=
  (run handle (fetch_task py_format secrets task (task_path task)) w).

Local Abbreviation whole task w :=
  (run handle (process_task py_format secrets (VDict task)) w).

Opaque extract_file execute_script.

(** The calls of the extractor and of the script runner in the run of
    one task, from the outcome of its fetch. *)
Lemma process_task_calls (task : dict) (w : W) :
  match outcome (fetch task w) with
  | Err e =>
      extract_calls (trace (whole task w)) = [] /\
      execute_calls (trace (whole task w)) = [] /\
      outcome (whole task w) = Err e
  | Ok archive_path =>
      let target := path_after_extract task archive_path in
      extract_calls (trace (whole task w)) =
        (if Py.is_True (Py.dict_get task "extract" VNone)
         then [(target, Py.dict_get task "extract_to" VNone,
                Py.dict_get task "remove_compression" (VBool false))]
         else [])
      /\ ((execute_calls (trace (whole task w)) =
             (if Py.is_True (Py.dict_get task "execute" VNone)
              then [target] else []) /\
           (Py.is_True (Py.dict_get task "extract" VNone) = false \/
            exists p, Py.Path target = Ok p))
          \/ (execute_calls (trace (whole task w)) = [] /\
              Py.is_True (Py.dict_get task "extract" VNone) = true /\
              exists e, Py.Path target = Err e /\
                        outcome (whole task w) = Err e))
  end.
Proof.
  unfold process_task. fold (task_path task).
  rewrite run_bind. unfold then_run.
  pose proof (@emits_only_run _ handle _ _ _ w
                (fetch_task_kinds py_format secrets task (task_path task)))
    as Hfetch.
  assert (Hx : extract_calls
                 (trace (run handle (fetch_task py_format secrets task
                                       (task_path task)) w)) = [])
    by (apply (no_extract_calls (ks := fetcher_kinds));
        [not_in_kinds | exact Hfetch]).
  assert (Hy : execute_calls
                 (trace (run handle (fetch_task py_format secrets task
                                       (task_path task)) w)) = [])
    by (apply (no_execute_calls (ks := fetcher_kinds));
        [not_in_kinds | exact Hfetch]).
  destruct (run handle (fetch_task py_format secrets task (task_path task)) w)
    as [tr1 [archive_path | e] w1]; simpl in *.
  2:{ repeat split; assumption. }
  unfold extract_calls, execute_calls in *.
  rewrite !filter_map_app, Hx, Hy; simpl.
  rewrite run_bind. unfold then_run, extract_task, execute_task,
    path_after_extract.
  fold (task_path task).
  destruct (Py.is_True (Py.dict_get task "extract" VNone)) eqn:Hext; simpl.
  - set (target := if Py.has_key "kaggle_competition" task
                      || Py.has_key "kaggle_dataset" task
                   then archive_path else task_path task).
    set (et := Py.dict_get task "extract_to" VNone).
    set (rm := Py.dict_get task "remove_compression" (VBool false)).
    rewrite run_bind. unfold then_run.
    destruct (extract_file_calls handle target et rm w1) as [Hx2 Hy2].
    unfold extract_calls, execute_calls in Hx2, Hy2.
    destruct (Py.Path target) as [p | e] eqn:Hpath.
    + rewrite (extract_file_returns handle target et rm w1 Hpath); simpl.
      rewrite app_nil_r.
      destruct (Py.is_True (Py.dict_get task "execute" VNone)).
      * destruct (execute_script_calls handle target
                    (final (run handle (extract_file target et rm) w1)))
          as [Hx3 Hy3].
        unfold extract_calls, execute_calls in Hx3, Hy3.
        simpl. rewrite !filter_map_app, Hx2, Hy2, Hx3, Hy3. simpl.
        split; [reflexivity | left; split; [reflexivity | right; eauto]].
      * simpl. rewrite app_nil_r, Hx2, Hy2.
        split; [reflexivity | left; split; [reflexivity | right; eauto]].
    + rewrite (extract_file_raises handle target et rm w1 Hpath); simpl.
      rewrite Hx2, Hy2. split; [reflexivity|].
      right. split; [reflexivity|]. split; [reflexivity|].
      exists e. split; reflexivity.
  - destruct (Py.is_True (Py.dict_get task "execute" VNone)).
    + destruct (execute_script_calls handle (task_path task) w1) as [Hx3 Hy3].
      unfold extract_calls, execute_calls in Hx3, Hy3.
      simpl. rewrite Hx3, Hy3.
      split; [reflexivity | left; split; [reflexivity | left; reflexivity]].
    + simpl.
      split; [reflexivity | left; split; [reflexivity | left; reflexivity]].
Qed.

Transparent extract_file execute_script.

Opaque download_file download_github download_kaggle.


Transparent download_file download_github download_kaggle.

End Task.

(* ================================================================== *)
(** * Archive paths *)

Module ArchivePath.
Import PyStringFacts.

Lemma free_of_app (sep : ascii) (a b : string) :
  free_of sep a = true -> free_of sep b = true ->
  free_of sep (a ++ b) = true.
Proof.
  induction a as [| c a IH]; simpl; intros Ha Hb; [exact Hb|].
  apply Bool.andb_true_iff in Ha. destruct Ha as [Hc Ha].
  rewrite Hc, (IH Ha Hb). reflexivity.
Qed.

Lemma keep_zip (n : string) : PurePath.keep_part (n ++ ".zip") = true.
Proof.
  destruct n as [| c n]; [reflexivity|].
  destruct n as [| c' n];
    destruct c as [[] [] [] [] [] [] [] []]; reflexivity.
Qed.

Lemma root_of_free (f : string) :
  free_of "/" f = true -> PurePath.parse_root f = PurePath.Rel.
Proof.
  destruct f as [| c f]; [reflexivity|].
  intros H.
  change (free_of "/" (String c f))
    with (negb (Ascii.eqb c "/") && free_of "/" f) in H.
  apply Bool.andb_true_iff in H. destruct H as [Hc _].
  apply Bool.negb_true_iff in Hc.
  apply Ascii.eqb_neq in Hc.
  unfold PurePath.parse_root.
  destruct c as [[] [] [] [] [] [] [] []]; try reflexivity.
  exfalso. apply Hc. reflexivity.
Qed.

(** Joining a path with a file name [n ++ ".zip"] that has no slash
    appends one part: the result lies directly in the path and bears
    that name. *)
Lemma join_zip (q : PurePath.t) (n : string) :
  PyString.contains "/" n = false ->
  PurePath.join q (n ++ ".zip") =
  PurePath.mk (PurePath.p_root q) (PurePath.p_parts q ++ [(n ++ ".zip")%string]).
Proof.
  intros Hn. apply contains_slash_free in Hn.
  assert (Hf : free_of "/" (n ++ ".zip") = true)
    by (apply free_of_app; [exact Hn | reflexivity]).
  unfold PurePath.join, PurePath.parse, PyString.split.
  rewrite (split_from_free "/" "" _ Hf). simpl.
  rewrite keep_zip, (root_of_free _ Hf). reflexivity.
Qed.

Lemma join_zip_parent_name (q : PurePath.t) (n : string) :
  PyString.contains "/" n = false ->
  PurePath.parent (PurePath.join q (n ++ ".zip")) = q /\
  PurePath.name (PurePath.join q (n ++ ".zip")) = (n ++ ".zip")%string.
Proof.
  intros Hn. rewrite (@join_zip q n Hn).
  unfold PurePath.parent, PurePath.name; simpl.
  rewrite removelast_last, last_last. destruct q; split; reflexivity.
Qed.

(** Such a path is never the path it was joined to. *)
Lemma join_zip_differs (q : PurePath.t) (n : string) :
  PyString.contains "/" n = false ->
  PurePath.join q (n ++ ".zip") <> q.
Proof.
  intros Hn. rewrite (@join_zip q n Hn). destruct q as [r parts]; simpl.
  intros H. injection H as H. apply (f_equal (@List.length string)) in H.
  rewrite length_app in H. simpl in H. lia.
Qed.

End ArchivePath.

(* ================================================================== *)
(** * Claims about one task *)

Lemma is_True_iff (v : pyval) : Py.is_True v = true <-> v = VBool true.
Proof.
  split; [| intros ->; reflexivity].
  destruct v as [| [] | | | | |]; simpl; intros H; try discriminate; reflexivity.
Qed.

Lemma has_key_lookup (k : string) (d : dict) (v : pyval) :
  Py.lookup k d = Some v -> Py.has_key k d = true.
Proof. unfold Py.has_key. intros ->. reflexivity. Qed.

Lemma has_key_none (k : string) (d : dict) :
  Py.lookup k d = None -> Py.has_key k d = false.
Proof. unfold Py.has_key. intros ->. reflexivity. Qed.

(** ** How the fetch step of a task ends *)

Section FetchOutcomes.

Variable py_format : pyval -> string.
Variable W : Type.
Variable handle : forall R : Type, Cmd R -> W -> R * W.
Variable secrets : Secrets.

Local Abbreviation fetch task w :=
  (run handle (fetch_task py_format secrets task (task_path task)) w).

Lemma download_file_returns (url target_path : pyval) (w : W) :
  outcome (run handle (download_file url target_path) w) = Ok tt.
Proof.
  unfold download_file; simpl.
  destruct (Py.Path target_path) as [p | e]; simpl; [| reflexivity].
  repeat (run_step handle); reflexivity.
Qed.

(** [download_kaggle] returns when its command ended, with a zero
    status or not, and raises what the call raised otherwise. *)
Lemma download_kaggle_outcome (name target_path : pyval)
    (kind flag resource_type : string) (w : W) :
  (resource_type = "competition_files" /\ kind = "competitions" /\ flag = "-c")
  \/ (resource_type = "dataset" /\ kind = "datasets" /\ flag = "-d") ->
  let answer :=
    fst (handle (SubprocessRun (kaggle_download kind flag name target_path))
           w) in
  let r := run handle (download_kaggle name target_path resource_type) w in
  (answer = Ok tt \/ answer = Err CalledProcessError -> outcome r = Ok tt)
  /\ (forall e, answer = Err e -> e <> CalledProcessError ->
      outcome r = Err e).
Proof.
  intros Hkind. cbv zeta.
  unfold download_kaggle, kaggle_download; simpl.
  destruct Hkind as [(-> & -> & ->) | (-> & -> & ->)]; simpl;
    match goal with
    | |- context [handle ?c w] => destruct (handle c w) as [answer w0]
    end; simpl;
    (destruct answer as [[] | e]; simpl;
     [ split; [intros _; reflexivity | intros e He; discriminate He]
     | destruct e; simpl;
       (split;
        [ intros [H | H]; first [discriminate H | reflexivity]
        | intros e' [= <-] Hne;
          first [reflexivity | exfalso; apply Hne; reflexivity] ]) ]).
Qed.

Opaque download_file download_github download_kaggle.




Lemma fetch_task_competition_outcome (task : dict) (n p : string) (w : W) :
  Py.lookup "url" task = None ->
  Py.lookup "github_file" task = None ->
  Py.lookup "github_repo" task = None ->
  Py.lookup "kaggle_competition" task = Some (VStr n) ->
  task_path task = VStr p ->
  let answer :=
    fst (handle (SubprocessRun
                   (kaggle_download "competitions" "-c" (VStr n) (VStr p)))
           w) in
  (answer = Ok tt \/ answer = Err CalledProcessError ->
     outcome (fetch task w)
     = Ok (VPath (PurePath.join (PurePath.parse p) (n ++ ".zip"))))
  /\ (forall e, answer = Err e -> e <> CalledProcessError ->
      outcome (fetch task w) = Err e).
Proof.
  intros Hurl Hfile Hrepo Hcomp Hpath. cbv zeta.
  destruct (@download_kaggle_outcome (VStr n) (VStr p) "competitions" "-c"
              "competition_files" w) as [Hok Herr];
    [left; repeat split |].
  unfold fetch_task. rewrite Hurl, Hfile, Hrepo, Hcomp, Hpath.
  rewrite run_bind; unfold then_run.
  split.
  - intros Hans. rewrite (Hok Hans). reflexivity.
  - intros e He Hne. rewrite (Herr e He Hne). reflexivity.
Qed.

Lemma fetch_task_dataset_outcome (task : dict) (name p : string) (w : W) :
  Py.lookup "url" task = None ->
  Py.lookup "github_file" task = None ->
  Py.lookup "github_repo" task = None ->
  Py.lookup "kaggle_competition" task = None ->
  Py.lookup "kaggle_dataset" task = Some (VStr name) ->
  task_path task = VStr p ->
  let answer :=
    fst (handle (SubprocessRun
                   (kaggle_download "datasets" "-d" (VStr name) (VStr p)))
           w) in
  (answer = Ok tt \/ answer = Err CalledProcessError ->
     outcome (fetch task w)
     = Ok (VPath (PurePath.join (PurePath.parse p)
                    (PyString.last_segment "/" name ++ ".zip"))))
  /\ (forall e, answer = Err e -> e <> CalledProcessError ->
      outcome (fetch task w) = Err e).
Proof.
  intros Hurl Hfile Hrepo Hcomp Hdata Hpath. cbv zeta.
  destruct (@download_kaggle_outcome (VStr name) (VStr p) "datasets" "-d"
              "dataset" w) as [Hok Herr];
    [right; repeat split |].
  unfold fetch_task. rewrite Hurl, Hfile, Hrepo, Hcomp, Hdata, Hpath.
  rewrite run_bind; unfold then_run.
  split.
  - intros Hans. rewrite (Hok Hans). reflexivity.
  - intros e He Hne. rewrite (Herr e He Hne). reflexivity.
Qed.

Transparent download_file download_github download_kaggle.

End FetchOutcomes.

Section TaskClaims.

Variable py_format : pyval -> string.
Variable W : Type.
Variable handle : forall R : Type, Cmd R -> W -> R * W.
Variable secrets : Secrets.

Local Abbreviation whole task w :=
  (run handle (process_task py_format secrets (VDict task)) w).

(** C1, as the code has it.  A task whose source is Kaggle (no [url],
    [github_file] or [github_repo] key), whose [path] is the string
    [p] and whose [extract] flag is [True].
    - When the download command ended, with a zero status or not, the
      extractor is entered exactly once, and its argument is
      [Path(p) / (n + ".zip")] for a competition named [n] and
      [Path(p) / (slug + ".zip")] for a dataset named [owner/slug],
      [slug] without slash.
    - When the command could not be run at all (the call raised
      something else than [CalledProcessError]), the task raises that
      exception and the extractor is not entered.
    When the name part has no slash, the argument lies directly in
    [Path(p)], its file name is the name part followed by [.zip], and
    it is another path than [Path(p)].  This does not hold for every
    competition name: [/] with an absolute right operand discards
    [Path(p)]. *)
Theorem kaggle_extraction_uses_archive_path :
  forall (task : dict) (p : string) (w : W),
    Py.lookup "url" task = None ->
    Py.lookup "github_file" task = None ->
    Py.lookup "github_repo" task = None ->
    task_path task = VStr p ->
    Py.dict_get task "extract" VNone = VBool true ->
    let r := whole task w in
    let extracted_at (archive : PurePath.t) (answer : result unit) :=
      (answer = Ok tt \/ answer = Err CalledProcessError ->
         extract_calls (trace r) =
           [(VPath archive, Py.dict_get task "extract_to" VNone,
             Py.dict_get task "remove_compression" (VBool false))])
      /\ (forall e, answer = Err e -> e <> CalledProcessError ->
            extract_calls (trace r) = [] /\ outcome r = Err e) in
    let inside (archive : PurePath.t) (file_name : string) :=
      PurePath.parent archive = PurePath.parse p
      /\ PurePath.name archive = file_name
      /\ archive <> PurePath.parse p in
    (forall n : string,
        Py.lookup "kaggle_competition" task = Some (VStr n) ->
        extracted_at (PurePath.join (PurePath.parse p) (n ++ ".zip"))
          (fst (handle (SubprocessRun
                          (kaggle_download "competitions" "-c" (VStr n)
                             (VStr p))) w))
        /\ (PyString.contains "/" n = false ->
            inside (PurePath.join (PurePath.parse p) (n ++ ".zip"))
              (n ++ ".zip")%string))
    /\ (forall owner slug : string,
        Py.lookup "kaggle_competition" task = None ->
        Py.lookup "kaggle_dataset" task = Some (VStr (owner ++ "/" ++ slug)) ->
        PyString.contains "/" slug = false ->
        extracted_at (PurePath.join (PurePath.parse p) (slug ++ ".zip"))
          (fst (handle (SubprocessRun
                          (kaggle_download "datasets" "-d"
                             (VStr (owner ++ "/" ++ slug)) (VStr p))) w))
        /\ inside (PurePath.join (PurePath.parse p) (slug ++ ".zip"))
             (slug ++ ".zip")%string).
Proof.
  intros task p w Hurl Hfile Hrepo Hpath Hext. cbv zeta.
  pose proof (@process_task_calls py_format _ handle secrets task w) as H.
  unfold path_after_extract in H. rewrite Hext in H. simpl in H.
  assert (Hinside : forall n, PyString.contains "/" n = false ->
            PurePath.parent (PurePath.join (PurePath.parse p) (n ++ ".zip"))
            = PurePath.parse p
            /\ PurePath.name (PurePath.join (PurePath.parse p) (n ++ ".zip"))
               = (n ++ ".zip")%string
            /\ PurePath.join (PurePath.parse p) (n ++ ".zip")
               <> PurePath.parse p).
  { intros n Hn.
    destruct (@ArchivePath.join_zip_parent_name (PurePath.parse p) n Hn)
      as [Hparent Hname].
    split; [exact Hparent | split; [exact Hname |]].
    apply ArchivePath.join_zip_differs, Hn. }
  split.
  - intros n Hcomp. split; [| apply Hinside].
    destruct (@fetch_task_competition_outcome py_format _ handle secrets
                task n p w Hurl Hfile Hrepo Hcomp Hpath) as [Hok Herr].
    rewrite (has_key_lookup _ _ Hcomp) in H. simpl in H.
    split.
    + intros Hans. rewrite (Hok Hans) in H. exact (proj1 H).
    + intros e He Hne. rewrite (Herr e He Hne) in H.
      split; [exact (proj1 H) | exact (proj2 (proj2 H))].
  - intros owner slug Hcomp Hdata Hslug. split; [| apply Hinside, Hslug].
    destruct (@fetch_task_dataset_outcome py_format _ handle secrets
                task (owner ++ "/" ++ slug) p w
                Hurl Hfile Hrepo Hcomp Hdata Hpath) as [Hok Herr].
    rewrite (PyStringFacts.last_segment_app owner slug Hslug) in Hok.
    rewrite (has_key_none _ _ Hcomp), (has_key_lookup _ _ Hdata) in H.
    simpl in H.
    split.
    + intros Hans. rewrite (Hok Hans) in H. exact (proj1 H).
    + intros e He Hne. rewrite (Herr e He Hne) in H.
      split; [exact (proj1 H) | exact (proj2 (proj2 H))].
Qed.

(** C8.  In the run of any task, the extractor is entered only when
    the task's [extract] value is the boolean [True], and the script
    runner only when its [execute] value is the boolean [True]; a
    value that is merely truthy (1, a non-empty string, a non-empty
    mapping) does not pass the test. *)
Theorem postprocessing_requires_True :
  forall (task : pyval) (w : W),
    let r := run handle (process_task py_format secrets task) w in
    (extract_calls (trace r) <> [] ->
       Py.get task "extract" VNone = Ok (VBool true))
    /\ (execute_calls (trace r) <> [] ->
       Py.get task "execute" VNone = Ok (VBool true))
    /\ Py.is_True (VInt 1) = false
    /\ Py.is_True (VStr "yes") = false
    /\ Py.is_True (VDict [("a", VInt 1)]) = false.
Proof.
  intros task w. cbv zeta.
  split; [| split; [| repeat split]].
  - destruct task as [| | | | | d |]; try (intros H; exfalso; apply H; reflexivity).
    pose proof (@process_task_calls py_format _ handle secrets d w) as H.
    intros Hcalls. simpl.
    destruct (outcome (run handle (fetch_task py_format secrets d
                                     (task_path d)) w)).
    + destruct H as [Hx _]. rewrite Hx in Hcalls.
      destruct (Py.is_True (Py.dict_get d "extract" VNone)) eqn:E.
      * apply is_True_iff in E. rewrite E. reflexivity.
      * exfalso. apply Hcalls. reflexivity.
    + exfalso. apply Hcalls. exact (proj1 H).
  - destruct task as [| | | | | d |]; try (intros H; exfalso; apply H; reflexivity).
    pose proof (@process_task_calls py_format _ handle secrets d w) as H.
    intros Hcalls. simpl.
    destruct (outcome (run handle (fetch_task py_format secrets d
                                     (task_path d)) w)).
    + destruct H as [_ [[Hy _] | [Hy _]]]; rewrite Hy in Hcalls.
      * destruct (Py.is_True (Py.dict_get d "execute" VNone)) eqn:E.
        -- apply is_True_iff in E. rewrite E. reflexivity.
        -- exfalso. apply Hcalls. reflexivity.
      * exfalso. apply Hcalls. reflexivity.
    + exfalso. apply Hcalls. exact (proj1 (proj2 H)).
Qed.

End TaskClaims.

Definition postprocess_kinds : list kind :=
  [KPrint; KEnterExtract; KEnterExecute; KStat; KExtractAll; KRemove; KPython].

Lemma extract_file_kinds (file_path extract_to remove_archieve : pyval) :
  emits_only (of_kinds postprocess_kinds)
    (extract_file file_path extract_to remove_archieve).
Proof. unfold extract_file. emits_tac. Qed.

Lemma execute_script_kinds (script_path : pyval) :
  emits_only (of_kinds postprocess_kinds) (execute_script script_path).
Proof. unfold execute_script. emits_tac. Qed.

Section TaskTargets.

Variable py_format : pyval -> string.
Variable W : Type.
Variable handle : forall R : Type, Cmd R -> W -> R * W.
Variable secrets : Secrets.

Local Abbreviation whole task w :=
  (run handle (process_task py_format secrets (VDict task)) w).


Local Abbreviation fetch task w :=
  (run handle (fetch_task py_format secrets task (task_path task)) w).





End TaskTargets.

(* ================================================================== *)
(** * Closed examples for the task claims *)

Definition titanic_task : dict :=
  [("kaggle_dataset", VStr "alice/titanic"); ("path", VStr "/data");
   ("extract", VBool true)].

Definition titanic_world : RefWorld.world :=
  RefWorld.mk [(PurePath.parse "/data/titanic.zip", true)] [] [] [] [].

Lemma kaggle_extraction_uses_archive_path_witness :
  Py.lookup "url" titanic_task = None /\
  Py.lookup "github_file" titanic_task = None /\
  Py.lookup "github_repo" titanic_task = None /\
  task_path titanic_task = VStr "/data" /\
  Py.dict_get titanic_task "extract" VNone = VBool true /\
  let r := run RefWorld.handle
             (process_task RefWorld.format no_secrets (VDict titanic_task))
             titanic_world in
  extract_calls (trace r) =
    [(VPath (PurePath.join (PurePath.parse "/data") "titanic.zip"),
      VNone, VBool false)]
  /\ PurePath.join (PurePath.parse "/data") "titanic.zip"
     <> PurePath.parse "/data".
Proof.
  do 5 (split; [reflexivity |]). cbv zeta.
  destruct (proj2 (@kaggle_extraction_uses_archive_path
                     RefWorld.format _ RefWorld.handle no_secrets
                     titanic_task "/data" titanic_world
                     eq_refl eq_refl eq_refl eq_refl eq_refl)
              "alice" "titanic" eq_refl eq_refl eq_refl)
    as [[Hcalls _] (_ & _ & Hdiffers)].
  split; [exact (Hcalls (or_introl eq_refl)) | exact Hdiffers].
Defined.

Definition rooted_name_task : dict :=
  [("kaggle_competition", VStr "/data/x"); ("path", VStr "/data/x.zip");
   ("extract", VBool true)].

(** A competition name that begins with a slash: [Path(path) / "/data/x.zip"]
    is [/data/x.zip], the left operand is dropped.  Here the extractor
    is entered on the very path that [path] names, and that path is
    not [<path>/<n>.zip]. *)
Lemma rooted_competition_name_drops_path :
  let r := run RefWorld.handle
             (process_task RefWorld.format no_secrets (VDict rooted_name_task))
             RefWorld.empty in
  Py.lookup "kaggle_competition" rooted_name_task = Some (VStr "/data/x") /\
  task_path rooted_name_task = VStr "/data/x.zip" /\
  Py.dict_get rooted_name_task "extract" VNone = VBool true /\
  extract_calls (trace r) =
    [(VPath (PurePath.parse "/data/x.zip"), VNone, VBool false)] /\
  Py.Path (task_path rooted_name_task) = Ok (PurePath.parse "/data/x.zip") /\
  PurePath.to_string (PurePath.join (PurePath.parse "/data/x.zip")
                        ("/data/x" ++ ".zip"))
  = "/data/x.zip".
Proof.
  cbv zeta. repeat split; reflexivity.
Qed.

(** Scenario 2 of the specification: the archive [/data/titanic.zip] is
    the extraction input, it is extracted into [/data] and kept. *)
Example titanic_scenario :
  let r := run RefWorld.handle
             (process_task RefWorld.format no_secrets (VDict titanic_task))
             titanic_world in
  outcome r = Ok tt /\
  PurePath.to_string (PurePath.join (PurePath.parse "/data") "titanic.zip")
  = "/data/titanic.zip" /\
  extractions (trace r) = [(PurePath.parse "/data/titanic.zip", Ok tt)] /\
  In (ECmd (ZipExtractAll (PurePath.parse "/data/titanic.zip")
              (VPath (PurePath.parse "/data"))) (Ok tt)) (trace r) /\
  removals (trace r) = [] /\
  RefWorld.files (final r) = RefWorld.files titanic_world.
Proof.
  repeat split; try reflexivity. in_list.
Qed.




Definition script_task : dict :=
  [("path", VStr "run.py"); ("extract", VInt 1); ("execute", VBool true)].

Definition script_world : RefWorld.world :=
  RefWorld.mk [(PurePath.parse "run.py", true)] [] [] [] [].


(** The truthy value 1 under [extract] does not start an extraction; the
    script is run by the interpreter. *)
Example truthy_flag_is_not_True :
  let r := run RefWorld.handle
             (process_task RefWorld.format no_secrets (VDict script_task))
             script_world in
  Py.truthy (Py.dict_get script_task "extract" VNone) = true /\
  extract_calls (trace r) = [] /\
  In (ECmd (SubprocessRun [SysExecutable; lit "run.py"]) (Ok tt)) (trace r).
Proof.
  repeat split; try reflexivity. in_list.
Qed.

(* ================================================================== *)
(** * The process environment *)

(** The assignments to [os.environ]. *)
Definition setenv_of (e : event) : option (string * string) :=
  match e with
  | ECmd c _ =>
      match c with
      | SetEnv name value => Some (name, value)
      | _ => None
      end
  | _ => None
  end.

Definition env_writes (tr : list event) := filter_map setenv_of tr.

Lemma setenv_kind (e : event) (x : string * string) :
  setenv_of e = Some x -> kind_of e = KSetEnv.
Proof.
  destruct e as [n | R c r]; simpl; try discriminate.
  destruct c; simpl; try discriminate. reflexivity.
Qed.

(** An event that is not an assignment to [os.environ]. *)
Definition no_env_write (e : event) : Prop := setenv_of e = None.

Lemma of_kinds_no_env_write (ks : list kind) (e : event) :
  ~ In KSetEnv ks -> of_kinds ks e -> no_env_write e.
Proof.
  intros Hks He. unfold no_env_write.
  destruct (setenv_of e) eqn:E; [| reflexivity].
  apply setenv_kind in E. unfold of_kinds in He. rewrite E in He.
  contradiction.
Qed.

Lemma no_env_writes (tr : list event) :
  Forall no_env_write tr -> env_writes tr = [].
Proof. apply filter_map_none. Qed.

Definition detect_kinds : list kind := [KEnterOther; KImport; KStat].
Definition secrets_kinds : list kind :=
  [KPrint; KEnterOther; KImport; KSecretStore; KDotenv; KGetEnv].
Definition install_kinds : list kind := [KPrint; KEnterOther; KPython].

Lemma detect_platform_kinds : emits_only (of_kinds detect_kinds) detect_platform.
Proof. unfold detect_platform. emits_tac. Qed.

Lemma get_secrets_kinds (platform : string) :
  emits_only (of_kinds secrets_kinds) (get_secrets platform).
Proof. unfold get_secrets, try_lookup, warn_missing. emits_tac. Qed.

Lemma install_packages_kinds (config : pyval) :
  emits_only (of_kinds install_kinds) (install_packages config).
Proof. unfold install_packages. emits_tac. Qed.

Lemma detect_platform_quiet : emits_only no_env_write detect_platform.
Proof.
  eapply emits_only_impl; [| apply detect_platform_kinds].
  intros e. apply of_kinds_no_env_write. not_in_kinds.
Qed.

Lemma get_secrets_quiet (platform : string) :
  emits_only no_env_write (get_secrets platform).
Proof.
  eapply emits_only_impl; [| apply get_secrets_kinds].
  intros e. apply of_kinds_no_env_write. not_in_kinds.
Qed.

Lemma install_packages_quiet (config : pyval) :
  emits_only no_env_write (install_packages config).
Proof.
  eapply emits_only_impl; [| apply install_packages_kinds].
  intros e. apply of_kinds_no_env_write. not_in_kinds.
Qed.

Lemma process_task_quiet py_format (secrets : Secrets) (task : pyval) :
  emits_only no_env_write (process_task py_format secrets task).
Proof.
  unfold process_task. destruct task as [| | | | | d |]; try exact I.
  apply emits_only_bind.
  - eapply emits_only_impl; [| apply fetch_task_kinds].
    intros e. apply of_kinds_no_env_write. not_in_kinds.
  - intros archive. apply emits_only_bind.
    + unfold extract_task.
      destruct (Py.is_True (Py.dict_get d "extract" VNone)); [| exact I].
      apply emits_only_bind; [| intros; exact I].
      eapply emits_only_impl; [| apply extract_file_kinds].
      intros e. apply of_kinds_no_env_write. not_in_kinds.
    + intros target. unfold execute_task.
      destruct (Py.is_True (Py.dict_get d "execute" VNone)); [| exact I].
      eapply emits_only_impl; [| apply execute_script_kinds].
      intros e. apply of_kinds_no_env_write. not_in_kinds.
Qed.

Lemma process_downloads_quiet py_format (config : pyval) (secrets : Secrets) :
  emits_only no_env_write (process_downloads py_format config secrets).
Proof.
  unfold process_downloads.
  apply emits_only_bind; [simpl; split; [reflexivity | exact I] |].
  intros _. apply emits_only_bind; [apply emits_only_lift |].
  intros tasks. destruct (negb (Py.truthy tasks)).
  - simpl; split; [reflexivity | exact I].
  - apply emits_only_bind; [apply emits_only_lift |]. intros n.
    apply emits_only_bind; [simpl; split; [reflexivity | exact I] |].
    intros _. apply emits_only_bind; [apply emits_only_lift |]. intros items.
    apply emits_only_for_each. intros task. apply process_task_quiet.
Qed.

Section Environment.

Variable py_format : pyval -> string.
Variable W : Type.
Variable handle : forall R : Type, Cmd R -> W -> R * W.

Lemma quiet_run {A : Type} (p : Prog A) (w : W) :
  emits_only no_env_write p -> env_writes (trace (run handle p w)) = [].
Proof. intros H. apply no_env_writes, emits_only_run, H. Qed.

Lemma set_kaggle_credentials_returns (secrets : Secrets) (w : W) :
  outcome (run handle (set_kaggle_credentials secrets) w) = Ok tt.
Proof.
  unfold set_kaggle_credentials.
  destruct (KAGGLE_USERNAME secrets) as [u |], (KAGGLE_KEY secrets) as [k |];
    try reflexivity.
  destruct (Py.truthy_opt (Some u) && Py.truthy_opt (Some k)); reflexivity.
Qed.

(** The assignments of the credentials block. *)
Lemma set_kaggle_credentials_writes (secrets : Secrets) (w : W) :
  let tr := trace (run handle (set_kaggle_credentials secrets) w) in
  (forall u k : string,
      KAGGLE_USERNAME secrets = Some u ->
      KAGGLE_KEY secrets = Some k ->
      u <> "" -> k <> "" ->
      env_writes tr = [("KAGGLE_USERNAME", u); ("KAGGLE_KEY", k)])
  /\ (Py.truthy_opt (KAGGLE_USERNAME secrets) = false \/
      Py.truthy_opt (KAGGLE_KEY secrets) = false ->
      env_writes tr = []).
Proof.
  cbv zeta. unfold set_kaggle_credentials. split.
  - intros u k -> -> Hu Hk.
    apply String.eqb_neq in Hu, Hk. simpl. rewrite Hu, Hk. reflexivity.
  - intros H.
    destruct (KAGGLE_USERNAME secrets) as [u |], (KAGGLE_KEY secrets) as [k |];
      try reflexivity.
    destruct H as [H | H]; rewrite H; simpl;
      try rewrite Bool.andb_false_r; reflexivity.
Qed.

(** It assigns something only when both secrets are there and
    non-empty. *)
Lemma set_kaggle_credentials_written (secrets : Secrets) (w : W) :
  env_writes (trace (run handle (set_kaggle_credentials secrets) w)) <> [] ->
  exists u k : string,
    KAGGLE_USERNAME secrets = Some u /\ KAGGLE_KEY secrets = Some k /\
    u <> "" /\ k <> "".
Proof.
  intros Hw.
  destruct (KAGGLE_USERNAME secrets) as [u |] eqn:Hu,
           (KAGGLE_KEY secrets) as [k |] eqn:Hk.
  - destruct (String.eqb_spec u "") as [-> | Hu'].
    { exfalso. apply Hw.
      apply (proj2 (set_kaggle_credentials_writes secrets w)).
      left. rewrite Hu. reflexivity. }
    destruct (String.eqb_spec k "") as [-> | Hk'].
    { exfalso. apply Hw.
      apply (proj2 (set_kaggle_credentials_writes secrets w)).
      right. rewrite Hk. reflexivity. }
    exists u, k. repeat split; assumption.
  - exfalso. apply Hw.
    apply (proj2 (set_kaggle_credentials_writes secrets w)).
    right. rewrite Hk. reflexivity.
  - exfalso. apply Hw.
    apply (proj2 (set_kaggle_credentials_writes secrets w)).
    left. rewrite Hu. reflexivity.
  - exfalso. apply Hw.
    apply (proj2 (set_kaggle_credentials_writes secrets w)).
    left. rewrite Hu. reflexivity.
Qed.

(** What follows the credentials in [setup] writes nothing to the
    environment. *)
Lemma setup_rest_quiet (config : pyval) (secrets : Secrets) :
  emits_only no_env_write
    (install_packages config ;;
     process_downloads py_format config secrets ;;
     Ret (VBool true)).
Proof.
  apply emits_only_bind; [apply install_packages_quiet |]. intros _.
  apply emits_only_bind; [apply process_downloads_quiet |]. intros _.
  exact I.
Qed.

Opaque detect_platform get_secrets set_kaggle_credentials install_packages
  process_downloads.

(** Lines 342-343 of [setup]: the platform is detected when the
    configured name is [auto], and is the configured name otherwise. *)
Definition resolve_platform (pl : string) : Prog string :=
  if (pl =? "auto")%string then detect_platform else Ret pl.

(** In a run of [setup] that reaches the credentials block, the
    assignments to [os.environ] are those of the block, run on the
    secrets that [get_secrets] returned. *)
Lemma setup_env_writes_reached (yaml_path : string) (config : dict)
    (pl platform : string) (secrets : Secrets) (w : W) :
  fst (handle (LoadYaml yaml_path) w) = Ok (VDict config) ->
  known_platform (Py.dict_get config "platform" (VStr "auto")) = Some pl ->
  outcome (run handle (resolve_platform pl)
             (snd (handle (LoadYaml yaml_path) w))) = Ok platform ->
  outcome (run handle (get_secrets platform)
             (final (run handle (resolve_platform pl)
                       (snd (handle (LoadYaml yaml_path) w))))) = Ok secrets ->
  env_writes (trace (run handle (setup py_format yaml_path) w)) =
  env_writes
    (trace (run handle (set_kaggle_credentials secrets)
              (final (run handle (get_secrets platform)
                        (final (run handle (resolve_platform pl)
                                  (snd (handle (LoadYaml yaml_path) w)))))))).
Proof.
  unfold setup. simpl.
  destruct (handle (LoadYaml yaml_path) w) as [loaded w0]; simpl.
  intros -> Hpl. simpl. rewrite Hpl. simpl.
  rewrite run_bind. unfold then_run.
  fold (resolve_platform pl).
  pose proof (@quiet_run _ (resolve_platform pl) w0) as Hresolve.
  destruct (run handle (resolve_platform pl) w0) as [tr0 [platform' | e] w1];
    simpl in *; [| intros H; discriminate H].
  intros [= ->].
  rewrite run_bind. unfold then_run.
  pose proof (@quiet_run _ _ w1 (get_secrets_quiet platform)) as Hsecrets.
  destruct (run handle (get_secrets platform) w1)
    as [tr1 [secrets' | e] w2]; simpl in *; [| intros H; discriminate H].
  intros [= ->].
  rewrite run_bind. unfold then_run.
  rewrite set_kaggle_credentials_returns.
  pose proof (@quiet_run _ _
                (final (run handle (set_kaggle_credentials secrets) w2))
                (setup_rest_quiet (VDict config) secrets)) as Hrest.
  assert (H0 : env_writes tr0 = []).
  { apply Hresolve. unfold resolve_platform.
    destruct (pl =? "auto")%string; [apply detect_platform_quiet | exact I]. }
  unfold env_writes in *. simpl.
  rewrite !filter_map_app. simpl. rewrite !filter_map_app.
  rewrite H0, Hsecrets, Hrest. simpl. rewrite app_nil_r.
  reflexivity.
Qed.

(** A run of [setup] assigns nothing to [os.environ] unless it reaches
    the credentials block. *)
Lemma setup_env_writes_only_reached (yaml_path : string) (w : W) :
  env_writes (trace (run handle (setup py_format yaml_path) w)) <> [] ->
  exists (config : dict) (pl platform : string) (secrets : Secrets),
    fst (handle (LoadYaml yaml_path) w) = Ok (VDict config) /\
    known_platform (Py.dict_get config "platform" (VStr "auto")) = Some pl /\
    outcome (run handle (resolve_platform pl)
               (snd (handle (LoadYaml yaml_path) w))) = Ok platform /\
    outcome (run handle (get_secrets platform)
               (final (run handle (resolve_platform pl)
                         (snd (handle (LoadYaml yaml_path) w))))) = Ok secrets.
Proof.
  intros Hw.
  destruct (fst (handle (LoadYaml yaml_path) w)) as [loaded | e] eqn:Hload.
  2:{ exfalso. apply Hw. unfold setup. simpl.
      destruct (handle (LoadYaml yaml_path) w) as [a w0]; simpl in *.
      subst a. destruct e; reflexivity. }
  destruct loaded as [| | | | | config |];
    try (exfalso; apply Hw; unfold setup; simpl;
         destruct (handle (LoadYaml yaml_path) w) as [a w0]; simpl in *;
         subst a; reflexivity).
  destruct (known_platform (Py.dict_get config "platform" (VStr "auto")))
    as [pl |] eqn:Hpl.
  2:{ exfalso. apply Hw. unfold setup. simpl.
      destruct (handle (LoadYaml yaml_path) w) as [a w0]; simpl in *.
      subst a. simpl. rewrite Hpl. reflexivity. }
  destruct (outcome (run handle (resolve_platform pl)
                       (snd (handle (LoadYaml yaml_path) w))))
    as [platform | e] eqn:Hresolve.
  2:{ exfalso. apply Hw. unfold setup. simpl.
      destruct (handle (LoadYaml yaml_path) w) as [a w0]; simpl in *.
      subst a. simpl. rewrite Hpl. simpl.
      rewrite run_bind. unfold then_run. fold (resolve_platform pl).
      rewrite Hresolve. simpl.
      apply (@quiet_run _ (resolve_platform pl) w0). unfold resolve_platform.
      destruct (pl =? "auto")%string; [apply detect_platform_quiet | exact I]. }
  destruct (outcome (run handle (get_secrets platform)
                       (final (run handle (resolve_platform pl)
                                 (snd (handle (LoadYaml yaml_path) w))))))
    as [secrets | e] eqn:Hsecrets.
  { exists config, pl, platform, secrets. repeat split; assumption. }
  exfalso. apply Hw. unfold setup. simpl.
  destruct (handle (LoadYaml yaml_path) w) as [a w0]; simpl in *.
  subst a. simpl. rewrite Hpl. simpl.
  rewrite run_bind. unfold then_run. fold (resolve_platform pl).
  assert (H0 : env_writes (trace (run handle (resolve_platform pl) w0)) = []).
  { apply quiet_run. unfold resolve_platform.
    destruct (pl =? "auto")%string; [apply detect_platform_quiet | exact I]. }
  rewrite Hresolve. simpl.
  rewrite run_bind. unfold then_run. rewrite Hsecrets. simpl.
  unfold env_writes in *. simpl. rewrite filter_map_app. simpl. rewrite H0.
  apply (@quiet_run _ _ _ (get_secrets_quiet platform)).
Qed.

Transparent detect_platform get_secrets set_kaggle_credentials
  install_packages process_downloads.

End Environment.

Section EnvironmentClaim.

Variable py_format : pyval -> string.
Variable W : Type.
Variable handle : forall R : Type, Cmd R -> W -> R * W.

(** C10, as the code has it.  In a run of [setup]:
    - when the run reaches the credentials block (the configuration
      was loaded as a mapping, its platform is a known name, the
      detection made for [auto] returned, and [get_secrets] returned
      its secrets), the assignments to [os.environ] made in the whole
      run are [KAGGLE_USERNAME] and then [KAGGLE_KEY], with the values
      of the secrets, when both secrets are present and non-empty, and
      there is no assignment at all when either is missing or empty;
    - conversely, a run that assigns anything has reached the block
      with both secrets present and non-empty, and has assigned
      exactly these two variables: platform detection, [get_secrets],
      [install_packages] and [process_downloads] assign nothing.
    What [load_dotenv] does to the environment inside [get_secrets] on
    a local platform is not an assignment of [setup]; it is left to
    the world. *)
Theorem setup_assigns_only_kaggle_credentials :
  forall (yaml_path : string) (w : W),
    let r := run handle (setup py_format yaml_path) w in
    let w0 := snd (handle (LoadYaml yaml_path) w) in
    let reached (config : dict) (pl platform : string) (secrets : Secrets) :=
      fst (handle (LoadYaml yaml_path) w) = Ok (VDict config) /\
      known_platform (Py.dict_get config "platform" (VStr "auto")) = Some pl /\
      outcome (run handle (resolve_platform pl) w0) = Ok platform /\
      outcome (run handle (get_secrets platform)
                 (final (run handle (resolve_platform pl) w0))) = Ok secrets in
    (forall (config : dict) (pl platform : string) (secrets : Secrets),
        reached config pl platform secrets ->
        (forall u k : string,
            KAGGLE_USERNAME secrets = Some u ->
            KAGGLE_KEY secrets = Some k ->
            u <> "" -> k <> "" ->
            env_writes (trace r) = [("KAGGLE_USERNAME", u); ("KAGGLE_KEY", k)])
        /\ (Py.truthy_opt (KAGGLE_USERNAME secrets) = false \/
            Py.truthy_opt (KAGGLE_KEY secrets) = false ->
            env_writes (trace r) = []))
    /\ (env_writes (trace r) <> [] ->
        exists (config : dict) (pl platform : string) (secrets : Secrets)
               (u k : string),
          reached config pl platform secrets /\
          KAGGLE_USERNAME secrets = Some u /\ KAGGLE_KEY secrets = Some k /\
          u <> "" /\ k <> "" /\
          env_writes (trace r) = [("KAGGLE_USERNAME", u); ("KAGGLE_KEY", k)]).
Proof.
  intros yaml_path w. cbv zeta. split.
  - intros config pl platform secrets (Hload & Hpl & Hresolve & Hsecrets).
    rewrite (@setup_env_writes_reached py_format _ handle yaml_path config pl
               platform secrets w Hload Hpl Hresolve Hsecrets).
    apply set_kaggle_credentials_writes.
  - intros Hw.
    destruct (@setup_env_writes_only_reached py_format _ handle yaml_path w Hw)
      as (config & pl & platform & secrets & Hload & Hpl & Hresolve & Hsecrets).
    rewrite (@setup_env_writes_reached py_format _ handle yaml_path config pl
               platform secrets w Hload Hpl Hresolve Hsecrets) in Hw.
    destruct (set_kaggle_credentials_written handle _ _ Hw)
      as (u & k & Hu & Hk & Hu' & Hk').
    exists config, pl, platform, secrets, u, k.
    split; [repeat split; assumption |].
    split; [exact Hu |]. split; [exact Hk |].
    split; [exact Hu' |]. split; [exact Hk' |].
    rewrite (@setup_env_writes_reached py_format _ handle yaml_path config pl
               platform secrets w Hload Hpl Hresolve Hsecrets).
    apply (proj1 (set_kaggle_credentials_writes handle secrets _));
      assumption.
Qed.

End EnvironmentClaim.

Definition dotenv_world : RefWorld.world :=
  RefWorld.mk [] []
    [("KAGGLE_USERNAME", "alice"); ("FOO", "bar")]
    [("envkit.yaml", VDict [("platform", VStr "local")])]
    [].

(** On a local platform with a [.env] file that has a user name but no
    key: the key is missing, the credentials are not set, and yet after
    [setup] the environment holds [KAGGLE_USERNAME] and [FOO], which it
    did not hold before. *)
Lemma dotenv_changes_environment :
  let r := run RefWorld.handle (setup RefWorld.format "envkit.yaml")
             dotenv_world in
  outcome r = Ok (VBool true) /\
  In (ECmd (GetEnv "KAGGLE_KEY") None) (trace r) /\
  In (ENote (Printed [Txt "[EnvKit] Warning: Kaggle credentials not set"]))
     (trace r) /\
  env_writes (trace r) = [] /\
  RefWorld.getenv "KAGGLE_USERNAME" (RefWorld.environ dotenv_world) = None /\
  RefWorld.getenv "KAGGLE_USERNAME" (RefWorld.environ (final r)) = Some "alice" /\
  RefWorld.getenv "FOO" (RefWorld.environ dotenv_world) = None /\
  RefWorld.getenv "FOO" (RefWorld.environ (final r)) = Some "bar".
Proof.
  cbv zeta. repeat split; try reflexivity; in_list.
Qed.

Definition credentials_world : RefWorld.world :=
  RefWorld.mk [] []
    [("KAGGLE_USERNAME", "alice"); ("KAGGLE_KEY", "s3cret")]
    [("envkit.yaml", VDict [("platform", VStr "local")])]
    [].

Lemma setup_assigns_only_kaggle_credentials_witness :
  fst (RefWorld.handle (LoadYaml "envkit.yaml") credentials_world)
  = Ok (VDict [("platform", VStr "local")]) /\
  outcome (run RefWorld.handle (get_secrets "local") credentials_world)
  = Ok (mkSecrets None (Some "alice") (Some "s3cret")) /\
  env_writes
    (trace (run RefWorld.handle (setup RefWorld.format "envkit.yaml")
              credentials_world))
  = [("KAGGLE_USERNAME", "alice"); ("KAGGLE_KEY", "s3cret")].
Proof.
  split; [reflexivity |]. split; [reflexivity |].
  apply (proj1 (proj1 (@setup_assigns_only_kaggle_credentials
                         RefWorld.format _ RefWorld.handle "envkit.yaml"
                         credentials_world)
                  [("platform", VStr "local")] "local" "local"
                  (mkSecrets None (Some "alice") (Some "s3cret"))
                  (conj eq_refl (conj eq_refl (conj eq_refl eq_refl))))
           "alice" "s3cret" eq_refl eq_refl);
    discriminate.
Defined.

(** With both secrets in the [.env] file, the two assignments are made. *)
Example credentials_are_exported :
  let w := RefWorld.mk [] []
             [("KAGGLE_USERNAME", "alice"); ("KAGGLE_KEY", "s3cret")]
             [("envkit.yaml", VDict [("platform", VStr "local")])] [] in
  env_writes (trace (run RefWorld.handle (setup RefWorld.format "envkit.yaml") w))
  = [("KAGGLE_USERNAME", "alice"); ("KAGGLE_KEY", "s3cret")].
Proof. reflexivity. Qed.


(* ================================================================== *)
(** * Further properties of the program

    The properties below are read off the source function by function.
    As before they hold in every world; closed examples use the
    reference world or the offline world. *)

(** An offline world: no file exists, every subprocess exits with a
    non-zero status, every network call and every import fails. *)
Module Offline.

Definition handle (R : Type) (c : Cmd R) (w : unit) : R * unit :=
  match c in Cmd R return R * unit with
  | Import _ => (Err ImportError, w)
  | NewUserSecretsClient => (Err OSError, w)
  | ColabUserdataGet _ => (Err OtherException, w)
  | KaggleGetSecret _ => (Err OtherException, w)
  | LoadDotenv => (Err OSError, w)
  | GetEnv _ => (None, w)
  | SetEnv _ _ => (tt, w)
  | LoadYaml _ => (Err FileNotFoundError, w)
  | PathExists _ => (false, w)
  | PathIsFile _ => (false, w)
  | Mkdir _ => (Ok tt, w)
  | OsRemove _ => (Err FileNotFoundError, w)
  | ZipExtractAll _ _ => (Err FileNotFoundError, w)
  | TarExtractAll _ _ => (Err FileNotFoundError, w)
  | UrlRetrieve _ _ => (Err OSError, w)
  | NewRequest _ => (Ok tt, w)
  | UrlOpenCopy _ _ _ => (Err OSError, w)
  | SubprocessRun _ => (Err CalledProcessError, w)
  end.

End Offline.

(** The command line of [pip install]. *)
Definition pip_install (packages : list pyval) : list arg :=
  [SysExecutable; lit "-m"; lit "pip"; lit "install"] ++ map Arg packages.

Section Install.

Variable W : Type.
Variable handle : forall R : Type, Cmd R -> W -> R * W.

(** X1.  When the configuration has no [packages] key, or the key maps
    to a falsy value (an empty list, [None], an empty string),
    [install_packages] prints one information line and returns: no
    subprocess is started and the world is left as it was. *)
Theorem install_packages_nothing_to_install :
  forall (config : dict) (w : W),
    Py.truthy (Py.dict_get config "packages" (VList [])) = false ->
    run handle (install_packages (VDict config)) w =
    mkRun
      [ENote (Called (call_install_packages (VDict config)));
       ENote (Printed [Txt "[EnvKit] Info: No package installation tasks found"])]
      (Ok tt) w.
Proof.
  intros config w H. unfold install_packages; simpl.
  rewrite H. reflexivity.
Qed.

(** X2.  A [packages] value that is a single non-empty string is
    installed as one package: [pip install] is started exactly once,
    with that string as its only package argument (the string is not
    iterated character by character), and the line printed before
    counts one package. *)
Theorem install_packages_single_string :
  forall (config : dict) (name : string) (w : W),
    Py.lookup "packages" config = Some (VStr name) ->
    name <> "" ->
    let r := run handle (install_packages (VDict config)) w in
    (exists answer,
        subprocesses (trace r) = [(pip_install [VStr name], answer)])
    /\ In [Txt "[EnvKit] Info: Installing "; Num 1; Txt " packages..."]
          (printed (trace r)).
Proof.
  intros config name w Hpk Hname. cbv zeta.
  unfold install_packages; simpl. unfold Py.dict_get. rewrite Hpk; simpl.
  apply String.eqb_neq in Hname. rewrite Hname; simpl.
  destruct (handle (SubprocessRun (pip_install [VStr name])) w)
    as [answer w'] eqn:E.
  unfold pip_install in E; simpl in E. rewrite E; simpl.
  unfold subprocesses, printed, pip_install.
  destruct answer as [[] | e]; simpl; [| destruct e; simpl];
    (split; [eexists; reflexivity | left; reflexivity]).
Qed.

(** X3.  For a non-empty list of packages, [pip install] is started
    exactly once with all the packages in their order.  A non-zero exit
    status ([CalledProcessError]) is reported as a warning and
    [install_packages] returns normally; any other exception of the
    subprocess call (the interpreter cannot be started, say) is not
    caught and leaves the function. *)
Theorem install_packages_once_and_tolerant :
  forall (config : dict) (packages : list pyval) (w : W),
    Py.lookup "packages" config = Some (VList packages) ->
    packages <> [] ->
    let r := run handle (install_packages (VDict config)) w in
    let answer := fst (handle (SubprocessRun (pip_install packages)) w) in
    subprocesses (trace r) = [(pip_install packages, answer)]
    /\ (answer = Ok tt -> outcome r = Ok tt)
    /\ (answer = Err CalledProcessError ->
        outcome r = Ok tt /\
        In [Txt "[EnvKit] Warning: Package installation failed (";
            Exc CalledProcessError; Txt ")"] (printed (trace r)))
    /\ (forall e, answer = Err e -> e <> CalledProcessError ->
        outcome r = Err e).
Proof.
  intros config packages w Hpk Hne. cbv zeta.
  unfold install_packages; simpl. unfold Py.dict_get. rewrite Hpk; simpl.
  destruct packages as [| p0 ps]; [contradiction|]. simpl.
  change (SysExecutable :: lit "-m" :: lit "pip" :: lit "install"
          :: Arg p0 :: map Arg ps) with (pip_install (p0 :: ps)).
  destruct (handle (SubprocessRun (pip_install (p0 :: ps))) w)
    as [answer w'] eqn:E; simpl.
  unfold subprocesses, printed.
  destruct answer as [[] | e]; simpl.
  - repeat split; try reflexivity; intros; discriminate.
  - destruct e; simpl;
      (split; [reflexivity |]);
      (split; [intros; discriminate |]);
      (split; [intros H;
               first [discriminate H | split; [reflexivity | in_list]]
              | intros e' [= <-] Hne';
                first [reflexivity | exfalso; apply Hne'; reflexivity]]).
Qed.

End Install.

Lemma install_packages_nothing_to_install_witness :
  Py.truthy (Py.dict_get [("packages", VNone)] "packages" (VList [])) = false /\
  run RefWorld.handle (install_packages (VDict [("packages", VNone)]))
    RefWorld.empty =
  mkRun
    [ENote (Called (call_install_packages (VDict [("packages", VNone)])));
     ENote (Printed [Txt "[EnvKit] Info: No package installation tasks found"])]
    (Ok tt) RefWorld.empty.
Proof.
  split; [reflexivity |].
  apply (@install_packages_nothing_to_install _ RefWorld.handle).
  reflexivity.
Defined.

Lemma install_packages_single_string_witness :
  Py.lookup "packages" [("packages", VStr "numpy")] = Some (VStr "numpy") /\
  "numpy" <> "" /\
  let r := run RefWorld.handle
             (install_packages (VDict [("packages", VStr "numpy")]))
             RefWorld.empty in
  (exists answer,
      subprocesses (trace r) = [(pip_install [VStr "numpy"], answer)])
  /\ In [Txt "[EnvKit] Info: Installing "; Num 1; Txt " packages..."]
        (printed (trace r)).
Proof.
  split; [reflexivity |]. split; [discriminate |].
  apply (@install_packages_single_string _ RefWorld.handle);
    [reflexivity | discriminate].
Defined.

Definition two_packages : dict :=
  [("packages", VList [VStr "numpy"; VStr "pandas"])].

Lemma install_packages_once_and_tolerant_witness :
  Py.lookup "packages" two_packages
  = Some (VList [VStr "numpy"; VStr "pandas"]) /\
  [VStr "numpy"; VStr "pandas"] <> [] /\
  let r := run Offline.handle (install_packages (VDict two_packages)) tt in
  subprocesses (trace r) =
    [(pip_install [VStr "numpy"; VStr "pandas"], Err CalledProcessError)]
  /\ outcome r = Ok tt.
Proof.
  split; [reflexivity |]. split; [discriminate |].
  destruct (@install_packages_once_and_tolerant _ Offline.handle two_packages
              [VStr "numpy"; VStr "pandas"] tt eq_refl)
    as (Hsub & _ & Hcpe & _); [discriminate |].
  split; [exact Hsub | exact (proj1 (Hcpe eq_refl))].
Defined.

(* ================================================================== *)
(** ** Platform detection and secrets *)

(** The warnings about missing secrets, in the order they are printed. *)
Definition missing_warnings (secrets : Secrets) : list (list frag) :=
  (match GITHUB_TOKEN secrets with
   | None => [[Txt "[EnvKit] Warning: "; Txt "GITHUB_TOKEN"; Txt " not found"]]
   | Some _ => []
   end)
  ++ (match KAGGLE_USERNAME secrets with
      | None => [[Txt "[EnvKit] Warning: "; Txt "KAGGLE_USERNAME"; Txt " not found"]]
      | Some _ => []
      end)
  ++ (match KAGGLE_KEY secrets with
      | None => [[Txt "[EnvKit] Warning: "; Txt "KAGGLE_KEY"; Txt " not found"]]
      | Some _ => []
      end).

Definition option_of_result {A : Type} (r : result A) : option A :=
  match r with Ok a => Some a | Err _ => None end.

Section Platform.

Variable W : Type.
Variable handle : forall R : Type, Cmd R -> W -> R * W.


End Platform.

(** A line of the form "Warning: <name> not found". *)
Definition is_missing_warning (m : list frag) : bool :=
  match m with
  | [Txt a; Txt _; Txt c] =>
      String.eqb a "[EnvKit] Warning: " && String.eqb c " not found"
  | _ => false
  end.

Section SecretsFacts.

Variable W : Type.
Variable handle : forall R : Type, Cmd R -> W -> R * W.

(** X5.  On a platform that is neither ["colab"] nor ["kaggle"],
    [get_secrets] never raises.  When [load_dotenv] returns, the three
    secrets are what [os.getenv] answers for the three names, asked in
    the order token, user name, key; when [load_dotenv] raises, all
    three secrets are [None] and the environment is not read. *)
Theorem get_secrets_local_never_raises :
  forall (platform : string) (w : W),
    platform <> "colab" -> platform <> "kaggle" ->
    let r := run handle (get_secrets platform) w in
    let loaded := handle LoadDotenv w in
    let g := handle (GetEnv "GITHUB_TOKEN") (snd loaded) in
    let u := handle (GetEnv "KAGGLE_USERNAME") (snd g) in
    let k := handle (GetEnv "KAGGLE_KEY") (snd u) in
    (forall b, fst loaded = Ok b ->
       outcome r = Ok (mkSecrets (fst g) (fst u) (fst k)) /\ final r = snd k)
    /\ (forall e, fst loaded = Err e ->
       outcome r = Ok no_secrets /\ final r = snd loaded /\
       In [Txt "[EnvKit] Warning: Skipped .env"] (printed (trace r)) /\
       Forall (fun ev => kind_of ev <> KGetEnv) (trace r)).
Proof.
  intros platform w Hc Hk. cbv zeta.
  apply String.eqb_neq in Hc, Hk.
  unfold get_secrets; simpl. rewrite Hc, Hk. simpl.
  destruct (handle LoadDotenv w) as [[b | e] w0]; simpl.
  - split; [| intros; discriminate]. intros _ _.
    destruct (handle (GetEnv "GITHUB_TOKEN") w0) as [[g |] w1]; simpl;
      destruct (handle (GetEnv "KAGGLE_USERNAME") w1) as [[u |] w2]; simpl;
      destruct (handle (GetEnv "KAGGLE_KEY") w2) as [[k |] w3]; simpl;
      split; reflexivity.
  - split; [intros; discriminate |]. intros e' _.
    repeat split; try reflexivity.
    + unfold printed; in_list.
    + repeat constructor; simpl; discriminate.
Qed.

(** X6.  On every platform, when [get_secrets] returns, it has printed
    exactly one "not found" warning for each secret that is [None], in
    the order token, user name, key, and none for a secret that was
    found. *)
Theorem get_secrets_warns_per_missing_secret :
  forall (platform : string) (w : W),
    let r := run handle (get_secrets platform) w in
    forall secrets,
      outcome r = Ok secrets ->
      filter is_missing_warning (printed (trace r)) = missing_warnings secrets.
Proof.
  intros platform w. cbv zeta. unfold get_secrets, try_lookup; simpl.
  destruct (platform =? "colab")%string; simpl;
    [| destruct (platform =? "kaggle")%string; simpl].
  - destruct (handle (Import "google.colab") w) as [[[] | e] w0]; simpl.
    + destruct (handle (ColabUserdataGet "GITHUB_TOKEN") w0)
        as [[g | ?] w1]; simpl;
        destruct (handle (ColabUserdataGet "KAGGLE_USERNAME") w1)
          as [[u | ?] w2]; simpl;
        destruct (handle (ColabUserdataGet "KAGGLE_KEY") w2)
          as [[k | ?] w3]; simpl;
        intros secrets [= <-]; reflexivity.
    + destruct e; simpl; intros secrets H; try discriminate H.
      injection H as <-. reflexivity.
  - destruct (handle (Import "kaggle_secrets") w) as [[[] | e] w0]; simpl.
    + destruct (handle NewUserSecretsClient w0) as [[[] | e] w0']; simpl.
      * destruct (handle (KaggleGetSecret "GITHUB_TOKEN") w0')
          as [[g | ?] w1]; simpl;
          destruct (handle (KaggleGetSecret "KAGGLE_USERNAME") w1)
            as [[u | ?] w2]; simpl;
          destruct (handle (KaggleGetSecret "KAGGLE_KEY") w2)
            as [[k | ?] w3]; simpl;
          intros secrets [= <-]; reflexivity.
      * destruct e; simpl; intros secrets H; try discriminate H.
        injection H as <-. reflexivity.
    + destruct e; simpl; intros secrets H; try discriminate H.
      injection H as <-. reflexivity.
  - destruct (handle LoadDotenv w) as [[b | e] w0]; simpl.
    + destruct (handle (GetEnv "GITHUB_TOKEN") w0) as [[g |] w1]; simpl;
        destruct (handle (GetEnv "KAGGLE_USERNAME") w1) as [[u |] w2]; simpl;
        destruct (handle (GetEnv "KAGGLE_KEY") w2) as [[k |] w3]; simpl;
        intros secrets [= <-]; reflexivity.
    + intros secrets [= <-]. reflexivity.
Qed.

(** X7.  On Colab, once the module is imported, the three secrets are
    looked up one after the other and each lookup stands for itself:
    the secret is the value the store returned, or [None] when that
    lookup raised, whatever happened to the other two. *)
Theorem get_secrets_colab_lookups_independent :
  forall (w : W),
    fst (handle (Import "google.colab") w) = Ok tt ->
    let r := run handle (get_secrets "colab") w in
    let g := handle (ColabUserdataGet "GITHUB_TOKEN")
               (snd (handle (Import "google.colab") w)) in
    let u := handle (ColabUserdataGet "KAGGLE_USERNAME") (snd g) in
    let k := handle (ColabUserdataGet "KAGGLE_KEY") (snd u) in
    outcome r = Ok (mkSecrets (option_of_result (fst g))
                              (option_of_result (fst u))
                              (option_of_result (fst k)))
    /\ final r = snd k.
Proof.
  intros w Himport. cbv zeta. unfold get_secrets, try_lookup; simpl.
  destruct (handle (Import "google.colab") w) as [imported w0]; simpl in *.
  subst imported. simpl.
  destruct (handle (ColabUserdataGet "GITHUB_TOKEN") w0)
    as [[g | ?] w1]; simpl;
    destruct (handle (ColabUserdataGet "KAGGLE_USERNAME") w1)
      as [[u | ?] w2]; simpl;
    destruct (handle (ColabUserdataGet "KAGGLE_KEY") w2)
      as [[k | ?] w3]; simpl;
    split; reflexivity.
Qed.

(** X8.  On Kaggle, only [ImportError] is caught around the import and
    the construction of the secrets client.  When the import fails with
    [ImportError], the secrets are all [None] and the run goes on; when
    the client cannot be constructed for another reason, that exception
    leaves [get_secrets], no secret is looked up and no "not found"
    warning is printed. *)
Theorem get_secrets_kaggle_client_failure :
  forall (w : W),
    let r := run handle (get_secrets "kaggle") w in
    let imported := handle (Import "kaggle_secrets") w in
    (fst imported = Err ImportError ->
       outcome r = Ok no_secrets /\
       In [Txt "[EnvKit] Warning: Skipped kaggle secrets"] (printed (trace r)))
    /\ (forall e,
          fst imported = Ok tt ->
          fst (handle NewUserSecretsClient (snd imported)) = Err e ->
          e <> ImportError ->
          outcome r = Err e /\
          filter is_missing_warning (printed (trace r)) = [] /\
          Forall (fun ev => kind_of ev <> KSecretStore) (trace r)).
Proof.
  intros w. cbv zeta. unfold get_secrets, try_lookup; simpl.
  destruct (handle (Import "kaggle_secrets") w) as [imported w0]; simpl.
  split.
  - intros ->. simpl. split; [reflexivity | unfold printed; in_list].
  - intros e -> Hclient Hne. simpl.
    destruct (handle NewUserSecretsClient w0) as [client w1]; simpl in *.
    subst client. simpl.
    destruct e; simpl;
      first [ exfalso; apply Hne; reflexivity
            | repeat split; try reflexivity;
              repeat constructor; simpl; discriminate ].
Qed.

End SecretsFacts.

(** A Colab session whose secret store has a token and a key but no
    user name. *)
Module Colab.

Definition handle (R : Type) (c : Cmd R) (w : unit) : R * unit :=
  match c in Cmd R return R * unit with
  | Import _ => (Ok tt, w)
  | NewUserSecretsClient => (Ok tt, w)
  | ColabUserdataGet name =>
      (if String.eqb name "KAGGLE_USERNAME" then Err OtherException
       else Ok ("value of " ++ name)%string, w)
  | KaggleGetSecret _ => (Err OtherException, w)
  | LoadDotenv => (Ok false, w)
  | GetEnv _ => (None, w)
  | SetEnv _ _ => (tt, w)
  | LoadYaml _ => (Err FileNotFoundError, w)
  | PathExists _ => (true, w)
  | PathIsFile _ => (true, w)
  | Mkdir _ => (Ok tt, w)
  | OsRemove _ => (Ok tt, w)
  | ZipExtractAll _ _ => (Ok tt, w)
  | TarExtractAll _ _ => (Ok tt, w)
  | UrlRetrieve _ _ => (Ok tt, w)
  | NewRequest _ => (Ok tt, w)
  | UrlOpenCopy _ _ _ => (Ok tt, w)
  | SubprocessRun _ => (Ok tt, w)
  end.

End Colab.

Lemma get_secrets_local_never_raises_witness :
  "local" <> "colab" /\ "local" <> "kaggle" /\
  outcome (run RefWorld.handle (get_secrets "local") dotenv_world)
  = Ok (mkSecrets None (Some "alice") None).
Proof.
  split; [discriminate |]. split; [discriminate |].
  destruct (@get_secrets_local_never_raises _ RefWorld.handle "local"
              dotenv_world) as [Hloaded _]; try discriminate.
  exact (proj1 (Hloaded true eq_refl)).
Defined.

Lemma get_secrets_warns_per_missing_secret_witness :
  outcome (run RefWorld.handle (get_secrets "local") dotenv_world)
  = Ok (mkSecrets None (Some "alice") None) /\
  filter is_missing_warning
    (printed (trace (run RefWorld.handle (get_secrets "local") dotenv_world)))
  = [[Txt "[EnvKit] Warning: "; Txt "GITHUB_TOKEN"; Txt " not found"];
     [Txt "[EnvKit] Warning: "; Txt "KAGGLE_KEY"; Txt " not found"]].
Proof.
  split; [reflexivity |].
  exact (@get_secrets_warns_per_missing_secret _ RefWorld.handle "local"
           dotenv_world (mkSecrets None (Some "alice") None) eq_refl).
Defined.

Lemma get_secrets_colab_lookups_independent_witness :
  fst (Colab.handle (Import "google.colab") tt) = Ok tt /\
  outcome (run Colab.handle (get_secrets "colab") tt)
  = Ok (mkSecrets (Some "value of GITHUB_TOKEN") None
                  (Some "value of KAGGLE_KEY")).
Proof.
  split; [reflexivity |].
  exact (proj1 (@get_secrets_colab_lookups_independent _ Colab.handle tt
                  eq_refl)).
Defined.

(* ================================================================== *)
(** ** The extractor and the script runner *)

Inductive archive_format := ZipFormat | TarFormat.

(** The extraction commands: format, archive and destination. *)
Definition extract_command_of (e : event)
  : option (archive_format * PurePath.t * pyval) :=
  match e with
  | ECmd c _ =>
      match c with
      | ZipExtractAll archive target => Some (ZipFormat, archive, target)
      | TarExtractAll archive target => Some (TarFormat, archive, target)
      | _ => None
      end
  | _ => None
  end.

Definition extract_commands (tr : list event) :=
  filter_map extract_command_of tr.

Section ExtractFacts.

Variable W : Type.
Variable handle : forall R : Type, Cmd R -> W -> R * W.

(** X9.  [extract_file] on a path that does not exist, or that exists
    but is not a regular file, prints one warning and returns: nothing
    is extracted, nothing is removed, and the file system is only
    queried. *)
Theorem extract_file_needs_a_regular_file :
  forall (file_path extract_to remove_archieve : pyval) (p : PurePath.t) (w : W),
    Py.Path file_path = Ok p ->
    let r := run handle (extract_file file_path extract_to remove_archieve) w in
    let present := handle (PathExists p) w in
    let regular := handle (PathIsFile p) (snd present) in
    (fst present = false ->
       r = mkRun
             [ENote (Called (call_extract_file file_path extract_to
                               remove_archieve));
              ECmd (PathExists p) false;
              ENote (Printed [Txt "[EnvKit] Warning: File not found (";
                              Val file_path; Txt ")"])]
             (Ok tt) (snd present))
    /\ (fst present = true -> fst regular = false ->
        r = mkRun
              [ENote (Called (call_extract_file file_path extract_to
                                remove_archieve));
               ECmd (PathExists p) true;
               ECmd (PathIsFile p) false;
               ENote (Printed [Txt "[EnvKit] Warning: Not a file (";
                               Val file_path; Txt ")"])]
              (Ok tt) (snd regular)).
Proof.
  intros file_path extract_to remove_archieve p w Hp. cbv zeta.
  unfold extract_file; simpl. rewrite Hp; simpl.
  destruct (handle (PathExists p) w) as [present w0]; simpl.
  split.
  - intros ->. reflexivity.
  - intros ->. simpl.
    destruct (handle (PathIsFile p) w0) as [regular w1]; simpl.
    intros ->. reflexivity.
Qed.

(** X10.  For an existing regular file, the format is chosen by the name
    alone and the archive is extracted exactly once: a [.zip] suffix
    selects the zip extractor, otherwise a name ending in [.tar],
    [.tar.gz], [.tar.xz] or [.tgz] selects the tar extractor.  The
    destination is [extract_to] when it is truthy, and the directory
    that contains the archive otherwise. *)
Theorem extract_file_format_and_destination :
  forall (file_path extract_to remove_archieve : pyval) (p : PurePath.t) (w : W),
    Py.Path file_path = Ok p ->
    fst (handle (PathExists p) w) = true ->
    fst (handle (PathIsFile p) (snd (handle (PathExists p) w))) = true ->
    let r := run handle (extract_file file_path extract_to remove_archieve) w in
    let destination :=
      if Py.truthy extract_to then extract_to
      else VPath (PurePath.parent p) in
    (PurePath.suffix p = ".zip" ->
       extract_commands (trace r) = [(ZipFormat, p, destination)])
    /\ (PurePath.suffix p <> ".zip" ->
        is_tar_name (PurePath.name p) = true ->
        extract_commands (trace r) = [(TarFormat, p, destination)])
    /\ (PurePath.suffix p <> ".zip" ->
        is_tar_name (PurePath.name p) = false ->
        extract_commands (trace r) = [] /\
        In [Txt "[EnvKit] Warning: Skipped extraction"] (printed (trace r)))
    /\ outcome r = Ok tt.
Proof.
  intros file_path extract_to remove_archieve p w Hp Hpresent Hregular.
  cbv zeta. unfold extract_file; simpl. rewrite Hp; simpl.
  destruct (handle (PathExists p) w) as [present w0]; simpl in *.
  subst present; simpl.
  destruct (handle (PathIsFile p) w0) as [regular w1]; simpl in *.
  subst regular; simpl.
  unfold extract_commands, printed.
  destruct (PurePath.suffix p =? ".zip")%string eqn:Hzip.
  - apply String.eqb_eq in Hzip.
    repeat (run_step handle);
      (split; [intros _; reflexivity |]);
      (split; [intros H; contradiction |]);
      (split; [intros H; contradiction | reflexivity]).
  - apply String.eqb_neq in Hzip.
    destruct (is_tar_name (PurePath.name p)) eqn:Htar;
      repeat (run_step handle);
      (split; [intros H; contradiction |]);
      (split; [intros _ H; first [reflexivity | discriminate H] |]);
      (split; [intros _ H;
               first [discriminate H | split; [reflexivity | in_list]]
              | reflexivity]).
Qed.

End ExtractFacts.

Definition zip_world : RefWorld.world :=
  RefWorld.mk [(PurePath.parse "/tmp/a/file.zip", true);
               (PurePath.parse "/tmp/a", false)] [] [] [] [].

Lemma extract_file_needs_a_regular_file_witness :
  Py.Path (VStr "/tmp/a") = Ok (PurePath.parse "/tmp/a") /\
  fst (RefWorld.handle (PathExists (PurePath.parse "/tmp/a")) zip_world) = true /\
  fst (RefWorld.handle (PathIsFile (PurePath.parse "/tmp/a")) zip_world) = false /\
  run RefWorld.handle (extract_file (VStr "/tmp/a") VNone (VBool true)) zip_world
  = mkRun
      [ENote (Called (call_extract_file (VStr "/tmp/a") VNone (VBool true)));
       ECmd (PathExists (PurePath.parse "/tmp/a")) true;
       ECmd (PathIsFile (PurePath.parse "/tmp/a")) false;
       ENote (Printed [Txt "[EnvKit] Warning: Not a file (";
                       Val (VStr "/tmp/a"); Txt ")"])]
      (Ok tt) zip_world.
Proof.
  repeat (split; [reflexivity |]).
  exact (proj2 (@extract_file_needs_a_regular_file _ RefWorld.handle
                  (VStr "/tmp/a") VNone (VBool true) (PurePath.parse "/tmp/a")
                  zip_world eq_refl) eq_refl eq_refl).
Defined.

Lemma extract_file_format_and_destination_witness :
  Py.Path (VStr "/tmp/a/file.zip") = Ok (PurePath.parse "/tmp/a/file.zip") /\
  PurePath.suffix (PurePath.parse "/tmp/a/file.zip") = ".zip" /\
  extract_commands
    (trace (run RefWorld.handle
              (extract_file (VStr "/tmp/a/file.zip") VNone (VBool true))
              zip_world))
  = [(ZipFormat, PurePath.parse "/tmp/a/file.zip",
      VPath (PurePath.parse "/tmp/a"))].
Proof.
  repeat (split; [reflexivity |]).
  exact (proj1 (@extract_file_format_and_destination _ RefWorld.handle
                  (VStr "/tmp/a/file.zip") VNone (VBool true)
                  (PurePath.parse "/tmp/a/file.zip") zip_world
                  eq_refl eq_refl eq_refl) eq_refl).
Defined.

(** The command lines of the script runner. *)
Definition nbconvert (p : PurePath.t) : list arg :=
  [SysExecutable; lit "-m"; lit "jupyter"; lit "nbconvert"; lit "--to";
   lit "python"; path_arg p].

Definition python (p : PurePath.t) : list arg := [SysExecutable; path_arg p].

Section ExecuteFacts.

Variable W : Type.
Variable handle : forall R : Type, Cmd R -> W -> R * W.


(** X12.  [execute_script] on an existing regular [.py] file starts the
    interpreter on it exactly once.  A non-zero exit status is reported
    as a warning and the function returns normally, without the
    "finished successfully" line; any other exception of the subprocess
    call leaves the function. *)
Theorem execute_script_runs_python_file :
  forall (script_path : pyval) (p : PurePath.t) (w : W),
    Py.Path script_path = Ok p ->
    PurePath.suffix p = ".py" ->
    fst (handle (PathExists p) w) = true ->
    fst (handle (PathIsFile p) (snd (handle (PathExists p) w))) = true ->
    let r := run handle (execute_script script_path) w in
    let w1 := snd (handle (PathIsFile p) (snd (handle (PathExists p) w))) in
    let answer := fst (handle (SubprocessRun (python p)) w1) in
    subprocesses (trace r) = [(python p, answer)]
    /\ (answer = Ok tt ->
        outcome r = Ok tt /\
        In [Txt "[EnvKit] Info: Execution finished successfully."]
           (printed (trace r)))
    /\ (answer = Err CalledProcessError ->
        outcome r = Ok tt /\
        ~ In [Txt "[EnvKit] Info: Execution finished successfully."]
             (printed (trace r)))
    /\ (forall e, answer = Err e -> e <> CalledProcessError ->
        outcome r = Err e).
Proof.
  intros script_path p w Hp Hpy Hpresent Hregular. cbv zeta.
  unfold execute_script; simpl. rewrite Hp; simpl.
  destruct (handle (PathExists p) w) as [present w0]; simpl in *.
  subst present; simpl.
  destruct (handle (PathIsFile p) w0) as [regular w1]; simpl in *.
  subst regular; simpl.
  rewrite Hpy. simpl.
  change [SysExecutable; path_arg p] with (python p).
  destruct (handle (SubprocessRun (python p)) w1) as [answer w2]; simpl.
  unfold subprocesses, printed.
  destruct answer as [[] | e]; simpl.
  - split; [reflexivity |].
    split; [intros _; split; [reflexivity | in_list] |].
    split; intros; discriminate.
  - destruct e; simpl;
      (split; [reflexivity |]);
      (split; [intros; discriminate |]);
      (split;
       [ intros H;
         first [ discriminate H
               | split; [reflexivity |];
                 intros Hin; simpl in Hin;
                 repeat (destruct Hin as [Hin | Hin]; [discriminate Hin |]);
                 contradiction ]
       | intros e' [= <-] Hne;
         first [reflexivity | exfalso; apply Hne; reflexivity] ]).
Qed.

(** X13.  [execute_script] on an existing regular [.ipynb] file first
    converts the notebook.  The interpreter is started only when the
    conversion ended normally and the converted file, the same path with
    the suffix [.py], exists afterwards; it is then started on that
    converted file.  So the subprocesses of the run are the conversion
    alone, or the conversion followed by the interpreter. *)
Theorem execute_script_converts_notebook_first :
  forall (script_path : pyval) (p converted : PurePath.t) (w : W),
    Py.Path script_path = Ok p ->
    PurePath.suffix p = ".ipynb" ->
    PurePath.with_suffix ".py" p = Some converted ->
    fst (handle (PathExists p) w) = true ->
    fst (handle (PathIsFile p) (snd (handle (PathExists p) w))) = true ->
    let r := run handle (execute_script script_path) w in
    (exists answer,
        subprocesses (trace r) = [(nbconvert p, answer)] /\
        (answer <> Ok tt \/ In (converted, false) (exists_tests (trace r))))
    \/ (exists answer,
        subprocesses (trace r) =
          [(nbconvert p, Ok tt); (python converted, answer)] /\
        In (converted, true) (exists_tests (trace r))).
Proof.
  intros script_path p converted w Hp Hnb Hconv Hpresent Hregular. cbv zeta.
  unfold execute_script; simpl. rewrite Hp; simpl.
  destruct (handle (PathExists p) w) as [present w0]; simpl in *.
  subst present; simpl.
  destruct (handle (PathIsFile p) w0) as [regular w1]; simpl in *.
  subst regular; simpl.
  rewrite Hnb. simpl.
  change [SysExecutable; lit "-m"; lit "jupyter"; lit "nbconvert";
          lit "--to"; lit "python"; path_arg p] with (nbconvert p).
  destruct (handle (SubprocessRun (nbconvert p)) w1) as [answer w2]; simpl.
  unfold subprocesses, exists_tests.
  destruct answer as [[] | e]; simpl.
  - rewrite Hconv; simpl.
    destruct (handle (PathExists converted) w2) as [found w3]; simpl.
    destruct found; simpl.
    + change [SysExecutable; path_arg converted] with (python converted).
      destruct (handle (SubprocessRun (python converted)) w3)
        as [answer w4]; simpl.
      right. exists answer.
      destruct answer as [[] | e]; simpl; [| destruct e; simpl];
        (split; [reflexivity | in_list]).
    + left. exists (Ok tt). split; [reflexivity |]. right. in_list.
  - left. exists (Err e).
    destruct e; simpl; (split; [reflexivity | left; discriminate]).
Qed.

End ExecuteFacts.


Lemma execute_script_runs_python_file_witness :
  Py.Path (VStr "run.py") = Ok (PurePath.parse "run.py") /\
  PurePath.suffix (PurePath.parse "run.py") = ".py" /\
  subprocesses
    (trace (run RefWorld.handle (execute_script (VStr "run.py")) script_world))
  = [(python (PurePath.parse "run.py"), Ok tt)].
Proof.
  repeat (split; [reflexivity |]).
  exact (proj1 (@execute_script_runs_python_file _ RefWorld.handle
                  (VStr "run.py") (PurePath.parse "run.py") script_world
                  eq_refl eq_refl eq_refl eq_refl)).
Defined.

Definition notebook_world : RefWorld.world :=
  RefWorld.mk [(PurePath.parse "work/nb.ipynb", true);
               (PurePath.parse "work/nb.py", true)] [] [] [] [].

Lemma execute_script_converts_notebook_first_witness :
  Py.Path (VStr "work/nb.ipynb") = Ok (PurePath.parse "work/nb.ipynb") /\
  PurePath.suffix (PurePath.parse "work/nb.ipynb") = ".ipynb" /\
  PurePath.with_suffix ".py" (PurePath.parse "work/nb.ipynb")
  = Some (PurePath.parse "work/nb.py") /\
  let r := run RefWorld.handle (execute_script (VStr "work/nb.ipynb"))
             notebook_world in
  (exists answer,
      subprocesses (trace r) = [(nbconvert (PurePath.parse "work/nb.ipynb"), answer)] /\
      (answer <> Ok tt \/
       In (PurePath.parse "work/nb.py", false) (exists_tests (trace r))))
  \/ (exists answer,
      subprocesses (trace r) =
        [(nbconvert (PurePath.parse "work/nb.ipynb"), Ok tt);
         (python (PurePath.parse "work/nb.py"), answer)] /\
      In (PurePath.parse "work/nb.py", true) (exists_tests (trace r))).
Proof.
  repeat (split; [reflexivity |]).
  apply (@execute_script_converts_notebook_first _ RefWorld.handle
           (VStr "work/nb.ipynb") (PurePath.parse "work/nb.ipynb")
           (PurePath.parse "work/nb.py") notebook_world);
    reflexivity.
Defined.

(** The notebook of the reference world is converted and then run. *)
Example notebook_is_converted_then_run :
  subprocesses
    (trace (run RefWorld.handle (execute_script (VStr "work/nb.ipynb"))
              notebook_world))
  = [(nbconvert (PurePath.parse "work/nb.ipynb"), Ok tt);
     (python (PurePath.parse "work/nb.py"), Ok tt)].
Proof. reflexivity. Qed.

(* ================================================================== *)
(** ** The fetchers *)

Lemma startswith_app (a b : string) : PyString.startswith a (a ++ b) = true.
Proof.
  induction a as [| c a IH]; [apply PyStringFacts.startswith_empty |].
  change ((String c a ++ b)%string) with (String c (a ++ b)%string).
  rewrite PyStringFacts.startswith_cons. exact IH.
Qed.

(** Replacing a non-empty prefix puts the replacement in front. *)
Lemma replace_prefix (old new s : string) :
  old <> "" -> PyString.startswith old s = true ->
  PyString.startswith new (PyString.replace old new s) = true.
Proof.
  intros Hold Hs. unfold PyString.replace.
  destruct s as [| c s].
  - destruct old; [contradiction | discriminate Hs].
  - simpl. rewrite Hs. apply startswith_app.
Qed.

(** The [Authorization] headers of the requests opened. *)
Definition authorization_of (e : event) : option (option string) :=
  match e with
  | ECmd c _ =>
      match c with
      | UrlOpenCopy _ authorization _ => Some authorization
      | _ => None
      end
  | _ => None
  end.

Definition authorizations (tr : list event) := filter_map authorization_of tr.

Section FetcherFacts.

Variable W : Type.
Variable handle : forall R : Type, Cmd R -> W -> R * W.

(** X14.  [download_file] never raises, whatever its arguments and
    whatever the world answers: every exception is caught and reported.
    It retrieves at most one URL, the one it was given, and only after
    the parent directory of the target was created without error. *)
Theorem download_file_never_raises :
  forall (url target_path : pyval) (w : W),
    let r := run handle (download_file url target_path) w in
    outcome r = Ok tt
    /\ (fetches (trace r) = [] \/
        (fetches (trace r) = [url] /\
         exists p, Py.Path target_path = Ok p /\
                   In (ECmd (Mkdir (PurePath.parent p)) (Ok tt)) (trace r))).
Proof.
  intros url target_path w. cbv zeta. unfold download_file; simpl.
  unfold fetches.
  destruct (Py.Path target_path) as [p | e]; simpl.
  - repeat (run_step handle);
      repeat match goal with u : unit |- _ => destruct u end;
      (split; [reflexivity |]);
      first [ left; reflexivity
            | right; split; [reflexivity |];
              exists p; split; [reflexivity | in_list] ].
  - split; [reflexivity | left; reflexivity].
Qed.

(** X15.  When the target does not exist, a repository is cloned by
    exactly one [git clone] towards the target.  With a non-empty token
    and a URL that starts with ["https://"], the URL cloned is the given
    one with ["https://"] replaced by ["https://<token>@"], so it begins
    with the token; without a token, with an empty token, or with
    another scheme, the URL is cloned as given. *)
Theorem clone_url_carries_token :
  forall (url target_path : string) (token : option string) (w : W),
    fst (handle (PathExists (PurePath.parse target_path)) w) = false ->
    let r := run handle
               (download_github (VStr url) (VStr target_path) "repo" token) w in
    let cloned (final_url : string) :=
      exists answer,
        subprocesses (trace r) =
          [(git_clone (VStr final_url) (VStr target_path), answer)] in
    (forall tok,
        token = Some tok -> tok <> "" ->
        PyString.startswith "https://" url = true ->
        cloned (PyString.replace "https://" ("https://" ++ tok ++ "@") url)
        /\ PyString.startswith ("https://" ++ tok ++ "@")
             (PyString.replace "https://" ("https://" ++ tok ++ "@") url)
           = true)
    /\ (token = None \/ token = Some "" \/
        PyString.startswith "https://" url = false ->
        cloned url).
Proof.
  intros url target_path token w Hmissing. cbv zeta.
  unfold download_github; simpl.
  assert (Hclone : forall final_url,
    exists answer,
      subprocesses
        (trace
           (run handle
              (try_except
                 (p <- lift (Py.Path (VStr target_path));;
                  exists_ <- ask (PathExists p);;
                  (if exists_
                   then
                     print [Txt "[EnvKit] Warning: Target path ";
                            Val (VStr target_path); Txt " already exists"];;
                     print [Txt "[EnvKit] Warning: Skipped clone"]
                   else
                     do_ (SubprocessRun
                            [lit "git"; lit "clone"; Arg (VStr final_url);
                             Arg (VStr target_path)]);;
                     print [Txt "[EnvKit] Info: Git clone completed"]))
                 is_CalledProcessError
                 (fun e =>
                    print [Txt "[EnvKit] Warning: Git clone failed (";
                           Exc e; Txt ")"])) w))
      = [(git_clone (VStr final_url) (VStr target_path), answer)]).
  { intros final_url. simpl.
    destruct (handle (PathExists (PurePath.parse target_path)) w)
      as [present w0]; simpl in *. subst present. simpl.
    destruct (handle (SubprocessRun
                        [lit "git"; lit "clone"; Arg (VStr final_url);
                         Arg (VStr target_path)]) w0) as [answer w1]; simpl.
    exists answer. unfold subprocesses, git_clone.
    destruct answer as [[] | e]; simpl; [| destruct e; simpl]; reflexivity. }
  split.
  - intros tok -> Htok Hhttps. split.
    + apply String.eqb_neq in Htok. simpl. rewrite Htok; simpl.
      rewrite Hhttps; simpl.
      destruct (Hclone (PyString.replace "https://"
                          ("https://" ++ tok ++ "@") url)) as [answer Ha].
      exists answer. exact Ha.
    + apply replace_prefix; [discriminate | exact Hhttps].
  - intros Hplain.
    destruct (Hclone url) as [answer Ha]. exists answer.
    destruct token as [tok |]; simpl; [| exact Ha].
    destruct (negb (tok =? "")%string) eqn:Htok; simpl; [| exact Ha].
    destruct (PyString.startswith "https://" url) eqn:Hhttps; simpl;
      [| exact Ha].
    destruct Hplain as [H | [H | H]]; try discriminate H.
    injection H as ->. discriminate Htok.
Qed.

(** X16.  In the file branch of [download_github], every request opened
    carries the header [Authorization: token <token>] when the token is
    non-empty, and no such header when the token is [None] or empty. *)
Theorem github_file_authorization :
  forall (url : string) (target_path : pyval) (token : option string) (w : W),
    let r := run handle
               (download_github (VStr url) target_path "file" token) w in
    Forall (fun header =>
              header = match token with
                       | Some tok =>
                           if String.eqb tok "" then None
                           else Some ("token " ++ tok)%string
                       | None => None
                       end)
           (authorizations (trace r)).
Proof.
  intros url target_path token w. cbv zeta.
  unfold download_github, raw_url_of; simpl. unfold authorizations.
  destruct (PyString.contains "/tree/" url); simpl; [constructor |].
  destruct (PyString.contains "github.com" url); simpl;
    [destruct (PyString.contains "/blob/" url); simpl |];
    destruct (Py.Path target_path); simpl;
    destruct token as [tok |]; simpl;
    try destruct (tok =? "")%string; simpl;
    repeat (run_step handle); repeat constructor.
Qed.

End FetcherFacts.

Lemma clone_url_carries_token_witness :
  fst (RefWorld.handle (PathExists (PurePath.parse "work/new")) cloned_world)
  = false /\
  exists answer,
    subprocesses
      (trace (run RefWorld.handle
                (download_github (VStr "https://github.com/o/r.git")
                   (VStr "work/new") "repo" (Some "t0ken")) cloned_world))
    = [(git_clone (VStr "https://t0ken@github.com/o/r.git") (VStr "work/new"),
        answer)].
Proof.
  split; [reflexivity |].
  exact (proj1 (proj1 (@clone_url_carries_token _ RefWorld.handle
                         "https://github.com/o/r.git" "work/new"
                         (Some "t0ken") cloned_world eq_refl)
                  "t0ken" eq_refl ltac:(discriminate) eq_refl)).
Defined.

Section KaggleFacts.

Variable W : Type.
Variable handle : forall R : Type, Cmd R -> W -> R * W.

(** X17.  [download_kaggle] starts exactly one subprocess for the two
    resource types it knows: [kaggle competitions download -c <name> -p
    <target>] for ["competition_files"] and [kaggle datasets download -d
    <name> -p <target>] for ["dataset"].  For any other resource type
    the command is never bound: the function raises
    [UnboundLocalError] after its first line, and starts nothing. *)
Theorem download_kaggle_command_lines :
  forall (name target_path : pyval) (resource_type : string) (w : W),
    let r := run handle (download_kaggle name target_path resource_type) w in
    (resource_type = "competition_files" ->
       exists answer,
         subprocesses (trace r) =
           [(kaggle_download "competitions" "-c" name target_path, answer)])
    /\ (resource_type = "dataset" ->
        exists answer,
          subprocesses (trace r) =
            [(kaggle_download "datasets" "-d" name target_path, answer)])
    /\ (resource_type <> "competition_files" -> resource_type <> "dataset" ->
        outcome r = Err UnboundLocalError /\
        Forall (fun e => kind_of e = KPrint \/ kind_of e = KEnterFetcher)
               (trace r)).
Proof.
  intros name target_path resource_type w. cbv zeta.
  unfold download_kaggle; simpl. unfold subprocesses, kaggle_download.
  split; [| split].
  - intros ->. simpl.
    repeat (run_step handle); eexists; reflexivity.
  - intros ->. simpl.
    repeat (run_step handle); eexists; reflexivity.
  - intros Hc Hd. apply String.eqb_neq in Hc, Hd. rewrite Hc, Hd. simpl.
    split; [reflexivity |].
    repeat (apply Forall_cons; [simpl; auto |]). apply Forall_nil.
Qed.

(** X18.  For the two known resource types, a non-zero exit status of
    the Kaggle command is reported with the warning and the two tips,
    and [download_kaggle] returns normally; a normal exit prints the
    completion line; any other exception of the subprocess call (the
    command is not installed, say) leaves the function. *)
Theorem download_kaggle_tolerates_failure :
  forall (name target_path : pyval) (kind flag resource_type : string) (w : W),
    (resource_type = "competition_files" /\ kind = "competitions" /\ flag = "-c")
    \/ (resource_type = "dataset" /\ kind = "datasets" /\ flag = "-d") ->
    let r := run handle (download_kaggle name target_path resource_type) w in
    let answer :=
      fst (handle (SubprocessRun (kaggle_download kind flag name target_path))
             w) in
    (answer = Ok tt ->
       outcome r = Ok tt /\
       In [Txt "[EnvKit] Info: Kaggle download completed"] (printed (trace r)))
    /\ (answer = Err CalledProcessError ->
        outcome r = Ok tt /\
        In [Txt "[EnvKit] Tip: Check if the competition/dataset name is correct"]
           (printed (trace r)) /\
        In [Txt "[EnvKit] Tip: Check if you accepted the competition rules on Kaggle website"]
           (printed (trace r)))
    /\ (forall e, answer = Err e -> e <> CalledProcessError ->
        outcome r = Err e).
Proof.
  intros name target_path kind flag resource_type w Hkind. cbv zeta.
  unfold download_kaggle, kaggle_download; simpl. unfold printed.
  destruct Hkind as [(-> & -> & ->) | (-> & -> & ->)]; simpl;
    match goal with
    | |- context [handle ?c w] => destruct (handle c w) as [answer w0]
    end; simpl;
    (destruct answer as [[] | e]; simpl;
     [ split; [intros _; split; [reflexivity | in_list] |];
       split; intros; discriminate
     | destruct e; simpl;
       (split; [intros; discriminate |]);
       (split;
        [ intros H;
          first [ discriminate H
                | split; [reflexivity | split; in_list] ]
        | intros e' [= <-] Hne;
          first [reflexivity | exfalso; apply Hne; reflexivity] ]) ]).
Qed.

(** X19.  Fetching never does the work of the later steps.  In a run of
    [download_file], [download_github] or [download_kaggle] every event
    is a printed line, the entry of the fetcher, an existence test, a
    directory creation, a network call or a [git] / [kaggle] subprocess:
    no archive is extracted, no file is removed, the interpreter is not
    started, and neither secrets nor the process environment are
    touched. *)
Theorem fetchers_only_fetch :
  forall (a b : pyval) (resource_type : string) (token : option string) (w : W),
    let never (e : event) :=
      ~ In (kind_of e)
          [KEnterExtract; KEnterExecute; KEnterOther; KExtractAll; KRemove;
           KPython; KImport; KSecretStore; KDotenv; KGetEnv; KSetEnv;
           KLoadYaml] in
    Forall never (trace (run handle (download_file a b) w))
    /\ Forall never (trace (run handle
                              (download_github a b resource_type token) w))
    /\ Forall never (trace (run handle (download_kaggle a b resource_type) w)).
Proof.
  intros a b resource_type token w. cbv zeta.
  assert (Hnever : forall e, of_kinds fetcher_kinds e ->
            ~ In (kind_of e)
                [KEnterExtract; KEnterExecute; KEnterOther; KExtractAll;
                 KRemove; KPython; KImport; KSecretStore; KDotenv; KGetEnv;
                 KSetEnv; KLoadYaml]).
  { intros e He Hin. unfold of_kinds, fetcher_kinds in He.
    simpl in He, Hin.
    repeat match goal with
           | H : _ \/ _ |- _ => destruct H
           | H : False |- _ => contradiction
           end; congruence. }
  repeat split;
    (eapply Forall_impl; [exact Hnever |]); apply emits_only_run.
  - apply download_file_kinds.
  - apply download_github_kinds.
  - apply download_kaggle_kinds.
Qed.

End KaggleFacts.

Lemma download_kaggle_tolerates_failure_witness :
  (("dataset" = "competition_files" /\ "datasets" = "competitions" /\ "-d" = "-c")
   \/ ("dataset" = "dataset" /\ "datasets" = "datasets" /\ "-d" = "-d")) /\
  fst (Offline.handle
         (SubprocessRun (kaggle_download "datasets" "-d" (VStr "alice/titanic")
                           (VStr "/data"))) tt)
  = Err CalledProcessError /\
  outcome (run Offline.handle
             (download_kaggle (VStr "alice/titanic") (VStr "/data") "dataset")
             tt) = Ok tt.
Proof.
  split; [right; repeat split |]. split; [reflexivity |].
  destruct (@download_kaggle_tolerates_failure _ Offline.handle
              (VStr "alice/titanic") (VStr "/data") "datasets" "-d" "dataset"
              tt) as (_ & Hcpe & _); [right; repeat split |].
  exact (proj1 (Hcpe eq_refl)).
Defined.

(* ================================================================== *)
(** ** The pipeline as a whole *)

(** The fetchers entered, with their arguments. *)
Definition fetcher_call_of (e : event) : option call :=
  match e with
  | ENote (Called c) =>
      match kind_of_call c with
      | KEnterFetcher => Some c
      | _ => None
      end
  | _ => None
  end.

Definition fetcher_calls (tr : list event) := filter_map fetcher_call_of tr.

Lemma fetcher_call_kind (e : event) (c : call) :
  fetcher_call_of e = Some c -> kind_of e = KEnterFetcher.
Proof.
  destruct e as [[m | c0] | R c0 r]; simpl; try discriminate.
  destruct (kind_of_call c0) eqn:E; try discriminate. reflexivity.
Qed.

Lemma no_fetcher_calls (ks : list kind) (tr : list event) :
  ~ In KEnterFetcher ks -> Forall (of_kinds ks) tr -> fetcher_calls tr = [].
Proof.
  intros Hks Htr. apply filter_map_none.
  eapply Forall_impl; [| exact Htr].
  intros e He. destruct (fetcher_call_of e) eqn:E; [| reflexivity].
  apply fetcher_call_kind in E. unfold of_kinds in He. rewrite E in He.
  contradiction.
Qed.

Definition fetch_body_kinds : list kind :=
  [KPrint; KStat; KMkdir; KNetwork; KTool].

(** The extraction and execution steps of a task enter no fetcher. *)
Lemma postprocess_steps_kinds (task : dict) (path archive : pyval) :
  emits_only (of_kinds postprocess_kinds)
    (target <- extract_task task path archive ;; execute_task task target).
Proof.
  apply emits_only_bind.
  - unfold extract_task.
    destruct (Py.is_True (Py.dict_get task "extract" VNone));
      [apply emits_only_bind; [apply extract_file_kinds | intros; exact I]
      | exact I].
  - intros target. unfold execute_task.
    destruct (Py.is_True (Py.dict_get task "execute" VNone));
      [apply execute_script_kinds | exact I].
Qed.

Section PipelineFacts.

Variable py_format : pyval -> string.
Variable W : Type.
Variable handle : forall R : Type, Cmd R -> W -> R * W.
Variable secrets : Secrets.

Lemma download_file_entry (url target_path : pyval) (w : W) :
  fetcher_calls (trace (run handle (download_file url target_path) w))
  = [call_download_file url target_path].
Proof.
  unfold download_file, fetcher_calls; simpl. f_equal.
  apply (no_fetcher_calls (ks := fetch_body_kinds)); [not_in_kinds |].
  apply emits_only_run. emits_tac.
Qed.

Lemma download_github_entry (url target_path : pyval) (rt : string)
    (token : option string) (w : W) :
  fetcher_calls (trace (run handle (download_github url target_path rt token) w))
  = [call_download_github url target_path rt token].
Proof.
  unfold download_github, raw_url_of, fetcher_calls; simpl. f_equal.
  apply (no_fetcher_calls (ks := fetch_body_kinds)); [not_in_kinds |].
  apply emits_only_run. emits_tac.
Qed.

Lemma download_kaggle_entry (name target_path : pyval) (rt : string) (w : W) :
  fetcher_calls (trace (run handle (download_kaggle name target_path rt) w))
  = [call_download_kaggle name target_path rt].
Proof.
  unfold download_kaggle, fetcher_calls; simpl. f_equal.
  apply (no_fetcher_calls (ks := fetch_body_kinds)); [not_in_kinds |].
  apply emits_only_run.
  destruct (rt =? "competition_files")%string;
    [| destruct (rt =? "dataset")%string]; emits_tac.
Qed.

Lemma fetcher_calls_bind_ret {A B : Type} (p : Prog A) (b : B) (w : W) :
  fetcher_calls (trace (run handle (p ;; Ret b) w))
  = fetcher_calls (trace (run handle p w)).
Proof.
  rewrite run_bind. unfold then_run.
  destruct (outcome (run handle p w)); simpl; [| reflexivity].
  rewrite app_nil_r. reflexivity.
Qed.

(** The fetchers entered in the run of a whole task are those of its
    fetch step. *)
Lemma task_fetcher_calls (task : dict) (w : W) :
  fetcher_calls (trace (run handle (process_task py_format secrets (VDict task)) w))
  = fetcher_calls
      (trace (run handle (fetch_task py_format secrets task (task_path task)) w)).
Proof.
  unfold process_task. fold (task_path task).
  rewrite run_bind. unfold then_run.
  destruct (outcome (run handle (fetch_task py_format secrets task
                                   (task_path task)) w)) as [archive | e];
    simpl; [| reflexivity].
  unfold fetcher_calls. rewrite filter_map_app.
  assert (Hrest :
    filter_map fetcher_call_of
      (trace (run handle
                (target_path <- extract_task task (task_path task) archive;;
                 execute_task task target_path)
                (final (run handle (fetch_task py_format secrets task
                                      (task_path task)) w)))) = []).
  { apply (no_fetcher_calls (ks := postprocess_kinds)); [not_in_kinds |].
    apply emits_only_run, postprocess_steps_kinds. }
  rewrite Hrest. apply app_nil_r.
Qed.

Lemma fetcher_calls_bind_silent {A B : Type} (p : Prog A) (f : A -> Prog B)
    (w : W) :
  (forall a w', trace (run handle (f a) w') = []) ->
  fetcher_calls (trace (run handle (bind p f) w))
  = fetcher_calls (trace (run handle p w)).
Proof.
  intros Hf. rewrite run_bind. unfold then_run.
  destruct (outcome (run handle p w)); simpl; [| reflexivity].
  rewrite Hf, app_nil_r. reflexivity.
Qed.

(** X20.  The source of a task is chosen by the first key the task has
    among [url], [github_file], [github_repo], [kaggle_competition] and
    [kaggle_dataset], in this order.  In the run of a task exactly one
    fetcher is entered: that of the first of these keys, with the value
    of the key, the task's path and, for GitHub, the token of the
    secrets; the source keys after it are ignored.  A task with none of
    the keys enters no fetcher. *)
Theorem first_source_key_decides_fetcher :
  forall (task : dict) (w : W),
    let tr := trace (run handle (process_task py_format secrets (VDict task)) w) in
    let path := task_path task in
    let token := GITHUB_TOKEN secrets in
    fetcher_calls tr =
      match Py.lookup "url" task, Py.lookup "github_file" task,
            Py.lookup "github_repo" task, Py.lookup "kaggle_competition" task,
            Py.lookup "kaggle_dataset" task with
      | Some url, _, _, _, _ => [call_download_file url path]
      | None, Some url, _, _, _ => [call_download_github url path "file" token]
      | None, None, Some url, _, _ => [call_download_github url path "repo" token]
      | None, None, None, Some name, _ =>
          [call_download_kaggle name path "competition_files"]
      | None, None, None, None, Some name =>
          [call_download_kaggle name path "dataset"]
      | None, None, None, None, None => []
      end.
Proof.
  intros task w. cbv zeta. rewrite task_fetcher_calls. unfold fetch_task.
  destruct (Py.lookup "url" task) as [url |].
  { rewrite fetcher_calls_bind_ret. apply download_file_entry. }
  destruct (Py.lookup "github_file" task) as [url |].
  { rewrite fetcher_calls_bind_ret. apply download_github_entry. }
  destruct (Py.lookup "github_repo" task) as [url |].
  { rewrite fetcher_calls_bind_ret. apply download_github_entry. }
  destruct (Py.lookup "kaggle_competition" task) as [name |].
  { rewrite fetcher_calls_bind_silent; [apply download_kaggle_entry |].
    intros _ w'. destruct (Py.Path (task_path task)); reflexivity. }
  destruct (Py.lookup "kaggle_dataset" task) as [name |]; [| reflexivity].
  rewrite fetcher_calls_bind_silent; [apply download_kaggle_entry |].
  intros _ w'. destruct (Py.split_last name); [| reflexivity].
  destruct (Py.Path (task_path task)); reflexivity.
Qed.

(** X21.  A task that has a [url] and also one of the Kaggle keys, with
    [extract] set to [True], downloads the URL and then fails: the
    extraction step takes the Kaggle archive path, which was never set
    because the [url] branch was taken, so [extract_file] is entered
    with [None], [Path(None)] raises [TypeError], and the exception
    leaves the task; the script runner is not entered. *)
Theorem url_task_with_kaggle_key_raises :
  forall (task : dict) (url : pyval) (w : W),
    Py.lookup "url" task = Some url ->
    Py.has_key "kaggle_competition" task || Py.has_key "kaggle_dataset" task
    = true ->
    Py.dict_get task "extract" VNone = VBool true ->
    let r := run handle (process_task py_format secrets (VDict task)) w in
    fetcher_calls (trace r) = [call_download_file url (task_path task)]
    /\ extract_calls (trace r) =
         [(VNone, Py.dict_get task "extract_to" VNone,
           Py.dict_get task "remove_compression" (VBool false))]
    /\ execute_calls (trace r) = []
    /\ outcome r = Err TypeError.
Proof.
  intros task url w Hurl Hkey Hext. cbv zeta.
  split.
  { rewrite task_fetcher_calls. unfold fetch_task. rewrite Hurl.
    rewrite fetcher_calls_bind_ret. apply download_file_entry. }
  pose proof (@process_task_calls py_format _ handle secrets task w) as H.
  assert (Hfetch :
    outcome (run handle (fetch_task py_format secrets task (task_path task)) w)
    = Ok VNone).
  { unfold fetch_task. rewrite Hurl. rewrite run_bind. unfold then_run.
    rewrite download_file_returns. reflexivity. }
  rewrite Hfetch in H. unfold path_after_extract in H.
  rewrite Hext, Hkey in H. simpl in H.
  destruct H as [Hx [[_ [Hf | [p Hp]]] | (Hy & _ & e & He & Hout)]];
    try discriminate.
  injection He as <-.
  split; [exact Hx | split; [exact Hy | exact Hout]].
Qed.

Lemma process_task_not_mapping (task : pyval) :
  Py.is_dict task = false ->
  process_task py_format secrets task = Raise AttributeError.
Proof.
  intros H. destruct task; simpl in H; try discriminate H; reflexivity.
Qed.

Lemma for_each_malformed (items : list pyval) :
  Exists (fun t => Py.is_dict t = false) items ->
  forall w, exists e,
    outcome (run handle (for_each items (process_task py_format secrets)) w)
    = Err e.
Proof.
  induction 1 as [x rest Hx | x rest _ IH]; intros w.
  - exists AttributeError. simpl.
    rewrite (process_task_not_mapping x Hx). reflexivity.
  - change (for_each (x :: rest) (process_task py_format secrets))
      with (process_task py_format secrets x ;;
            for_each rest (process_task py_format secrets)).
    rewrite run_bind. unfold then_run.
    destruct (outcome (run handle (process_task py_format secrets x) w))
      as [[] | e]; simpl; [apply IH | exists e; reflexivity].
Qed.

Opaque process_task for_each.

(** X22.  A [download] value that is a single non-empty mapping is
    processed as one task: the line printed counts one task, and the
    run continues as the run of that task, with its outcome and its
    final world (the keys of the mapping are not iterated). *)
Theorem process_downloads_single_mapping :
  forall (config task : dict) (w : W),
    Py.lookup "download" config = Some (VDict task) ->
    task <> [] ->
    let r := run handle (process_downloads py_format (VDict config) secrets) w in
    let r1 := run handle (process_task py_format secrets (VDict task)) w in
    trace r =
      ENote (Called (call_process_downloads (VDict config)))
      :: ENote (Printed [Txt "[EnvKit] Info: Processing "; Num 1;
                         Txt " download tasks..."])
      :: trace r1
    /\ outcome r = outcome r1
    /\ final r = final r1.
Proof.
  intros config task w Hd Hne. cbv zeta.
  unfold process_downloads; simpl. unfold Py.dict_get. rewrite Hd; simpl.
  destruct task as [| kv task']; [contradiction |]. simpl.
  change (for_each [VDict (kv :: task')] (process_task py_format secrets))
    with (process_task py_format secrets (VDict (kv :: task')) ;; Ret tt).
  rewrite run_bind. unfold then_run.
  destruct (run handle (process_task py_format secrets (VDict (kv :: task'))) w)
    as [tr1 [[] | e] w1]; simpl; rewrite ?app_nil_r; repeat split.
Qed.

(** X23.  The tasks of a list are processed in order and nothing
    isolates them from each other: when the first task raises, the run
    of [process_downloads] ends there with that exception and no later
    task is started.  A task that is not a mapping raises
    [AttributeError] before anything is fetched, and a list that holds
    such an entry anywhere never makes [process_downloads] return
    normally. *)
Theorem process_downloads_aborts_on_exception :
  forall (config : dict) (first : pyval) (rest : list pyval) (w : W),
    Py.lookup "download" config = Some (VList (first :: rest)) ->
    let r := run handle (process_downloads py_format (VDict config) secrets) w in
    let r1 := run handle (process_task py_format secrets first) w in
    let header :=
      [ENote (Called (call_process_downloads (VDict config)));
       ENote (Printed [Txt "[EnvKit] Info: Processing ";
                       Num (S (List.length rest));
                       Txt " download tasks..."])] in
    (forall e, outcome r1 = Err e ->
       trace r = header ++ trace r1 /\ outcome r = Err e /\ final r = final r1)
    /\ (Py.is_dict first = false ->
        trace r = header /\ outcome r = Err AttributeError /\ final r = w)
    /\ (Exists (fun t => Py.is_dict t = false) (first :: rest) ->
        exists e, outcome r = Err e).
Proof.
  intros config first rest w Hd. cbv zeta.
  unfold process_downloads; simpl. unfold Py.dict_get. rewrite Hd; simpl.
  split; [| split].
  - intros e He.
    change (for_each (first :: rest) (process_task py_format secrets))
      with (process_task py_format secrets first ;;
            for_each rest (process_task py_format secrets)).
    rewrite run_bind. unfold then_run. rewrite He. simpl.
    repeat split.
  - intros Hfirst.
    change (for_each (first :: rest) (process_task py_format secrets))
      with (process_task py_format secrets first ;;
            for_each rest (process_task py_format secrets)).
    rewrite run_bind. unfold then_run.
    rewrite (process_task_not_mapping first Hfirst). simpl. repeat split.
  - intros Hbad.
    destruct (for_each_malformed Hbad w) as [e He].
    exists e. exact He.
Qed.

Transparent process_task for_each.

End PipelineFacts.

Definition mixed_task : dict :=
  [("url", VStr "https://example.org/data.zip");
   ("path", VStr "data/data.zip");
   ("kaggle_dataset", VStr "alice/titanic");
   ("extract", VBool true)].

Lemma url_task_with_kaggle_key_raises_witness :
  Py.lookup "url" mixed_task = Some (VStr "https://example.org/data.zip") /\
  Py.has_key "kaggle_competition" mixed_task
  || Py.has_key "kaggle_dataset" mixed_task = true /\
  Py.dict_get mixed_task "extract" VNone = VBool true /\
  let r := run RefWorld.handle
             (process_task RefWorld.format no_secrets (VDict mixed_task))
             RefWorld.empty in
  extract_calls (trace r) = [(VNone, VNone, VBool false)] /\
  outcome r = Err TypeError.
Proof.
  split; [reflexivity |]. split; [reflexivity |]. split; [reflexivity |].
  destruct (@url_task_with_kaggle_key_raises RefWorld.format _ RefWorld.handle
              no_secrets mixed_task (VStr "https://example.org/data.zip")
              RefWorld.empty eq_refl eq_refl eq_refl)
    as (_ & Hx & _ & Hout).
  split; [exact Hx | exact Hout].
Defined.

Definition single_task : dict := [("path", VStr "data")].
Definition single_config : dict := [("download", VDict single_task)].

Lemma process_downloads_single_mapping_witness :
  Py.lookup "download" single_config = Some (VDict single_task) /\
  single_task <> [] /\
  let r := run RefWorld.handle
             (process_downloads RefWorld.format (VDict single_config) no_secrets)
             RefWorld.empty in
  let r1 := run RefWorld.handle
              (process_task RefWorld.format no_secrets (VDict single_task))
              RefWorld.empty in
  trace r =
    ENote (Called (call_process_downloads (VDict single_config)))
    :: ENote (Printed [Txt "[EnvKit] Info: Processing "; Num 1;
                       Txt " download tasks..."])
    :: trace r1
  /\ outcome r = outcome r1
  /\ final r = final r1.
Proof.
  split; [reflexivity |]. split; [discriminate |].
  apply (@process_downloads_single_mapping RefWorld.format _ RefWorld.handle
           no_secrets single_config single_task RefWorld.empty);
    [reflexivity | discriminate].
Defined.

Definition malformed_config : dict :=
  [("download", VList [VStr "data.zip"; VDict single_task])].

Lemma process_downloads_aborts_on_exception_witness :
  Py.lookup "download" malformed_config
  = Some (VList [VStr "data.zip"; VDict single_task]) /\
  let r := run RefWorld.handle
             (process_downloads RefWorld.format (VDict malformed_config)
                no_secrets) RefWorld.empty in
  List.length (trace r) = 2 /\ outcome r = Err AttributeError.
Proof.
  split; [reflexivity |].
  destruct (@process_downloads_aborts_on_exception RefWorld.format _
              RefWorld.handle no_secrets malformed_config (VStr "data.zip")
              [VDict single_task] RefWorld.empty eq_refl)
    as (_ & Hbad & _).
  destruct (Hbad eq_refl) as (Htrace & Hout & _).
  split; [rewrite Htrace; reflexivity | exact Hout].
Defined.

(* ================================================================== *)
(** ** [setup] and [main] *)

Lemma in_calls (c : call) (tr : list event) :
  In (ENote (Called c)) tr -> In c (calls tr).
Proof.
  unfold calls. induction tr as [| e rest IH]; simpl; [tauto |].
  intros [-> | H]; simpl; [left; reflexivity |].
  destruct (call_of e); [right |]; apply IH, H.
Qed.

Section SetupFacts.

Variable py_format : pyval -> string.
Variable W : Type.
Variable handle : forall R : Type, Cmd R -> W -> R * W.

Lemma get_secrets_entry (platform : string) (w : W) :
  exists rest,
    trace (run handle (get_secrets platform) w)
    = ENote (Called (call_get_secrets platform)) :: rest.
Proof. unfold get_secrets; simpl. eexists; reflexivity. Qed.

Lemma install_packages_entry (config : pyval) (w : W) :
  exists rest,
    trace (run handle (install_packages config) w)
    = ENote (Called (call_install_packages config)) :: rest.
Proof. unfold install_packages; simpl. eexists; reflexivity. Qed.

Lemma process_downloads_entry (config : pyval) (secrets : Secrets) (w : W) :
  exists rest,
    trace (run handle (process_downloads py_format config secrets) w)
    = ENote (Called (call_process_downloads config)) :: rest.
Proof. unfold process_downloads; simpl. eexists; reflexivity. Qed.

Opaque detect_platform get_secrets set_kaggle_credentials install_packages
  process_downloads.

(** What [setup] returns, and what it has entered by then. *)
Lemma setup_result (yaml_path : string) (w : W) (v : pyval) :
  outcome (run handle (setup py_format yaml_path) w) = Ok v ->
  (v = VBool true /\
   exists (config : dict) (platform : string),
     fst (handle (LoadYaml yaml_path) w) = Ok (VDict config) /\
     known_platform (Py.dict_get config "platform" (VStr "auto"))
     = Some platform /\
     In (call_install_packages (VDict config))
        (calls (trace (run handle (setup py_format yaml_path) w))) /\
     In (call_process_downloads (VDict config))
        (calls (trace (run handle (setup py_format yaml_path) w))))
  \/ (Py.truthy v = false /\
      calls (trace (run handle (setup py_format yaml_path) w))
      = [call_setup yaml_path]).
Proof.
  unfold setup. simpl.
  destruct (handle (LoadYaml yaml_path) w) as [loaded w0]; simpl.
  destruct loaded as [config | e].
  2:{ destruct e; simpl; intros H; try discriminate H;
        injection H as <-; right; split; reflexivity. }
  simpl. destruct config as [| | | | | config |]; simpl;
    try (intros H; discriminate H).
  destruct (known_platform (Py.dict_get config "platform" (VStr "auto")))
    as [pl |] eqn:Hpl; simpl.
  2:{ intros [= <-]. right; split; reflexivity. }
  rewrite run_bind. unfold then_run.
  destruct (run handle (if (pl =? "auto")%string then detect_platform
                        else Ret pl) w0)
    as [tr0 [platform | e] w1]; simpl; [| intros H; discriminate H].
  rewrite run_bind. unfold then_run.
  destruct (run handle (get_secrets platform) w1)
    as [tr1 [secrets | e] w2]; simpl; [| intros H; discriminate H].
  rewrite run_bind. unfold then_run.
  destruct (run handle (set_kaggle_credentials secrets) w2)
    as [tr2 [[] | e] w3]; simpl; [| intros H; discriminate H].
  rewrite run_bind. unfold then_run.
  destruct (install_packages_entry (VDict config) w3) as [rest3 H3].
  destruct (run handle (install_packages (VDict config)) w3)
    as [tr3 [[] | e] w4]; simpl in *; [| intros H; discriminate H].
  rewrite run_bind. unfold then_run.
  destruct (process_downloads_entry (VDict config) secrets w4) as [rest4 H4].
  destruct (run handle (process_downloads py_format (VDict config) secrets) w4)
    as [tr4 [[] | e] w5]; simpl in *; [| intros H; discriminate H].
  intros [= <-]. left. split; [reflexivity |].
  exists config, pl. split; [reflexivity |]. split; [exact Hpl |].
  subst tr3 tr4.
  split; right; apply in_calls;
    apply in_or_app; right; right;
    apply in_or_app; right;
    apply in_or_app; right.
  - apply in_or_app; left. left; reflexivity.
  - apply in_or_app; right. apply in_or_app; left. left; reflexivity.
Qed.

Opaque setup.

(** X24.  The exit status of [main] is decided by the configuration
    file and the platform alone.  When [main] returns a status at all,
    it is either 0, and then the configuration was loaded as a mapping,
    its platform is one of the four known names, and both
    [install_packages] and [process_downloads] were entered with that
    configuration and returned; or it is 1, and then [setup] stopped
    before entering any other function.  In particular downloads,
    extractions and installations that only print a warning do not
    change the status. *)
Theorem exit_status_of_setup :
  forall (yaml_path : string) (w : W) (z : Z),
    let r := run handle (main py_format "setup" yaml_path) w in
    outcome r = Ok z ->
    (z = 0%Z /\
     exists (config : dict) (platform : string),
       fst (handle (LoadYaml yaml_path) w) = Ok (VDict config) /\
       known_platform (Py.dict_get config "platform" (VStr "auto"))
       = Some platform /\
       In (call_install_packages (VDict config)) (calls (trace r)) /\
       In (call_process_downloads (VDict config)) (calls (trace r)))
    \/ (z = 1%Z /\ calls (trace r) = [call_setup yaml_path]).
Proof.
  intros yaml_path w z. cbv zeta. unfold main.
  change ("setup" =? "setup")%string with true. cbv iota.
  rewrite run_bind. unfold then_run.
  pose proof (setup_result yaml_path w) as Hs.
  destruct (run handle (setup py_format yaml_path) w) as [tr [v | e] w'];
    simpl in *; [| intros H; discriminate H].
  rewrite app_nil_r. intros [= <-].
  destruct (Hs v eq_refl) as [[-> Hex] | [Hv Hc]].
  - left. split; [reflexivity | exact Hex].
  - right. rewrite Hv. split; [reflexivity | exact Hc].
Qed.

Transparent setup.

(** X25.  A configuration file that cannot be read ends the program
    before anything else happens.  When it is missing, or is not valid
    YAML, [setup] prints the matching error line and [main] exits with
    status 1; any other exception of opening or parsing the file is not
    caught and leaves [main].  In all three cases nothing but the
    attempt to load the file has touched the world. *)
Theorem unreadable_config_is_fatal :
  forall (yaml_path : string) (e : exn) (w : W),
    fst (handle (LoadYaml yaml_path) w) = Err e ->
    let r := run handle (main py_format "setup" yaml_path) w in
    let attempt :=
      [ENote (Called (call_setup yaml_path));
       ECmd (LoadYaml yaml_path) (@Err pyval e)] in
    final r = snd (handle (LoadYaml yaml_path) w)
    /\ (e = FileNotFoundError ->
        trace r = attempt ++
          [ENote (Printed [Txt "[EnvKit] Error: Config file not found (";
                           Txt yaml_path; Txt ")"])]
        /\ outcome r = Ok 1%Z)
    /\ (e = YAMLError ->
        trace r = attempt ++
          [ENote (Printed [Txt "[EnvKit] Error: YAML syntax error (";
                           Exc YAMLError; Txt ")"])]
        /\ outcome r = Ok 1%Z)
    /\ (e <> FileNotFoundError -> e <> YAMLError ->
        trace r = attempt /\ outcome r = Err e).
Proof.
  intros yaml_path e w H. cbv zeta. unfold main, setup; simpl.
  destruct (handle (LoadYaml yaml_path) w) as [loaded w0]; simpl in *.
  subst loaded.
  destruct e; simpl;
    (split; [reflexivity |]);
    (split; [intros Hx; first [discriminate Hx | split; reflexivity] |]);
    (split; [intros Hx; first [discriminate Hx | split; reflexivity] |]);
    intros H1 H2;
    first [ split; reflexivity
          | exfalso; apply H1; reflexivity
          | exfalso; apply H2; reflexivity ].
Qed.

Opaque detect_platform get_secrets set_kaggle_credentials install_packages
  process_downloads.

(** X26.  A platform named in the configuration is taken as it is:
    for [colab], [kaggle] and [local] the run of [setup] goes from
    loading the file straight to [get_secrets] with that name, and no
    detection is made in between.  With [auto], or without a
    [platform] key, [detect_platform] runs right after the file is
    loaded and [get_secrets] is entered with the name it returned; an
    exception of the detection leaves [setup]. *)
Theorem configured_platform_is_not_detected :
  forall (yaml_path : string) (config : dict) (w : W),
    fst (handle (LoadYaml yaml_path) w) = Ok (VDict config) ->
    let r := run handle (setup py_format yaml_path) w in
    let w0 := snd (handle (LoadYaml yaml_path) w) in
    let loaded :=
      [ENote (Called (call_setup yaml_path));
       ECmd (LoadYaml yaml_path) (Ok (VDict config));
       ENote (Printed [Txt "[EnvKit] Info: Config file is "; Txt yaml_path])] in
    let chosen (platform : string) :=
      [ENote (Printed [Txt "[EnvKit] Info: Platform is "; Txt platform]);
       ENote (Called (call_get_secrets platform))] in
    (forall platform : string,
        Py.lookup "platform" config = Some (VStr platform) ->
        platform = "colab" \/ platform = "kaggle" \/ platform = "local" ->
        exists rest, trace r = loaded ++ chosen platform ++ rest)
    /\ (Py.lookup "platform" config = None \/
        Py.lookup "platform" config = Some (VStr "auto") ->
        let d := run handle detect_platform w0 in
        (forall platform : string, outcome d = Ok platform ->
           exists rest, trace r = loaded ++ trace d ++ chosen platform ++ rest)
        /\ (forall e, outcome d = Err e ->
              trace r = loaded ++ trace d /\ outcome r = Err e)).
Proof.
  intros yaml_path config w H. cbv zeta. unfold setup; simpl.
  destruct (handle (LoadYaml yaml_path) w) as [answer w0]; simpl in *.
  subst answer. simpl. unfold Py.dict_get.
  split.
  - intros platform Hpl Hcase. rewrite Hpl.
    destruct (get_secrets_entry platform w0) as [rest Hrest].
    destruct Hcase as [-> | [-> | ->]]; simpl;
      rewrite run_bind; unfold then_run;
      match goal with
      | |- context [run handle (get_secrets ?p) w0] =>
          destruct (run handle (get_secrets p) w0) as [tr [s | e] w1]
      end; simpl in *; subst tr; eexists; reflexivity.
  - intros Hcase.
    assert (Hknown :
      known_platform
        match Py.lookup "platform" config with
        | Some v => v
        | None => VStr "auto"
        end = Some "auto")
      by (destruct Hcase as [-> | ->]; reflexivity).
    rewrite Hknown. simpl.
    rewrite run_bind. unfold then_run.
    destruct (run handle detect_platform w0) as [trd [platform | e] w1];
      simpl.
    + split; [| intros e He; discriminate He].
      intros p [= <-].
      rewrite run_bind. unfold then_run.
      destruct (get_secrets_entry platform w1) as [rest Hrest].
      destruct (run handle (get_secrets platform) w1) as [tr [s | e] w2];
        simpl in *; subst tr; eexists; rewrite <- ?app_assoc; simpl;
        reflexivity.
    + split; [intros p Hp; discriminate Hp |].
      intros e' [= <-]. split; reflexivity.
Qed.

Transparent detect_platform get_secrets set_kaggle_credentials
  install_packages process_downloads.

End SetupFacts.

Definition local_config : dict := [("platform", VStr "local")].

Definition local_world : RefWorld.world :=
  RefWorld.mk [] [] [] [("envkit.yaml", VDict local_config)] [].

Lemma exit_status_of_setup_witness :
  let r := run RefWorld.handle (main RefWorld.format "setup" "envkit.yaml")
             local_world in
  outcome r = Ok 0%Z /\
  ((0%Z = 0%Z /\
    exists (config : dict) (platform : string),
      fst (RefWorld.handle (LoadYaml "envkit.yaml") local_world)
      = Ok (VDict config) /\
      known_platform (Py.dict_get config "platform" (VStr "auto"))
      = Some platform /\
      In (call_install_packages (VDict config)) (calls (trace r)) /\
      In (call_process_downloads (VDict config)) (calls (trace r)))
   \/ (0%Z = 1%Z /\ calls (trace r) = [call_setup "envkit.yaml"])).
Proof.
  cbv zeta. split; [reflexivity |].
  apply (@exit_status_of_setup RefWorld.format _ RefWorld.handle
           "envkit.yaml" local_world 0%Z).
  reflexivity.
Defined.

Lemma unreadable_config_is_fatal_witness :
  fst (RefWorld.handle (LoadYaml "envkit.yaml") RefWorld.empty)
  = Err FileNotFoundError /\
  let r := run RefWorld.handle (main RefWorld.format "setup" "envkit.yaml")
             RefWorld.empty in
  outcome r = Ok 1%Z /\ final r = RefWorld.empty.
Proof.
  split; [reflexivity |].
  destruct (@unreadable_config_is_fatal RefWorld.format _ RefWorld.handle
              "envkit.yaml" FileNotFoundError RefWorld.empty eq_refl)
    as (Hfinal & Hmissing & _).
  split; [exact (proj2 (Hmissing eq_refl)) | exact Hfinal].
Defined.

Lemma configured_platform_is_not_detected_witness :
  fst (RefWorld.handle (LoadYaml "envkit.yaml") local_world)
  = Ok (VDict local_config) /\
  exists rest,
    trace (run RefWorld.handle (setup RefWorld.format "envkit.yaml") local_world)
    = [ENote (Called (call_setup "envkit.yaml"));
       ECmd (LoadYaml "envkit.yaml") (Ok (VDict local_config));
       ENote (Printed [Txt "[EnvKit] Info: Config file is "; Txt "envkit.yaml"]);
       ENote (Printed [Txt "[EnvKit] Info: Platform is "; Txt "local"]);
       ENote (Called (call_get_secrets "local"))] ++ rest.
Proof.
  split; [reflexivity |].
  destruct (@configured_platform_is_not_detected RefWorld.format _
              RefWorld.handle "envkit.yaml" local_config local_world eq_refl)
    as (Hnamed & _).
  destruct (Hnamed "local" eq_refl (or_intror (or_intror eq_refl)))
    as [rest Hrest].
  exists rest. exact Hrest.
Defined.

(* ================================================================== *)
(** ** The packages the module needs

    Lines 12-25 run when the module is loaded, before any function is
    defined: every required package that cannot be imported is
    installed with [pip]. *)

(** [REQUIRED_PACKAGES]: import name, pip name, in the order of the
    dictionary. *)
Definition REQUIRED_PACKAGES : list (string * string) :=
  [("yaml", "PyYAML");
   ("kaggle", "kaggle");
   ("dotenv", "python-dotenv");
   ("nbconvert", "nbconvert")].

(** The body of the loop, lines 21-25.  The [try] encloses the import
    only; the installation runs in the handler. *)
Definition require_package (entry : string * string) : Prog unit :=
  let (import_name, pip_name) := entry in
  try_except
    (do_ (Import import_name))
    is_ImportError
    (fun _ =>
       print [Txt "[EnvKit] Info: Installing "; Txt pip_name; Txt "..."] ;;
       do_ (SubprocessRun [SysExecutable; lit "-m"; lit "pip"; lit "install";
                           lit pip_name])).

(** The loop, lines 20-25. *)
Definition require_packages : Prog unit :=
  for_each REQUIRED_PACKAGES require_package.

(** The imports attempted, each with its answer. *)
Definition import_of (e : event) : option (string * result unit) :=
  match e with
  | ECmd c r =>
      match c in Cmd R return R -> option (string * result unit) with
      | Import module => fun r => Some (module, r)
      | _ => fun _ => None
      end r
  | _ => None
  end.

Definition imports (tr : list event) := filter_map import_of tr.

(** [REQUIRED_PACKAGES[import_name]] *)
Definition pip_name_of (import_name : string) : option string :=
  option_map snd
    (find (fun entry => String.eqb (fst entry) import_name) REQUIRED_PACKAGES).

(** The installations that a list of import answers calls for: one for
    each import that failed with [ImportError]. *)
Definition installs_for (answers : list (string * result unit))
  : list (list arg) :=
  filter_map
    (fun answer =>
       match snd answer with
       | Err ImportError =>
           option_map (fun pip_name => pip_install [VStr pip_name])
             (pip_name_of (fst answer))
       | _ => None
       end)
    answers.

Ltac require_step handle :=
  match goal with
  | |- context [handle _ (Import ?m) ?w] =>
      let a := fresh "a" in let w' := fresh "w" in
      destruct (handle _ (Import m) w) as [[[] | a] w']; simpl;
      [| destruct a; simpl]
  | |- context [handle _ (SubprocessRun ?c) ?w] =>
      let a := fresh "a" in let w' := fresh "w" in
      destruct (handle _ (SubprocessRun c) w) as [[[] | a] w']; simpl
  end.

Ltac pair_cases :=
  repeat match goal with
         | H : _ \/ _ |- _ => destruct H
         | H : False |- _ => contradiction
         | H : (_, _) = (_, _) |- _ =>
             first [discriminate H | injection H as <- <-; reflexivity]
         end.

Section RequiredPackages.

Variable W : Type.
Variable handle : forall R : Type, Cmd R -> W -> R * W.

(** X27.  When the module is loaded, the four required packages are
    tried in the order [yaml], [kaggle], [dotenv], [nbconvert].  [pip
    install] is started exactly for the packages whose import raised
    [ImportError], in that order and under their pip names, and for
    nothing else.  The loop ends normally only after all four packages
    were tried and every installation it started succeeded: unlike in
    [install_packages], a failed installation is not caught and stops
    the loading of the module. *)
Theorem required_packages_installed_when_missing :
  forall (w : W),
    let r := run handle require_packages w in
    map fst (subprocesses (trace r)) = installs_for (imports (trace r))
    /\ (outcome r = Ok tt ->
        map fst (imports (trace r)) = ["yaml"; "kaggle"; "dotenv"; "nbconvert"]
        /\ Forall (fun s => snd s = Ok tt) (subprocesses (trace r)))
    /\ (forall argv e, In (argv, Err e) (subprocesses (trace r)) ->
        outcome r = Err e).
Proof.
  intros w. cbv zeta. unfold require_packages, REQUIRED_PACKAGES.
  unfold subprocesses, imports, installs_for. simpl.
  repeat (require_step handle);
    (split; [reflexivity |]);
    (split;
     [ intros H; first [discriminate H
                       | split; [reflexivity | repeat constructor]]
     | intros argv e' Hin; simpl in Hin; pair_cases ]).
Qed.

End RequiredPackages.

(* ================================================================== *)
(** ** Values of [download] that are no tasks *)

Lemma chars_nonempty (s : string) :
  s <> "" -> exists c rest, PyString.chars s = c :: rest.
Proof.
  destruct s as [| a s']; [intros H; contradiction H; reflexivity |].
  intros _. simpl. eexists; eexists; reflexivity.
Qed.

Section DownloadValues.

Variable py_format : pyval -> string.
Variable W : Type.
Variable handle : forall R : Type, Cmd R -> W -> R * W.
Variable secrets : Secrets.

(** X28.  A [download] value has to be a mapping or a list.  A number
    other than zero or the boolean [True] makes [process_downloads]
    raise [TypeError] at [len], before its information line.  A
    non-empty string is taken for a sequence of tasks, one for each
    character: the line printed counts the characters, and the first
    of them raises [AttributeError].  In both cases nothing in the
    outside world is called. *)
Theorem process_downloads_rejects_scalars :
  forall (config : dict) (v : pyval) (w : W),
    Py.lookup "download" config = Some v ->
    Py.truthy v = true ->
    let r := run handle (process_downloads py_format (VDict config) secrets) w in
    let entry := ENote (Called (call_process_downloads (VDict config))) in
    ((exists z, v = VInt z) \/ (exists b, v = VBool b) ->
       r = mkRun [entry] (Err TypeError) w)
    /\ (forall s, v = VStr s ->
        r = mkRun
              [entry;
               ENote (Printed [Txt "[EnvKit] Info: Processing ";
                               Num (String.length s);
                               Txt " download tasks..."])]
              (Err AttributeError) w).
Proof.
  intros config v w Hd Hv. cbv zeta.
  unfold process_downloads; simpl. unfold Py.dict_get. rewrite Hd; simpl.
  rewrite Hv; simpl.
  split.
  - intros [[z ->] | [b ->]]; reflexivity.
  - intros s ->. simpl.
    destruct (@chars_nonempty s) as (c & rest & Hchars).
    { intros ->. discriminate Hv. }
    rewrite Hchars. reflexivity.
Qed.

End DownloadValues.

Lemma process_downloads_rejects_scalars_witness :
  Py.lookup "download" [("download", VStr "data.zip")] = Some (VStr "data.zip") /\
  Py.truthy (VStr "data.zip") = true /\
  run RefWorld.handle
    (process_downloads RefWorld.format (VDict [("download", VStr "data.zip")])
       no_secrets) RefWorld.empty
  = mkRun
      [ENote (Called (call_process_downloads
                        (VDict [("download", VStr "data.zip")])));
       ENote (Printed [Txt "[EnvKit] Info: Processing "; Num 8;
                       Txt " download tasks..."])]
      (Err AttributeError) RefWorld.empty.
Proof.
  split; [reflexivity |]. split; [reflexivity |].
  destruct (@process_downloads_rejects_scalars RefWorld.format _
              RefWorld.handle no_secrets [("download", VStr "data.zip")]
              (VStr "data.zip") RefWorld.empty eq_refl eq_refl)
    as (_ & Hstr).
  exact (Hstr "data.zip" eq_refl).
Defined.

(* ================================================================== *)
(** ** The order of [setup] *)

(** The kinds of events of [setup] up to and including its credentials
    block: lines printed, the functions entered there, the load of the
    configuration, imports, existence tests, secret lookups and the
    process environment. *)
Definition prelude_kinds : list kind :=
  [KPrint; KEnterOther; KLoadYaml; KImport; KStat; KSecretStore; KDotenv;
   KGetEnv; KSetEnv].

Ltac incl_kinds :=
  let k := fresh "k" in let Hk := fresh "Hk" in
  intros k Hk; simpl in Hk;
  repeat (destruct Hk as [<- | Hk]; [in_list |]);
  contradiction.

Lemma of_kinds_incl (ks1 ks2 : list kind) :
  incl ks1 ks2 -> forall e, of_kinds ks1 e -> of_kinds ks2 e.
Proof. intros H e. apply H. Qed.

Lemma set_kaggle_credentials_kinds (secrets : Secrets) :
  emits_only (of_kinds prelude_kinds) (set_kaggle_credentials secrets).
Proof. unfold set_kaggle_credentials. emits_tac. Qed.

Lemma all_prelude (tr : list event) :
  Forall (of_kinds prelude_kinds) tr ->
  exists pre post,
    tr = pre ++ post /\ Forall (of_kinds prelude_kinds) pre /\
    env_writes post = [].
Proof.
  intros H. exists tr, []. rewrite app_nil_r.
  split; [reflexivity | split; [exact H | reflexivity]].
Qed.

Section SetupOrder.

Variable py_format : pyval -> string.
Variable W : Type.
Variable handle : forall R : Type, Cmd R -> W -> R * W.

Opaque detect_platform get_secrets set_kaggle_credentials install_packages
  process_downloads.

(** X29.  In every run of [setup] the Kaggle credentials are exported
    before any work starts.  The run splits in two: a first part in
    which nothing is installed, fetched, extracted, removed or executed
    and no subprocess or network call is made (it holds only printed
    lines, the load of the configuration, platform detection, the
    gathering of secrets and the assignments to [os.environ]), and a
    second part, the installation of packages and the download tasks,
    in which nothing is assigned to [os.environ] any more. *)
Theorem credentials_are_set_before_any_work :
  forall (yaml_path : string) (w : W),
    exists pre post,
      trace (run handle (setup py_format yaml_path) w) = pre ++ post
      /\ Forall (of_kinds prelude_kinds) pre
      /\ env_writes post = [].
Proof.
  intros yaml_path w. unfold setup. simpl.
  destruct (handle (LoadYaml yaml_path) w) as [loaded w0]; simpl.
  destruct loaded as [config | e].
  2:{ apply all_prelude.
      destruct e; simpl;
        repeat (apply Forall_cons; [unfold of_kinds; in_list |]);
        apply Forall_nil. }
  simpl. destruct (Py.get config "platform" (VStr "auto")) as [pv | e]; simpl.
  2:{ apply all_prelude.
      repeat (apply Forall_cons; [unfold of_kinds; in_list |]).
      apply Forall_nil. }
  destruct (known_platform pv) as [pl |]; simpl.
  2:{ apply all_prelude.
      repeat (apply Forall_cons; [unfold of_kinds; in_list |]).
      apply Forall_nil. }
  rewrite run_bind. unfold then_run.
  set (resolve := if (pl =? "auto")%string then detect_platform else Ret pl).
  assert (Hresolve : Forall (of_kinds prelude_kinds)
                       (trace (run handle resolve w0))).
  { apply emits_only_run. unfold resolve.
    destruct (pl =? "auto")%string; [| exact I].
    eapply emits_only_impl; [| apply detect_platform_kinds].
    apply of_kinds_incl. incl_kinds. }
  destruct (run handle resolve w0) as [tr0 [platform | e] w1]; simpl in *.
  2:{ apply all_prelude.
      repeat (apply Forall_cons; [unfold of_kinds; in_list |]).
      exact Hresolve. }
  rewrite run_bind. unfold then_run.
  assert (Hsecrets : Forall (of_kinds prelude_kinds)
                       (trace (run handle (get_secrets platform) w1))).
  { apply emits_only_run.
    eapply emits_only_impl; [| apply get_secrets_kinds].
    apply of_kinds_incl. incl_kinds. }
  destruct (run handle (get_secrets platform) w1)
    as [tr1 [secrets | e] w2]; simpl in *.
  2:{ apply all_prelude.
      repeat (apply Forall_cons; [unfold of_kinds; in_list |]).
      apply Forall_app; split; [exact Hresolve |].
      apply Forall_cons; [unfold of_kinds; in_list | exact Hsecrets]. }
  rewrite run_bind. unfold then_run.
  rewrite set_kaggle_credentials_returns.
  pose proof (@emits_only_run _ handle _ _ _ w2
                (set_kaggle_credentials_kinds secrets)) as Hcred.
  exists (ENote (Called (call_setup yaml_path))
          :: ECmd (LoadYaml yaml_path) (Ok config)
          :: ENote (Printed [Txt "[EnvKit] Info: Config file is ";
                             Txt yaml_path])
          :: tr0
          ++ ENote (Printed [Txt "[EnvKit] Info: Platform is "; Txt platform])
          :: tr1
          ++ trace (run handle (set_kaggle_credentials secrets) w2)).
  eexists. split; [| split].
  - simpl. rewrite <- !app_assoc. simpl. rewrite <- !app_assoc. reflexivity.
  - repeat (apply Forall_cons; [unfold of_kinds; in_list |]).
    apply Forall_app; split; [exact Hresolve |].
    apply Forall_cons; [unfold of_kinds; in_list |].
    apply Forall_app; split; [exact Hsecrets | exact Hcred].
  - apply (@quiet_run _ handle), setup_rest_quiet.
Qed.

Transparent detect_platform get_secrets set_kaggle_credentials
  install_packages process_downloads.

End SetupOrder.
